(** * Seat booking server: a shallow embedding of the booking engine

  The server of [SeatGrid.jsx] (the Express application that follows the
  React component in that file) keeps its state in module-level
  collections ([users], [seatDefinitions], [bookings], [locks], [leaves],
  [batchSchedule], [holidays]) and mutates them from the request
  handlers.  Here the collections are the fields of a [State] record and
  every handler is a function from the state, the values it reads from
  the ambient clock and the request to a new state and a response. *)

From Stdlib Require Import ZArith List Bool Lia Ascii.
From stdpp Require Import gmap strings list fin_maps pretty.
Import ListNotations.

Local Open Scope Z_scope.

(** ** Calendar

  The server handles dates as ['YYYY-MM-DD'] strings and hands them to
  the moment library for every calendar question.  A date is represented
  by the number of its day counted from 1970-01-01 (a Thursday), so that
  two date strings are equal exactly when their day numbers are, and
  moment's day arithmetic is integer arithmetic.

  The server compares and stores the date strings as it receives them.
  The representation is exact for dates written ['YYYY-MM-DD'], the form
  in which the client sends them (the value of its date input); another
  spelling of a day, which moment would still parse, is a different key
  for the server and has no counterpart here. *)
Module Calendar.

Abbreviation Date := Z.

(** Day number of the civil date [y]-[m]-[d] (proleptic Gregorian). *)
Definition days_from_civil (y m d : Z) : Z :=
  let y' := if m <=? 2 then y - 1 else y in
  let era := y' / 400 in
  let yoe := y' - era * 400 in
  let mp := if m >? 2 then m - 3 else m + 9 in
  let doy := (153 * mp + 2) / 5 + d - 1 in
  let doe := yoe * 365 + yoe / 4 - yoe / 100 + doy in
  era * 146097 + doe - 719468.

(** Calendar year of a day number. *)
Definition year_of_day (n : Z) : Z :=
  let z := n + 719468 in
  let era := z / 146097 in
  let doe := z - era * 146097 in
  let yoe := (doe - doe / 1460 + doe / 36524 - doe / 146096) / 365 in
  let doy := doe - (365 * yoe + yoe / 4 - yoe / 100) in
  let mp := (5 * doy + 2) / 153 in
  let m := if mp <? 10 then mp + 3 else mp - 9 in
  if m <=? 2 then yoe + era * 400 + 1 else yoe + era * 400.

(** [moment(..).day()]: 0 is Sunday, 6 is Saturday. *)
Definition day (d : Date) : Z := (d + 4) mod 7.

(** Position in the ISO week, 0 for Monday up to 6 for Sunday. *)
Definition isoWeekdayIndex (d : Date) : Z := (d + 3) mod 7.

(** [startOf('isoWeek')] and [endOf('isoWeek')], at the granularity of
    days: the Monday and the Sunday of the week of [d]. *)
Definition startOfIsoWeek (d : Date) : Date := d - isoWeekdayIndex d.
Definition endOfIsoWeek (d : Date) : Date := startOfIsoWeek d + 6.

(** The ISO week-numbering year: the calendar year of the Thursday of
    the week. *)
Definition isoWeekYear (d : Date) : Z := year_of_day (startOfIsoWeek d + 3).

(** [moment(..).isoWeek()]: the week whose Thursday is the first
    Thursday of the year is week 1. *)
Definition isoWeek (d : Date) : Z :=
  (startOfIsoWeek d + 3 - days_from_civil (isoWeekYear d) 1 1) / 7 + 1.

(** [moment(..).isoWeek(w)], the setter: moment moves the date by whole
    weeks, [(w - isoWeek) * 7] days. *)
Definition setIsoWeek (d : Date) (w : Z) : Date := d + (w - isoWeek d) * 7.

Inductive DayName := Sun | Mon | Tue | Wed | Thu | Fri | Sat.

Definition DayName_eqb (a b : DayName) : bool :=
  match a, b with
  | Sun, Sun | Mon, Mon | Tue, Tue | Wed, Wed
  | Thu, Thu | Fri, Fri | Sat, Sat => true
  | _, _ => false
  end.

(** [moment(..).format('ddd')]. *)
Definition format_ddd (d : Date) : DayName :=
  match day d with
  | 0 => Sun | 1 => Mon | 2 => Tue | 3 => Wed | 4 => Thu | 5 => Fri
  | _ => Sat
  end.

End Calendar.
Export Calendar.


(** ** Data model

    Identifiers are kept as the server has them: user ids and batch names
    are strings, seat ids are numbers.  The fields of a user that the
    booking engine never reads (name, e-mail, password hash) are left
    out.  Records of different collections share field names in the
    source; here they carry a prefix. *)

Abbreviation UserId := string.
Abbreviation SeatId := Z.

Inductive SeatType := designated | floater.

Record User := mkUser {
  userId : UserId;
  batch : string;
  designatedSeatId : option SeatId;
  floaterLeaveCount : Z;
  isAdmin : bool }.

Record SeatDef := mkSeatDef {
  seatId : SeatId;
  type : SeatType;
  assignedTo : option UserId }.

Record Booking := mkBooking {
  b_date : Date;
  b_seatId : SeatId;
  b_userId : UserId;
  bookedAt : Z }.

Record Lock := mkLock {
  l_date : Date;
  l_seatId : SeatId;
  l_userId : UserId;
  lockExpiry : Z }.

Record Leave := mkLeave {
  lv_userId : UserId;
  lv_date : Date;
  lv_seatId : option SeatId }.

(** One entry of the batch rotation: the weekdays of the odd and of the
    even ISO weeks.  A missing list reads as the empty list, as
    [schedule[weekType] || []] does. *)
Record Schedule := mkSchedule {
  week1 : list DayName;
  week2 : list DayName }.

Record State := mkState {
  users : gmap string User;
  seatDefinitions : list SeatDef;
  bookings : list Booking;
  locks : list Lock;
  leaves : list Leave;
  batchSchedule : gmap string Schedule;
  holidays : gset Z }.

Definition set_users (st : State) (v : gmap string User) : State :=
  mkState v (seatDefinitions st) (bookings st) (locks st) (leaves st)
          (batchSchedule st) (holidays st).
Definition set_seatDefinitions (st : State) (v : list SeatDef) : State :=
  mkState (users st) v (bookings st) (locks st) (leaves st)
          (batchSchedule st) (holidays st).
Definition set_bookings (st : State) (v : list Booking) : State :=
  mkState (users st) (seatDefinitions st) v (locks st) (leaves st)
          (batchSchedule st) (holidays st).
Definition set_locks (st : State) (v : list Lock) : State :=
  mkState (users st) (seatDefinitions st) (bookings st) v (leaves st)
          (batchSchedule st) (holidays st).
Definition set_leaves (st : State) (v : list Leave) : State :=
  mkState (users st) (seatDefinitions st) (bookings st) (locks st) v
          (batchSchedule st) (holidays st).
Definition set_batchSchedule (st : State) (v : gmap string Schedule) : State :=
  mkState (users st) (seatDefinitions st) (bookings st) (locks st) (leaves st)
          v (holidays st).
Definition set_holidays (st : State) (v : gset Z) : State :=
  mkState (users st) (seatDefinitions st) (bookings st) (locks st) (leaves st)
          (batchSchedule st) v.

(** What one request reads from the ambient clock, in the order of the
    reads: [moment()] in the policy check (local date and hour), [nowTs()]
    in [clearExpiredLocksForDate], the [nowTs()] that follows it in the
    handler, and [new Date()] at the commit. *)
Record Clock := mkClock {
  today : Date;
  hour : Z;
  tsPurge : Z;
  tsCheck : Z;
  tsCommit : Z }.

(** ** Constants *)

Definition LOCK_DURATION_MS : Z := 2 * 60 * 1000.
Definition MAX_SEATS_PER_BOOKING : Z := 5.
Definition FLOATER_SEAT_COUNT : Z := 10.

Definition DEFAULT_BATCH_SCHEDULE : gmap string Schedule :=
  <["batch1" := mkSchedule [Mon; Tue; Wed] [Thu; Fri]]>
  (<["batch2" := mkSchedule [Thu; Fri] [Mon; Tue; Wed]]> ∅).

(** [initSeatDefinitions]: seats 1..50, the last ten of them floaters. *)
Definition initSeatDefinitions : list SeatDef :=
  let totalSeats := 50 in
  let floaterStart := totalSeats - FLOATER_SEAT_COUNT + 1 in
  List.map (fun n =>
         let seatId := Z.of_nat n in
         mkSeatDef seatId (if floaterStart <=? seatId then floater else designated) None)
      (seq 1 (Z.to_nat totalSeats)).

Definition initialState : State :=
  mkState ∅ initSeatDefinitions [] [] [] DEFAULT_BATCH_SCHEDULE ∅.

(** ** Responses

    The texts of the responses are the constructors of [Message]; a text
    built from a template carries the interpolated seat id. *)

Inductive Message :=
| MsgUnauthorized
| MsgAdminRequired
| MsgDateRequired
| MsgSeatIdsNonEmpty
| MsgSeatNotExist (seat : SeatId)
| MsgWeekendHoliday
| MsgLockWeekendHoliday
| MsgOnLeave
| MsgAdvanceBooking
| MsgNotAssigned (seat : SeatId)
| MsgBatchDays
| MsgAlreadyBooked (seat : SeatId)
| MsgLockedByOther (seat : SeatId)
| MsgLockExpired (seat : SeatId)
| MsgMaxSeats
| MsgSeatsLocked
| MsgSeatsUnlocked
| MsgBookingSuccessful
| MsgCancelNotOwn (seat : SeatId)
| MsgBookingCancelled
| MsgLeaveRecorded
| MsgNewBatchInvalid
| MsgActiveBooking
| MsgReset
| MsgDateSeatRequired
| MsgBookingCleared (seat : SeatId)
| MsgScheduleRequired
| MsgScheduleUpdated
| MsgSeatTypeRequired
| MsgSeatNotFound
| MsgSeatConverted (seat : SeatId)
| MsgUserSeatRequired
| MsgUserNotFound
| MsgSeatAssigned (seat : SeatId)
| MsgHolidayUpdated.

Inductive Warning :=
| WarnWeekendHoliday
| WarnFloaterOnly
| WarnAttendance (attended required : Z)
| WarnOnLeave.

Inductive SeatStatus := available | locked | occupied.

Record SeatView := mkSeatView {
  v_seatId : SeatId;
  v_row : ascii;
  v_number : Z;
  v_status : SeatStatus;
  v_bookedBy : option UserId;
  v_lockedBy : option UserId;
  v_lockExpiry : option Z;
  v_type : SeatType;
  v_assignedTo : option UserId }.

Record SeatWithUserFlags := mkSeatWithUserFlags {
  f_seat : SeatView;
  f_userId : UserId;
  isUserDesignatedSeat : bool;
  effectiveType : SeatType }.

Record PolicySummary := mkPolicySummary {
  isWeekendOrHoliday : bool;
  isBatchDay : bool;
  canUseDesignatedToday : bool;
  isFloaterOnlyDay : bool;
  attendanceCount : Z;
  attendanceRequired : Z;
  onLeave : bool;
  warnings : list Warning }.

(** A response is the success body with its message and [bookedSeats]
    (empty where the handler sends none), an error status with its
    message, the user view of the batch switch, or the seat layout. *)
Inductive Response :=
| RespOk (message : Message) (bookedSeats : list SeatId)
| RespErr (status : Z) (message : Message)
| RespUser (user : User)
| RespSeats (seats : list SeatWithUserFlags) (policy : PolicySummary).

(** ** Utilities *)

(** JavaScript truthiness of a number ([0] is falsy) and of a string or
    [null] (the empty string and [null] are falsy). *)
Definition truthyNum (n : Z) : bool := negb (n =? 0).

Definition truthyStr (o : option string) : option string :=
  match o with
  | Some s => if String.eqb s EmptyString then None else Some s
  | None => None
  end.

Definition truthySeat (o : option SeatId) : bool :=
  match o with
  | Some n => truthyNum n
  | None => false
  end.

(** The test [if (x)] on the result [x] of [Array.prototype.find] over
    numbers: [undefined] is falsy, and so is a found [0]. *)
Definition truthyFound (o : option Z) : option Z :=
  match o with
  | Some n => if truthyNum n then Some n else None
  | None => None
  end.

(** [Array.prototype.findIndex], with [None] for [-1]. *)
Fixpoint findIndex {A : Type} (p : A -> bool) (l : list A) : option nat :=
  match l with
  | [] => None
  | x :: rest => if p x then Some O else option_map S (findIndex p rest)
  end.

Definition getSeatDefinition (st : State) (id : SeatId) : option SeatDef :=
  List.find (fun s => seatId s =? id) (seatDefinitions st).

Definition validateSeatIds (st : State) (seatIds : list SeatId) : option Message :=
  if (Z.of_nat (length seatIds) =? 0) then Some MsgSeatIdsNonEmpty
  else
    let invalid :=
      List.find (fun id => match getSeatDefinition st id with
                           | Some _ => false
                           | None => true
                           end) seatIds in
    match truthyFound invalid with
    | Some invalid => Some (MsgSeatNotExist invalid)
    | None => None
    end.

Definition isWeekend (dateStr : Date) : bool :=
  (day dateStr =? 0) || (day dateStr =? 6).

Definition isHoliday (st : State) (dateStr : Date) : bool :=
  bool_decide (dateStr ∈ holidays st).

Inductive WeekType := weekOne | weekTwo.

Definition getWeekType (dateStr : Date) : WeekType :=
  if isoWeek dateStr mod 2 =? 0 then weekTwo else weekOne.

Definition getDayName (dateStr : Date) : DayName := format_ddd dateStr.

Definition isBatchScheduledOnDate (st : State) (batch : string) (dateStr : Date) : bool :=
  let weekType := getWeekType dateStr in
  let dayName := getDayName dateStr in
  match batchSchedule st !! batch with
  | None => false
  | Some schedule =>
      let allowedDays :=
        match weekType with weekOne => week1 schedule | weekTwo => week2 schedule end in
      existsb (DayName_eqb dayName) allowedDays
  end.

(** [getCycleBounds]: [start] is the first and [end] the last day of the
    cycle (the source's moments are the start of the first and the end of
    the last day; every comparison made with them is by day). *)
Definition getCycleBounds (dateStr : Date) : Date * Date :=
  let d := dateStr in
  let isoWeek := isoWeek d in
  let isWeek1 := isoWeek mod 2 =? 1 in
  let week1Num := if isWeek1 then isoWeek else isoWeek - 1 in
  let week2Num := week1Num + 1 in
  let start := startOfIsoWeek (setIsoWeek d week1Num) in
  let end_ := endOfIsoWeek (setIsoWeek d week2Num) in
  (start, end_).

(** [d.isBetween(start, end, 'day', '[]')]. *)
Definition isBetween (d start end_ : Date) : bool :=
  (start <=? d) && (d <=? end_).

(** The set [days] that [getAttendanceCountForCycle] fills with the dates
    of the user's bookings in the cycle; the dates are the keys of the
    bookings, each written ['YYYY-MM-DD']. *)
Definition attendanceDays (st : State) (userId : UserId) (dateStr : Date) : gset Z :=
  let '(start, end_) := getCycleBounds dateStr in
  list_to_set
    (List.map b_date
       (List.filter (fun b => isBetween (b_date b) start end_)
          (List.filter (fun b => String.eqb (b_userId b) userId) (bookings st)))).

Definition getAttendanceCountForCycle (st : State) (userId : UserId) (dateStr : Date) : Z :=
  Z.of_nat (size (attendanceDays st userId dateStr)).

(** [clearExpiredLocksForDate], with the value [now] of its clock read. *)
Definition clearExpiredLocksForDate (now : Z) (dateStr : Date) (st : State) : State :=
  set_locks st
    (List.filter (fun l => if negb (l_date l =? dateStr) then true else now <? lockExpiry l)
       (locks st)).

Definition findBooking (st : State) (dateStr : Date) (seat : SeatId) : option Booking :=
  List.find (fun b => (b_date b =? dateStr) && (b_seatId b =? seat)) (bookings st).

Definition findLock (st : State) (dateStr : Date) (seat : SeatId) : option Lock :=
  List.find (fun l => (l_date l =? dateStr) && (l_seatId l =? seat)) (locks st).

(** The view of one seat, the body of the [map] in
    [getSeatStateForDate]. *)
Definition projectSeat (st : State) (now : Z) (dateStr : Date) (index : nat) (def : SeatDef) : SeatView :=
  let booking := findBooking st dateStr (seatId def) in
  let lock :=
    List.find (fun l => (l_date l =? dateStr) && (l_seatId l =? seatId def)
                        && (now <? lockExpiry l)) (locks st) in
  let rowIndex := Z.of_nat index / 10 in
  let row := ascii_of_nat (Z.to_nat (65 + rowIndex)) in
  let number := Z.of_nat index mod 10 + 1 in
  match booking, lock with
  | Some b, _ =>
      mkSeatView (seatId def) row number occupied (Some (b_userId b)) None None
                 (type def) (assignedTo def)
  | None, Some l =>
      mkSeatView (seatId def) row number locked None (Some (l_userId l))
                 (Some (lockExpiry l)) (type def) (assignedTo def)
  | None, None =>
      mkSeatView (seatId def) row number available None None None
                 (type def) (assignedTo def)
  end.

(** [getSeatStateForDate]: purges the expired locks of the date, reads
    the clock again and projects every seat of the catalogue. *)
Definition getSeatStateForDate (clk : Clock) (dateStr : Date) (st : State) : State * list SeatView :=
  let st1 := clearExpiredLocksForDate (tsPurge clk) dateStr st in
  let now := tsCheck clk in
  (st1, imap (projectSeat st1 now dateStr) (seatDefinitions st1)).

Definition isUserOnLeave (st : State) (userId : UserId) (dateStr : Date) : bool :=
  existsb (fun l => String.eqb (lv_userId l) userId && (lv_date l =? dateStr)) (leaves st).

Definition buildPolicySummary (st : State) (user : User) (dateStr : Date) : PolicySummary :=
  let weekend := isWeekend dateStr in
  let holiday := isHoliday st dateStr in
  let isWeekendOrHoliday := weekend || holiday in
  let isBatchDay := isBatchScheduledOnDate st (batch user) dateStr in
  let canUseDesignatedToday := isBatchDay in
  let isFloaterOnlyDay := negb isBatchDay && negb isWeekendOrHoliday in
  let attendanceCount := getAttendanceCountForCycle st (userId user) dateStr in
  let attendanceRequired := 5 in
  let onLeave := isUserOnLeave st (userId user) dateStr in
  let warnings :=
    (if isWeekendOrHoliday then [WarnWeekendHoliday]
     else if isFloaterOnlyDay then [WarnFloaterOnly] else [])
    ++ (if attendanceCount <? attendanceRequired
        then [WarnAttendance attendanceCount attendanceRequired] else [])
    ++ (if onLeave then [WarnOnLeave] else []) in
  mkPolicySummary isWeekendOrHoliday isBatchDay canUseDesignatedToday
                  isFloaterOnlyDay attendanceCount attendanceRequired onLeave warnings.

(** ** Policy validation *)

(** Step 5 of [validateBookingPolicy], the loop over the requested
    seats. *)
Fixpoint checkSeatOwnership (st : State) (user : User) (dateStr : Date)
    (isBatchDay : bool) (seatIds : list SeatId) : option Message :=
  match seatIds with
  | [] => None
  | seatId :: rest =>
      match getSeatDefinition st seatId with
      | None => Some (MsgSeatNotExist seatId)
      | Some def =>
          match type def, truthyStr (assignedTo def) with
          | designated, Some ownerId =>
              let ownerOnLeave := isUserOnLeave st ownerId dateStr in
              if ownerOnLeave then
                checkSeatOwnership st user dateStr isBatchDay rest
              else if negb (String.eqb ownerId (userId user)) then
                Some (MsgNotAssigned seatId)
              else if negb isBatchDay then
                Some MsgBatchDays
              else checkSeatOwnership st user dateStr isBatchDay rest
          | _, _ => checkSeatOwnership st user dateStr isBatchDay rest
          end
      end
  end.

Definition validateBookingPolicy (st : State) (clk : Clock) (user : User)
    (dateStr : Date) (seatIds : list SeatId) : option Message :=
  if isWeekend dateStr || isHoliday st dateStr then Some MsgWeekendHoliday
  else if isUserOnLeave st (userId user) dateStr then Some MsgOnLeave
  else
    let isBatchDay := isBatchScheduledOnDate st (batch user) dateStr in
    if (dateStr =? today clk + 1) && (hour clk <? 15) then Some MsgAdvanceBooking
    else checkSeatOwnership st user dateStr isBatchDay seatIds.

(** ** Request handlers

    [authMiddleware] resolves the session token of a request to a user of
    [users]; a handler takes the id [caller] the token stands for and
    answers 401 when no such user exists.  A request body field that is
    absent is [None]. *)

Definition withUser (st : State) (caller : UserId)
    (k : User -> State * Response) : State * Response :=
  match users st !! caller with
  | None => (st, RespErr 401 MsgUnauthorized)
  | Some user => k user
  end.

Definition withAdmin (st : State) (caller : UserId)
    (k : User -> State * Response) : State * Response :=
  withUser st caller (fun user =>
    if negb (isAdmin user) then (st, RespErr 403 MsgAdminRequired) else k user).

(** [GET /api/seats] *)
Definition seatWithUserFlags (st : State) (user : User) (date : Date)
    (seat : SeatView) : SeatWithUserFlags :=
  let isDesignatedSeat :=
    match v_type seat with designated => true | floater => false end in
  let isUserDesignated :=
    isDesignatedSeat &&
    match truthyStr (v_assignedTo seat) with
    | Some owner => String.eqb owner (userId user)
    | None => false
    end in
  let ownerOnLeave :=
    match truthyStr (v_assignedTo seat) with
    | Some owner => isUserOnLeave st owner date
    | None => false
    end in
  let effectiveType :=
    if isDesignatedSeat && ownerOnLeave then floater else v_type seat in
  mkSeatWithUserFlags seat (userId user) isUserDesignated effectiveType.

Definition api_seats (st : State) (clk : Clock) (caller : UserId)
    (date : option Date) : State * Response :=
  withUser st caller (fun user =>
    match date with
    | None => (st, RespErr 400 MsgDateRequired)
    | Some date =>
        let '(st1, seatState) := getSeatStateForDate clk date st in
        let policy := buildPolicySummary st1 user date in
        (st1, RespSeats (List.map (seatWithUserFlags st1 user date) seatState) policy)
    end).

(** [POST /api/leave] *)
Definition api_leave (st : State) (caller : UserId) (date : option Date)
    : State * Response :=
  withUser st caller (fun user =>
    match date with
    | None => (st, RespErr 400 MsgDateRequired)
    | Some date =>
        let existing :=
          List.find (fun l => String.eqb (lv_userId l) (userId user) && (lv_date l =? date))
                    (leaves st) in
        let st1 :=
          match existing with
          | Some _ => st
          | None =>
              let st' :=
                set_leaves st
                  (leaves st ++
                   [mkLeave (userId user) date
                      (if truthySeat (designatedSeatId user)
                       then designatedSeatId user else None)]) in
              if truthySeat (designatedSeatId user) then
                set_users st'
                  (<[caller := mkUser (userId user) (batch user) (designatedSeatId user)
                                      (floaterLeaveCount user + 1) (isAdmin user)]>
                   (users st'))
              else st'
          end in
        let st2 :=
          set_bookings st1
            (List.filter
               (fun b => negb (String.eqb (b_userId b) (userId user) && (b_date b =? date)))
               (bookings st1)) in
        (st2, RespOk MsgLeaveRecorded [])
    end).

(** [POST /api/lock] *)
Fixpoint lockCheck (st : State) (user : User) (date : Date) (now : Z)
    (seatIds : list SeatId) : option Message :=
  match seatIds with
  | [] => None
  | seatId :: rest =>
      match findBooking st date seatId with
      | Some _ => Some (MsgAlreadyBooked seatId)
      | None =>
          match findLock st date seatId with
          | Some existingLock =>
              if negb (String.eqb (l_userId existingLock) (userId user))
                 && (now <? lockExpiry existingLock)
              then Some (MsgLockedByOther seatId)
              else lockCheck st user date now rest
          | None => lockCheck st user date now rest
          end
      end
  end.

Definition placeLock (user : User) (date : Date) (expiry : Z)
    (locks : list Lock) (seatId : SeatId) : list Lock :=
  let existingLockIndex :=
    findIndex (fun l => (l_date l =? date) && (l_seatId l =? seatId)
                        && String.eqb (l_userId l) (userId user)) locks in
  let newLock := mkLock date seatId (userId user) expiry in
  match existingLockIndex with
  | Some i => <[i := newLock]> locks
  | None => locks ++ [newLock]
  end.

Definition api_lock (st : State) (clk : Clock) (caller : UserId)
    (date : option Date) (seatIds : list SeatId) : State * Response :=
  withUser st caller (fun user =>
    match date with
    | None => (st, RespErr 400 MsgDateRequired)
    | Some date =>
        match validateSeatIds st seatIds with
        | Some validationError => (st, RespErr 400 validationError)
        | None =>
            if isWeekend date || isHoliday st date then
              (st, RespErr 400 MsgLockWeekendHoliday)
            else
              match validateBookingPolicy st clk user date seatIds with
              | Some policyError => (st, RespErr 400 policyError)
              | None =>
                  let st1 := clearExpiredLocksForDate (tsPurge clk) date st in
                  let now := tsCheck clk in
                  let expiry := now + LOCK_DURATION_MS in
                  match lockCheck st1 user date now seatIds with
                  | Some msg => (st1, RespErr 400 msg)
                  | None =>
                      (set_locks st1
                         (fold_left (placeLock user date expiry) seatIds (locks st1)),
                       RespOk MsgSeatsLocked [])
                  end
              end
        end
    end).

(** [POST /api/unlock] *)
Definition api_unlock (st : State) (caller : UserId)
    (date : option Date) (seatIds : list SeatId) : State * Response :=
  withUser st caller (fun user =>
    match date with
    | None => (st, RespErr 400 MsgDateRequired)
    | Some date =>
        match validateSeatIds st seatIds with
        | Some validationError => (st, RespErr 400 validationError)
        | None =>
            (set_locks st
               (List.filter
                  (fun l => negb ((l_date l =? date)
                                  && existsb (Z.eqb (l_seatId l)) seatIds
                                  && String.eqb (l_userId l) (userId user)))
                  (locks st)),
             RespOk MsgSeatsUnlocked [])
        end
    end).

(** [POST /api/book] *)
Fixpoint bookCheck (st : State) (user : User) (date : Date) (now : Z)
    (seatIds : list SeatId) : option Message :=
  match seatIds with
  | [] => None
  | seatId :: rest =>
      match findBooking st date seatId with
      | Some _ => Some (MsgAlreadyBooked seatId)
      | None =>
          match findLock st date seatId with
          | Some lock =>
              if negb (String.eqb (l_userId lock) (userId user)) && (now <? lockExpiry lock)
              then Some (MsgLockedByOther seatId)
              else if lockExpiry lock <=? now
              then Some (MsgLockExpired seatId)
              else bookCheck st user date now rest
          | None => bookCheck st user date now rest
          end
      end
  end.

(** One round of the commit loop: push the booking, drop the locks of the
    seat. *)
Definition commitSeat (user : User) (date : Date) (bookedAt : Z)
    (st : State) (seatId : SeatId) : State :=
  let st' := set_bookings st (bookings st ++ [mkBooking date seatId (userId user) bookedAt]) in
  set_locks st'
    (List.filter (fun l => negb ((l_date l =? date) && (l_seatId l =? seatId))) (locks st')).

Definition api_book (st : State) (clk : Clock) (caller : UserId)
    (date : option Date) (seatIds : list SeatId) : State * Response :=
  withUser st caller (fun user =>
    match date with
    | None => (st, RespErr 400 MsgDateRequired)
    | Some date =>
        match validateSeatIds st seatIds with
        | Some validationError => (st, RespErr 400 validationError)
        | None =>
            if MAX_SEATS_PER_BOOKING <? Z.of_nat (length seatIds) then
              (st, RespErr 400 MsgMaxSeats)
            else
              match validateBookingPolicy st clk user date seatIds with
              | Some policyError => (st, RespErr 400 policyError)
              | None =>
                  let st1 := clearExpiredLocksForDate (tsPurge clk) date st in
                  let now := tsCheck clk in
                  match bookCheck st1 user date now seatIds with
                  | Some msg => (st1, RespErr 400 msg)
                  | None =>
                      let bookedAt := tsCommit clk in
                      (fold_left (commitSeat user date bookedAt) seatIds st1,
                       RespOk MsgBookingSuccessful seatIds)
                  end
              end
        end
    end).

(** [POST /api/cancel] *)
Definition ownsBooking (st : State) (user : User) (date : Date) (seatId : SeatId) : bool :=
  match List.find (fun b => (b_date b =? date) && (b_seatId b =? seatId)
                            && String.eqb (b_userId b) (userId user)) (bookings st) with
  | Some _ => true
  | None => false
  end.

Definition api_cancel (st : State) (caller : UserId)
    (date : option Date) (seatIds : list SeatId) : State * Response :=
  withUser st caller (fun user =>
    match date with
    | None => (st, RespErr 400 MsgDateRequired)
    | Some date =>
        match validateSeatIds st seatIds with
        | Some validationError => (st, RespErr 400 validationError)
        | None =>
            let invalidSeat :=
              List.find (fun seatId => negb (ownsBooking st user date seatId)) seatIds in
            match truthyFound invalidSeat with
            | Some invalidSeat => (st, RespErr 400 (MsgCancelNotOwn invalidSeat))
            | None =>
                let st1 :=
                  set_bookings st
                    (List.filter
                       (fun b => negb ((b_date b =? date)
                                       && existsb (Z.eqb (b_seatId b)) seatIds
                                       && String.eqb (b_userId b) (userId user)))
                       (bookings st)) in
                (set_locks st1
                   (List.filter
                      (fun l => negb ((l_date l =? date)
                                      && existsb (Z.eqb (l_seatId l)) seatIds
                                      && String.eqb (l_userId l) (userId user)))
                      (locks st1)),
                 RespOk MsgBookingCancelled [])
            end
        end
    end).

(** [PATCH /api/user/batch] *)
Definition isBatchName (b : string) : bool :=
  String.eqb b "batch1" || String.eqb b "batch2".

Definition api_user_batch (st : State) (clk : Clock) (caller : UserId)
    (newBatch : option string) (date : option Date) : State * Response :=
  withUser st caller (fun user =>
    match truthyStr newBatch with
    | None => (st, RespErr 400 MsgNewBatchInvalid)
    | Some newBatch =>
        if negb (isBatchName newBatch) then (st, RespErr 400 MsgNewBatchInvalid)
        else
          let targetDate := match date with Some d => d | None => today clk end in
          let activeBookingToday :=
            existsb (fun b => String.eqb (b_userId b) (userId user)
                              && (b_date b =? targetDate)) (bookings st) in
          if activeBookingToday then (st, RespErr 400 MsgActiveBooking)
          else
            let user' := mkUser (userId user) newBatch (designatedSeatId user)
                                (floaterLeaveCount user) (isAdmin user) in
            (set_users st (<[caller := user']> (users st)), RespUser user')
    end).

(** ** Administration *)

(** [POST /api/admin/reset] *)
Definition api_admin_reset (st : State) (caller : UserId) : State * Response :=
  withAdmin st caller (fun _ =>
    (mkState (users st) initSeatDefinitions [] [] [] DEFAULT_BATCH_SCHEDULE ∅,
     RespOk MsgReset [])).

(** [POST /api/admin/force-cancel] *)
Definition api_admin_force_cancel (st : State) (caller : UserId)
    (date : option Date) (seatId : option SeatId) : State * Response :=
  withAdmin st caller (fun _ =>
    match date, seatId with
    | Some date, Some seatId =>
        if negb (truthyNum seatId) then (st, RespErr 400 MsgDateSeatRequired)
        else
          let st1 :=
            set_bookings st
              (List.filter (fun b => negb ((b_date b =? date) && (b_seatId b =? seatId)))
                           (bookings st)) in
          (set_locks st1
             (List.filter (fun l => negb ((l_date l =? date) && (l_seatId l =? seatId)))
                          (locks st1)),
           RespOk (MsgBookingCleared seatId) [])
    | _, _ => (st, RespErr 400 MsgDateSeatRequired)
    end).

(** The seat object that [getSeatDefinition] returns is mutated in place
    by the two handlers below: the first definition with the id changes. *)
Definition updateSeatDefinition (st : State) (id : SeatId)
    (f : SeatDef -> SeatDef) : State :=
  match findIndex (fun s => seatId s =? id) (seatDefinitions st) with
  | Some i => set_seatDefinitions st (alter f i (seatDefinitions st))
  | None => st
  end.

(** [POST /api/admin/batch-schedule] *)
Definition api_admin_batch_schedule (st : State) (caller : UserId)
    (schedule : option (gmap string Schedule)) : State * Response :=
  withAdmin st caller (fun _ =>
    match schedule with
    | None => (st, RespErr 400 MsgScheduleRequired)
    | Some schedule => (set_batchSchedule st schedule, RespOk MsgScheduleUpdated [])
    end).

(** [POST /api/admin/seat-type] *)
Definition api_admin_seat_type (st : State) (caller : UserId)
    (id : option SeatId) (newType : option SeatType) : State * Response :=
  withAdmin st caller (fun _ =>
    match id, newType with
    | Some id, Some newType =>
        if negb (truthyNum id) then (st, RespErr 400 MsgSeatTypeRequired)
        else
          match getSeatDefinition st id with
          | None => (st, RespErr 404 MsgSeatNotFound)
          | Some _ =>
              (updateSeatDefinition st id (fun def =>
                 mkSeatDef (seatId def) newType
                   (match newType with
                    | floater => None
                    | designated => assignedTo def
                    end)),
               RespOk (MsgSeatConverted id) [])
          end
    | _, _ => (st, RespErr 400 MsgSeatTypeRequired)
    end).

(** [POST /api/admin/assign-seat] *)
Definition api_admin_assign_seat (st : State) (caller : UserId)
    (uid : option UserId) (id : option SeatId) : State * Response :=
  withAdmin st caller (fun _ =>
    match truthyStr uid, id with
    | Some uid, Some id =>
        if negb (truthyNum id) then (st, RespErr 400 MsgUserSeatRequired)
        else
          match getSeatDefinition st id with
          | None => (st, RespErr 404 MsgSeatNotFound)
          | Some _ =>
              match users st !! uid with
              | None => (st, RespErr 404 MsgUserNotFound)
              | Some user =>
                  let st1 :=
                    updateSeatDefinition st id (fun def =>
                      mkSeatDef (seatId def) designated (Some uid)) in
                  (set_users st1
                     (<[uid := mkUser (userId user) (batch user) (Some id)
                                      (floaterLeaveCount user) (isAdmin user)]>
                      (users st1)),
                   RespOk (MsgSeatAssigned id) [])
              end
          end
    | _, _ => (st, RespErr 400 MsgUserSeatRequired)
    end).

(** [POST /api/admin/holidays] *)
Definition api_admin_holidays (st : State) (caller : UserId)
    (date : option Date) (markHoliday : option bool) : State * Response :=
  withAdmin st caller (fun _ =>
    match date with
    | None => (st, RespErr 400 MsgDateRequired)
    | Some date =>
        match markHoliday with
        | Some false =>
            (set_holidays st (holidays st ∖ {[date]}), RespOk MsgHolidayUpdated [])
        | _ =>
            (set_holidays st ({[date]} ∪ holidays st), RespOk MsgHolidayUpdated [])
        end
    end).

(** ** Requests

    The authenticated requests that change or read the reservation
    state, and their dispatch.  Sign-up and log-in, which only create
    users and sessions, are not part of the engine. *)
Inductive Request :=
| GetSeats (date : option Date)
| PostLeave (date : option Date)
| PostLock (date : option Date) (seatIds : list SeatId)
| PostUnlock (date : option Date) (seatIds : list SeatId)
| PostBook (date : option Date) (seatIds : list SeatId)
| PostCancel (date : option Date) (seatIds : list SeatId)
| PatchBatch (newBatch : option string) (date : option Date)
| AdminReset
| AdminForceCancel (date : option Date) (seat : option SeatId)
| AdminBatchSchedule (schedule : option (gmap string Schedule))
| AdminSeatType (seat : option SeatId) (newType : option SeatType)
| AdminAssignSeat (uid : option UserId) (seat : option SeatId)
| AdminHolidays (date : option Date) (markHoliday : option bool).

Definition handle (st : State) (clk : Clock) (caller : UserId) (r : Request)
    : State * Response :=
  match r with
  | GetSeats date => api_seats st clk caller date
  | PostLeave date => api_leave st caller date
  | PostLock date seatIds => api_lock st clk caller date seatIds
  | PostUnlock date seatIds => api_unlock st caller date seatIds
  | PostBook date seatIds => api_book st clk caller date seatIds
  | PostCancel date seatIds => api_cancel st caller date seatIds
  | PatchBatch newBatch date => api_user_batch st clk caller newBatch date
  | AdminReset => api_admin_reset st caller
  | AdminForceCancel date seat => api_admin_force_cancel st caller date seat
  | AdminBatchSchedule schedule => api_admin_batch_schedule st caller schedule
  | AdminSeatType seat newType => api_admin_seat_type st caller seat newType
  | AdminAssignSeat uid seat => api_admin_assign_seat st caller uid seat
  | AdminHolidays date markHoliday => api_admin_holidays st caller date markHoliday
  end.

(** ** Properties of the state that the claims speak about *)

(** At most one booking per seat and date. *)
Definition bookingKey (b : Booking) : Z * Z := (b_date b, b_seatId b).

Definition bookingsUnique (st : State) : Prop :=
  NoDup (List.map bookingKey (bookings st)).

(** Number of bookings held for a seat on a date. *)
Definition bookingCount (st : State) (date : Date) (seat : SeatId) : nat :=
  length (List.filter (fun b => (b_date b =? date) && (b_seatId b =? seat)) (bookings st)).

(** The leave records of a user for a date, and their number. *)
Definition leaveOf (uid : UserId) (date : Date) (l : Leave) : bool :=
  String.eqb (lv_userId l) uid && (lv_date l =? date).

Definition leaveCount (st : State) (uid : UserId) (date : Date) : nat :=
  length (List.filter (leaveOf uid date) (leaves st)).

(** The user holds a booking of the seat for the date. *)
Definition holdsBooking (st : State) (uid : UserId) (date : Date) (seat : SeatId) : Prop :=
  exists b, In b (bookings st) /\ b_date b = date /\ b_seatId b = seat /\ b_userId b = uid.

(** The user holds a booking for the date. *)
Definition hasBookingOn (st : State) (uid : UserId) (date : Date) : Prop :=
  exists b, In b (bookings st) /\ b_userId b = uid /\ b_date b = date.

(** At most one leave record per user and date. *)
Definition leavesUnique (st : State) : Prop :=
  forall uid date, (leaveCount st uid date <= 1)%nat.

(** A lock that is still live at [now]. *)
Definition liveAt (now : Z) (l : Lock) : Prop := now < lockExpiry l.

(** The store without the locks that have expired at [now]. *)
Definition withoutExpiredLocks (now : Z) (st : State) : State :=
  set_locks st (List.filter (fun l => now <? lockExpiry l) (locks st)).

(** The two weeks (2k-1, 2k) of one ISO week-numbering year. *)
Definition sameWeekPair (d1 d2 : Date) : Prop :=
  isoWeekYear d1 = isoWeekYear d2 /\ (isoWeek d1 + 1) / 2 = (isoWeek d2 + 1) / 2.

(** The response of a handler is a rejection. *)
Definition rejected (r : Response) : Prop :=
  match r with RespErr _ _ => True | _ => False end.

(** Some booking, whoever holds it, exists for the seat on the date. *)
Definition bookedOn (st : State) (date : Date) (seat : SeatId) : Prop :=
  exists b, In b (bookings st) /\ b_date b = date /\ b_seatId b = seat.

(** Some lock of the seat for the date is live at [now]. *)
Definition liveLockOn (st : State) (now : Z) (date : Date) (seat : SeatId) : Prop :=
  exists l, In l (locks st) /\ l_date l = date /\ l_seatId l = seat /\ now < lockExpiry l.

(** What the availability loops of the lock and of the confirm handler
    should answer for one seat, read off its view. *)
Definition viewVerdict (user : User) (v : SeatView) : option Message :=
  match v_status v with
  | occupied => Some (MsgAlreadyBooked (v_seatId v))
  | locked =>
      match v_lockedBy v with
      | Some holder =>
          if String.eqb holder (userId user) then None
          else Some (MsgLockedByOther (v_seatId v))
      | None => None
      end
  | available => None
  end.

(** At most one lock per seat and date. *)
Definition lockKey (l : Lock) : Z * Z := (l_date l, l_seatId l).

Definition locksUnique (st : State) : Prop :=
  NoDup (List.map lockKey (locks st)).

(** The test of [find] for the lock of a seat. *)
Definition lockOf (date : Date) (seat : SeatId) (l : Lock) : bool :=
  (l_date l =? date) && (l_seatId l =? seat).

(** At most one lock per seat and date is live at [now]. *)
Definition liveLocksUnique (now : Z) (st : State) : Prop :=
  forall date seat,
    (length (List.filter (fun l => lockOf date seat l && Z.ltb now (lockExpiry l)) (locks st))
     <= 1)%nat.

(** The lock that a lock request of [user] writes for a seat. *)
Definition freshLock (user : User) (date : Date) (now : Z) (seat : SeatId) : Lock :=
  mkLock date seat (userId user) (now + LOCK_DURATION_MS).

(** The locks of [user] on the requested seats for the date. *)
Definition ownRequested (user : User) (date : Date) (seatIds : list SeatId) (l : Lock) : bool :=
  (l_date l =? date) && existsb (Z.eqb (l_seatId l)) seatIds
  && String.eqb (l_userId l) (userId user).

(** Replace the first element that satisfies [p] by [x], or append [x]
    when there is none: what [findIndex] followed by the assignment or the
    [push] does in the lock handler. *)
Fixpoint upsert {A : Type} (p : A -> bool) (x : A) (l : list A) : list A :=
  match l with
  | [] => [x]
  | a :: rest => if p a then x :: rest else a :: upsert p x rest
  end.

(** The test of [findIndex] in the lock handler. *)
Definition ownLockOf (user : User) (date : Date) (seat : SeatId) (l : Lock) : bool :=
  (l_date l =? date) && (l_seatId l =? seat) && String.eqb (l_userId l) (userId user).

(** On the seat and the date the user has at most one lock, and every
    lock that is live at [now] is the user's. *)
Definition ownWhenLive (user : User) (date : Date) (now : Z) (seat : SeatId)
    (ls : list Lock) : Prop :=
  (length (List.filter (ownLockOf user date seat) ls) <= 1)%nat /\
  forall a, In a ls -> lockOf date seat a = true -> now < lockExpiry a ->
            String.eqb (l_userId a) (userId user) = true.

(** ** The client: [SeatGrid] and the derived values of [App]

    The component receives the seats of the [/api/seats] response, the id
    of the signed-in user and the ids the user has selected.  The class
    strings that [getSeatStyles] returns are the constructors of
    [SeatStyle], in the order of its [if]s. *)

Inductive SeatStyle :=
| StyleMyBooking
| StyleOccupied
| StyleLockedByOther
| StyleSelected
| StyleFloater
| StyleDesignated.

(** [x === currentUserId] for a field that is a user id or [null]. *)
Definition isUser (o : option UserId) (currentUserId : UserId) : bool :=
  match o with
  | Some x => String.eqb x currentUserId
  | None => false
  end.

(** [seat.status === 'locked' && seat.lockedBy && seat.lockedBy !== currentUserId] *)
Definition lockedByOther (currentUserId : UserId) (seat : SeatWithUserFlags) : bool :=
  match v_status (f_seat seat) with
  | locked =>
      match truthyStr (v_lockedBy (f_seat seat)) with
      | Some holder => negb (String.eqb holder currentUserId)
      | None => false
      end
  | _ => false
  end.

Definition isOccupied (seat : SeatWithUserFlags) : bool :=
  match v_status (f_seat seat) with occupied => true | _ => false end.

Definition isSelected (selectedSeatIds : list SeatId) (seatId : SeatId) : bool :=
  existsb (Z.eqb seatId) selectedSeatIds.

Definition getSeatStyles (currentUserId : UserId) (selectedSeatIds : list SeatId)
    (seat : SeatWithUserFlags) : SeatStyle :=
  let selected := isSelected selectedSeatIds (v_seatId (f_seat seat)) in
  let isMine := isUser (v_bookedBy (f_seat seat)) currentUserId in
  let isFloater := match v_type (f_seat seat) with floater => true | designated => false end in
  if isOccupied seat && isMine then StyleMyBooking
  else if isOccupied seat then StyleOccupied
  else if lockedByOther currentUserId seat then StyleLockedByOther
  else if selected then StyleSelected
  else if isFloater then StyleFloater
  else StyleDesignated.

Definition isDisabled (currentUserId : UserId) (seat : SeatWithUserFlags) : bool :=
  if isOccupied seat && negb (isUser (v_bookedBy (f_seat seat)) currentUserId) then true
  else if lockedByOther currentUserId seat then true
  else false.

(** The filter that [loadSeats] applies to the selection after a refresh:
    keep the ids whose seat is still locked by the user. *)
Definition keepSelected (allSeats : list SeatWithUserFlags) (userId : UserId)
    (prev : list SeatId) : list SeatId :=
  List.filter
    (fun id =>
       match List.find (fun s => v_seatId (f_seat s) =? id) allSeats with
       | Some seat =>
           match v_status (f_seat seat) with
           | locked => isUser (v_lockedBy (f_seat seat)) userId
           | _ => false
           end
       | None => false
       end) prev.

(** [isConfirmDisabled] of [App]. *)
Definition isConfirmDisabled (selectedSeatIds : list SeatId) (isBooking isLoadingSeats : bool)
    (policy : option PolicySummary) : bool :=
  (Z.of_nat (length selectedSeatIds) =? 0) || isBooking || isLoadingSeats
  || match policy with
     | Some p => isWeekendOrHoliday p || onLeave p
     | None => false
     end.

(** The texts of [allowedTodayText]. *)
Inductive AllowedText :=
| TextClosed
| TextOnLeave
| TextScheduled
| TextFloaterOnly
| TextNone.

Definition allowedTodayText (policy : option PolicySummary) : AllowedText :=
  match policy with
  | Some p =>
      if isWeekendOrHoliday p then TextClosed
      else if onLeave p then TextOnLeave
      else if isBatchDay p then TextScheduled
      else TextFloaterOnly
  | None => TextNone
  end.

(** Every lock in the store names a holder. *)
Definition holdersNamed (st : State) : Prop :=
  forall l, In l (locks st) -> l_userId l <> EmptyString.

(** ** Accounts and sessions

    [/api/signup] and [/api/login] keep two more module-level maps,
    [usersByEmail] and [sessions].  They are the fields of [Accounts].
    The session token comes from [crypto.randomBytes] and enters the
    handlers as an argument, like the readings of the clock.  The user
    record of the model has no password hash, so the outcome of
    [bcrypt.compare] in [/api/login] is an argument too; [bcrypt.hash]
    in [/api/signup] only feeds that field.  The body fields are
    strings, and the designated seat id a number. *)

Record Accounts := mkAccounts {
  usersByEmail : gmap string UserId;
  sessions : gmap string UserId }.

Definition noAccounts : Accounts := mkAccounts ∅ ∅.

Inductive AuthMessage :=
| MsgSignupFields
| MsgBatchName
| MsgEmailRegistered
| MsgInvalidDesignatedSeat
| MsgLoginFields
| MsgInvalidCredentials
| MsgLoginFailed.

Inductive AuthResponse :=
| AuthOk (token : string) (user : User)
| AuthErr (status : Z) (message : AuthMessage).

(** [email.split('@')[0]]: the text before the first ['@']. *)
Fixpoint beforeAt (s : string) : string :=
  match s with
  | EmptyString => EmptyString
  | String c rest => if Ascii.eqb c "@" then EmptyString else String c (beforeAt rest)
  end.

(** The characters that [/[^a-zA-Z0-9]/g] leaves in place.  A character
    outside ASCII is a run of bytes above 127 here and one or two code
    units above 127 in JavaScript; the pattern removes both. *)
Definition isAlnum (c : ascii) : bool :=
  let n := Z.of_N (N_of_ascii c) in
  ((97 <=? n) && (n <=? 122)) || ((65 <=? n) && (n <=? 90)) || ((48 <=? n) && (n <=? 57)).

Fixpoint keepAlnum (s : string) : string :=
  match s with
  | EmptyString => EmptyString
  | String c rest => if isAlnum c then String c (keepAlnum rest) else keepAlnum rest
  end.

Definition idPrefix (email : string) : string :=
  let prefix := String.substring 0 8 (keepAlnum (beforeAt email)) in
  if String.eqb prefix EmptyString then "user" else prefix.

Definition createUserId (st : State) (email : string) : UserId :=
  let prefix := idPrefix email in
  let suffix := (size (users st) + 1)%nat in
  prefix +:+ pretty suffix.

Definition createSession (acc : Accounts) (token : string) (uid : UserId) : Accounts :=
  mkAccounts (usersByEmail acc) (<[token := uid]> (sessions acc)).

Definition getUserByToken (st : State) (acc : Accounts) (token : option string)
    : option User :=
  match truthyStr token with
  | None => None
  | Some token =>
      match truthyStr (sessions acc !! token) with
      | None => None
      | Some uid => users st !! uid
      end
  end.

(** [POST /api/signup] *)
Definition api_signup (st : State) (acc : Accounts) (token : string)
    (name email password batch : option string) (designatedSeatId : option SeatId)
    : State * Accounts * AuthResponse :=
  match truthyStr name, truthyStr email, truthyStr password, truthyStr batch with
  | Some _, Some email, Some _, Some batch =>
      if negb (isBatchName batch) then (st, acc, AuthErr 400 MsgBatchName)
      else
        match usersByEmail acc !! email with
        | Some _ => (st, acc, AuthErr 409 MsgEmailRegistered)
        | None =>
            let uid := createUserId st email in
            let seatStep :=
              match designatedSeatId with
              | None => Some (st, None)
              | Some id =>
                  match getSeatDefinition st id with
                  | None => None
                  | Some def =>
                      Some (updateSeatDefinition st id (fun def =>
                              mkSeatDef (seatId def) designated (Some uid)),
                            Some (seatId def))
                  end
              end in
            match seatStep with
            | None => (st, acc, AuthErr 400 MsgInvalidDesignatedSeat)
            | Some (st1, designatedSeat) =>
                let user := mkUser uid batch designatedSeat 0 false in
                let st2 := set_users st1 (<[uid := user]> (users st1)) in
                let acc1 := mkAccounts (<[email := uid]> (usersByEmail acc)) (sessions acc) in
                (st2, createSession acc1 token uid, AuthOk token user)
            end
        end
  | _, _, _, _ => (st, acc, AuthErr 400 MsgSignupFields)
  end.

(** [POST /api/login]; [passwordMatches] is the outcome of
    [bcrypt.compare].  Reading the hash of a user that [users] does not
    hold throws, which the handler answers with 500. *)
Definition api_login (st : State) (acc : Accounts) (token : string)
    (passwordMatches : bool) (email password : option string)
    : Accounts * AuthResponse :=
  match truthyStr email, truthyStr password with
  | Some email, Some _ =>
      match truthyStr (usersByEmail acc !! email) with
      | None => (acc, AuthErr 401 MsgInvalidCredentials)
      | Some uid =>
          match users st !! uid with
          | None => (acc, AuthErr 500 MsgLoginFailed)
          | Some user =>
              if negb passwordMatches then (acc, AuthErr 401 MsgInvalidCredentials)
              else (createSession acc token (userId user), AuthOk token user)
          end
      end
  | _, _ => (acc, AuthErr 400 MsgLoginFields)
  end.

(** [authMiddleware] in front of a handler: the handler receives the
    user that the token resolves to. *)
Definition authMiddleware (st : State) (acc : Accounts) (token : option string)
    (k : User -> State * Response) : State * Response :=
  match getUserByToken st acc token with
  | None => (st, RespErr 401 MsgUnauthorized)
  | Some user => k user
  end.

Definition serve (st : State) (acc : Accounts) (clk : Clock) (token : option string)
    (r : Request) : State * Response :=
  authMiddleware st acc token (fun user => handle st clk (userId user) r).

(** What reaches the server: sign-ups, logins and authenticated
    requests, in the order of their arrival. *)
Inductive Event :=
| EvSignup (token : string) (name email password batch : option string)
    (designatedSeatId : option SeatId)
| EvLogin (token : string) (passwordMatches : bool) (email password : option string)
| EvRequest (clk : Clock) (token : option string) (r : Request).

Definition step (sys : State * Accounts) (e : Event) : State * Accounts :=
  let (st, acc) := sys in
  match e with
  | EvSignup token name email password batch designatedSeatId =>
      fst (api_signup st acc token name email password batch designatedSeatId)
  | EvLogin token passwordMatches email password =>
      (st, fst (api_login st acc token passwordMatches email password))
  | EvRequest clk token r => (fst (serve st acc clk token r), acc)
  end.

Definition run (events : list Event) : State * Accounts :=
  fold_left step events (initialState, noAccounts).

(** The clock reads of the requests of a run never go back: each request
    purges no earlier than the latest read before it, [T] at the start,
    and checks no earlier than it purges. *)
Fixpoint clockInOrder (T : Z) (events : list Event) : Prop :=
  match events with
  | [] => True
  | EvRequest clk _ _ :: rest =>
      T <= tsPurge clk /\ tsPurge clk <= tsCheck clk /\ clockInOrder (tsCheck clk) rest
  | _ :: rest => clockInOrder T rest
  end.

(** The latest read of the clock after the run. *)
Fixpoint lastRead (T : Z) (events : list Event) : Z :=
  match events with
  | [] => T
  | EvRequest clk _ _ :: rest => lastRead (tsCheck clk) rest
  | _ :: rest => lastRead T rest
  end.

(** Every character of a string is a letter or a digit. *)
Fixpoint allAlnum (s : string) : bool :=
  match s with
  | EmptyString => true
  | String c rest => isAlnum c && allAlnum rest
  end.

(** The users are stored under their own ids, which are not empty, none
    is an administrator, and the sessions and the registered emails point
    to stored users. *)
Definition keysNamed (st : State) : Prop :=
  forall k u, users st !! k = Some u -> userId u = k /\ k <> EmptyString.

Definition noAdministrator (st : State) : Prop :=
  forall k u, users st !! k = Some u -> isAdmin u = false.

Definition accountsKnown (st : State) (acc : Accounts) : Prop :=
  (forall t uid, sessions acc !! t = Some uid -> is_Some (users st !! uid)) /\
  (forall e uid, usersByEmail acc !! e = Some uid -> is_Some (users st !! uid)).

Definition wellFormed (sys : State * Accounts) : Prop :=
  keysNamed (fst sys) /\ noAdministrator (fst sys) /\ accountsKnown (fst sys) (snd sys).

(** ** A small office used in the examples

    Two users without designated seats on the default floor, a
    Wednesday of an odd ISO week (2025-06-18) and a clock that reads the
    same instant throughout a request. *)

Definition alice : User := mkUser "alice1" "batch1" None 0 false.
Definition bob : User := mkUser "bob2" "batch2" None 0 false.

Definition office : State :=
  set_users initialState (<["alice1" := alice]> (<["bob2" := bob]> ∅)).

Definition wednesday : Date := days_from_civil 2025 6 18.

(** The clock of a request made on that Wednesday at 10 in the morning,
    at instant 1000 of the millisecond clock. *)
Definition morning : Clock := mkClock wednesday 10 1000 1000 1000.

(** The office with an expired lock of Alice on seat 41 and a booking of
    Bob on seat 42, both for the Wednesday. *)
Definition staleLock : Lock := mkLock wednesday 41 "alice1" 5.

Definition officeStale : State :=
  set_locks (set_bookings office [mkBooking wednesday 42 "bob2" 7]) [staleLock].

(** The office in which seat 1 is Bob's designated seat. *)
Definition bobOwner : User := mkUser "bob2" "batch2" (Some 1) 0 false.

Definition officeAssigned : State :=
  set_users
    (set_seatDefinitions office
       (mkSeatDef 1 designated (Some "bob2") :: tl (seatDefinitions office)))
    (<["bob2" := bobOwner]> (users office)).

(** The other offices with the administrator added. *)
Definition withCarol (st : State) : State :=
  set_users st (<["carol3" := mkUser "carol3" "batch1" None 0 true]> (users st)).

(** The requests that [adminMiddleware] guards. *)
Definition isAdminRequest (r : Request) : bool :=
  match r with
  | AdminReset | AdminForceCancel _ _ | AdminBatchSchedule _
  | AdminSeatType _ _ | AdminAssignSeat _ _ | AdminHolidays _ _ => true
  | _ => false
  end.

(** The seat ids of the catalogue, in order. *)
Definition seatIdsOf (st : State) : list Z := List.map seatId (seatDefinitions st).

(** The office with a third user who has the administrator flag. *)
Definition carol : User := mkUser "carol3" "batch1" None 0 true.

Definition officeAdmin : State :=
  set_users office (<["carol3" := carol]> (users office)).

(** The office after Alice has locked seat 41 for the Wednesday. *)
Definition officeHeld : State :=
  fst (api_lock office morning "alice1" (Some wednesday) [41]).

(** The office in which Bob, the owner of seat 1, is on leave on the
    Wednesday. *)
Definition officeOwnerAway : State :=
  set_leaves officeAssigned [mkLeave "bob2" wednesday (Some 1)].

(** A first sign-up on the empty server, with seat 7 as designated
    seat. *)
Definition firstSignup : State * Accounts * AuthResponse :=
  api_signup initialState noAccounts "t1" (Some "Ann") (Some "ann.lee@wissen.com")
    (Some "secret") (Some "batch1") (Some 7).

(** Ten sign-ups; the first user then books seat 41 for the Wednesday. *)
Definition signupOf (token email : string) : Event :=
  EvSignup token (Some "name") (Some email) (Some "secret") (Some "batch1") None.

Definition tenSignups : list Event :=
  [signupOf "t1" "a1@x.io"; signupOf "t2" "u2@x.io"; signupOf "t3" "u3@x.io";
   signupOf "t4" "u4@x.io"; signupOf "t5" "u5@x.io"; signupOf "t6" "u6@x.io";
   signupOf "t7" "u7@x.io"; signupOf "t8" "u8@x.io"; signupOf "t9" "u9@x.io";
   signupOf "t10" "u10@x.io";
   EvRequest morning (Some "t1") (PostBook (Some wednesday) [41])].

Definition eleventhSignup : State * Accounts * AuthResponse :=
  api_signup (fst (run tenSignups)) (snd (run tenSignups)) "t11" (Some "name")
    (Some "a@y.io") (Some "secret") (Some "batch2") None.

(** The seats of a seat listing. *)
Definition listedSeats (r : Response) : list SeatWithUserFlags :=
  match r with
  | RespSeats seats _ => seats
  | _ => []
  end.

(** * Theorems *)

(** ** The calendar on known dates *)

Example epoch_is_thursday : format_ddd (days_from_civil 1970 1 1) = Thu.
Proof. reflexivity. Qed.
Example week_2026_12_28 :
  let d := days_from_civil 2026 12 28 in
  (format_ddd d, isoWeek d, isoWeekYear d) = (Mon, 53, 2026).
Proof. reflexivity. Qed.
Example week_2027_01_03 :
  let d := days_from_civil 2027 1 3 in
  (format_ddd d, isoWeek d, isoWeekYear d) = (Sun, 53, 2026).
Proof. reflexivity. Qed.
Example week_2027_01_04 :
  let d := days_from_civil 2027 1 4 in
  (format_ddd d, isoWeek d, isoWeekYear d) = (Mon, 1, 2027).
Proof. reflexivity. Qed.
Example week_2024_12_30 :
  let d := days_from_civil 2024 12 30 in
  (format_ddd d, isoWeek d, isoWeekYear d) = (Mon, 1, 2025).
Proof. reflexivity. Qed.
Example week_2025_06_18 :
  let d := days_from_civil 2025 6 18 in
  (format_ddd d, isoWeek d, isoWeekYear d) = (Wed, 25, 2025).
Proof. reflexivity. Qed.

(** ** The handlers on a small scenario *)

(** Alice locks seats 41 and 42 for the Wednesday; the locks run for two
    minutes from the clock read of the check. *)
Example alice_locks_two_seats :
  api_lock office morning "alice1" (Some wednesday) [41; 42] =
  (set_locks office [mkLock wednesday 41 "alice1" 121000;
                     mkLock wednesday 42 "alice1" 121000],
   RespOk MsgSeatsLocked []).
Proof. vm_compute. reflexivity. Qed.

(** While the locks are live Bob can neither lock nor book seat 42; Alice
    confirms both seats, which consumes the locks; after that the seat
    shows as occupied and Bob is told it is booked. *)
Example lock_book_scenario :
  let st1 := fst (api_lock office morning "alice1" (Some wednesday) [41; 42]) in
  let later := mkClock wednesday 10 2000 2000 2000 in
  let st2 := fst (api_book st1 later "alice1" (Some wednesday) [41; 42]) in
  snd (api_lock st1 later "bob2" (Some wednesday) [42]) = RespErr 400 (MsgLockedByOther 42) /\
  snd (api_book st1 later "bob2" (Some wednesday) [42]) = RespErr 400 (MsgLockedByOther 42) /\
  snd (api_book st1 later "alice1" (Some wednesday) [41; 42]) =
    RespOk MsgBookingSuccessful [41; 42] /\
  bookings st2 = [mkBooking wednesday 41 "alice1" 2000; mkBooking wednesday 42 "alice1" 2000] /\
  locks st2 = [] /\
  snd (api_book st2 later "bob2" (Some wednesday) [42]) = RespErr 400 (MsgAlreadyBooked 42) /\
  List.map v_status (List.filter (fun v => v_seatId v =? 42)
                       (snd (getSeatStateForDate later wednesday st2))) = [occupied].
Proof. cbv zeta. repeat split; vm_compute; reflexivity. Qed.

(** Once Alice's locks have run out, Bob's lock request goes through and
    replaces them for the seat he asks for. *)
Example lock_after_expiry :
  let st1 := fst (api_lock office morning "alice1" (Some wednesday) [41; 42]) in
  let late := mkClock wednesday 10 121000 121000 121000 in
  api_lock st1 late "bob2" (Some wednesday) [42] =
  (set_locks office [mkLock wednesday 42 "bob2" 241000], RespOk MsgSeatsLocked []).
Proof. vm_compute. reflexivity. Qed.

(** The 3 PM rule at confirmation: a booking for tomorrow is turned away
    at 14 hours and accepted at 15. *)
Example advance_booking_rule :
  snd (api_book office (mkClock wednesday 14 1000 1000 1000) "alice1"
         (Some (wednesday + 1)) [41]) = RespErr 400 MsgAdvanceBooking /\
  snd (api_book office (mkClock wednesday 15 1000 1000 1000) "alice1"
         (Some (wednesday + 1)) [41]) = RespOk MsgBookingSuccessful [41].
Proof. split; vm_compute; reflexivity. Qed.

(** Weekends are closed, and so is a designated seat to its owner on a day
    that is not of the owner's batch (Bob, batch 2, on a Wednesday of an
    odd week). *)
Example closed_days :
  snd (api_book office morning "alice1" (Some (wednesday + 3)) [41]) =
    RespErr 400 MsgWeekendHoliday /\
  snd (api_book officeAssigned morning "bob2" (Some wednesday) [1]) =
    RespErr 400 MsgBatchDays /\
  snd (api_book officeAssigned morning "bob2" (Some (wednesday - 7)) [1]) =
    RespOk MsgBookingSuccessful [1].
Proof. repeat split; vm_compute; reflexivity. Qed.

(** ** Lists: [find], [filter] and the falsy zero *)

Lemma find_filter_narrow {A} (f p q : A -> bool) (l : list A) :
  (forall x, f x = true -> p x = true -> q x = true) ->
  List.find f (List.filter p (List.filter q l)) = List.find f (List.filter p l).
Proof.
  intros H. induction l as [|a l IH]; simpl; [reflexivity|].
  destruct (q a) eqn:Hq; simpl.
  - destruct (p a) eqn:Hp; simpl; [|exact IH].
    destruct (f a); [reflexivity|exact IH].
  - destruct (p a) eqn:Hp; simpl; [|exact IH].
    destruct (f a) eqn:Hf; [|exact IH].
    rewrite (H a Hf Hp) in Hq. discriminate.
Qed.

Lemma truthyNum_true (n : Z) : n <> 0 -> truthyNum n = true.
Proof. intros H. unfold truthyNum. apply negb_true_iff, Z.eqb_neq, H. Qed.

Lemma truthyFound_positive (p : Z -> bool) (l : list Z) :
  Forall (fun s => 0 < s) l -> truthyFound (List.find p l) = List.find p l.
Proof.
  intros Hpos. destruct (List.find p l) as [x|] eqn:Hf; [|reflexivity].
  apply find_some in Hf as [Hin _]. rewrite Forall_forall in Hpos.
  specialize (Hpos x). simpl. rewrite truthyNum_true; [reflexivity|].
  assert (0 < x) by (apply Hpos, list_elem_of_In, Hin). lia.
Qed.

(** ** Uniqueness of bookings (C1) *)

(** C1, at the failing input.  Alice confirms the seat list [[41; 41]] for
    the Wednesday on an office without bookings: both occurrences pass the
    availability loop, which runs to its end before anything is committed,
    and the commit loop pushes one booking per occurrence.  The store,
    which held at most one booking per seat and date before the call,
    holds two bookings of seat 41 for the date after it. *)
Theorem book_repeated_seat_books_twice :
  let r := api_book office morning "alice1" (Some wednesday) [41; 41] in
  bookingsUnique office /\
  snd r = RespOk MsgBookingSuccessful [41; 41] /\
  bookings (fst r) =
    [mkBooking wednesday 41 "alice1" 1000; mkBooking wednesday 41 "alice1" 1000] /\
  bookingCount (fst r) wednesday 41 = 2%nat /\
  ~ bookingsUnique (fst r).
Proof.
  cbv zeta. repeat split; try (vm_compute; reflexivity).
  - constructor.
  - intros H. vm_compute in H. inversion H as [|x l Hnotin _]; subst.
    apply Hnotin. left.
Qed.

(** The repeated id is the only way to a double booking: every request
    keeps the bookings unique, provided a confirmation lists no seat
    twice. *)

Lemma NoDup_map_filter {A B} (f : A -> B) (p : A -> bool) (l : list A) :
  NoDup (List.map f l) -> NoDup (List.map f (List.filter p l)).
Proof.
  induction l as [|a l IH]; simpl; intros H; [exact H|].
  apply NoDup_cons in H as [Hnotin Hnd].
  destruct (p a); simpl; [|auto].
  apply NoDup_cons. split; [|auto].
  intros Hin. apply Hnotin.
  apply list_elem_of_In in Hin. apply list_elem_of_In.
  apply in_map_iff in Hin as (x & Hx & Hin). apply in_map_iff.
  exists x. split; [exact Hx|]. apply filter_In in Hin. tauto.
Qed.

Lemma NoDup_map_injective {A B} (f : A -> B) (l : list A) :
  (forall x y, f x = f y -> x = y) -> NoDup l -> NoDup (List.map f l).
Proof.
  intros Hinj. induction l as [|a l IH]; simpl; intros H; [constructor|].
  apply NoDup_cons in H as [Hnotin Hnd]. apply NoDup_cons. split; [|auto].
  intros Hin. apply Hnotin. apply list_elem_of_In in Hin. apply list_elem_of_In.
  apply in_map_iff in Hin as (x & Hx & Hin). now rewrite <- (Hinj _ _ Hx).
Qed.

Lemma commit_bookings (user : User) (date : Date) (ts : Z) (seatIds : list Z) (st : State) :
  bookings (fold_left (commitSeat user date ts) seatIds st) =
  bookings st ++ List.map (fun s => mkBooking date s (userId user) ts) seatIds.
Proof.
  revert st. induction seatIds as [|s rest IH]; intros st; simpl.
  - now rewrite app_nil_r.
  - rewrite IH. simpl. now rewrite <- app_assoc.
Qed.

Lemma commit_frame (user : User) (date : Date) (ts : Z) (seatIds : list Z) (st : State) :
  let st' := fold_left (commitSeat user date ts) seatIds st in
  users st' = users st /\ seatDefinitions st' = seatDefinitions st /\
  leaves st' = leaves st /\ batchSchedule st' = batchSchedule st /\
  holidays st' = holidays st.
Proof.
  revert st. induction seatIds as [|s rest IH]; intros st; simpl; [tauto|].
  destruct (IH (commitSeat user date ts st s)) as (H1 & H2 & H3 & H4 & H5).
  simpl in *. tauto.
Qed.

Lemma bookCheck_none (st : State) (user : User) (date : Date) (now : Z) (seatIds : list Z) :
  bookCheck st user date now seatIds = None ->
  forall s, In s seatIds -> findBooking st date s = None.
Proof.
  induction seatIds as [|a rest IH]; simpl; intros H s Hs; [contradiction|].
  destruct (findBooking st date a) eqn:Hb; [discriminate|].
  destruct Hs as [<-|Hs]; [exact Hb|].
  apply IH; [|exact Hs].
  destruct (findLock st date a) as [l|]; [|exact H].
  destruct (negb (String.eqb (l_userId l) (userId user)) && (now <? lockExpiry l));
    [discriminate|].
  destruct (lockExpiry l <=? now); [discriminate|exact H].
Qed.

Lemma findBooking_none_key (st : State) (date : Date) (s : Z) :
  findBooking st date s = None -> ~ In (date, s) (List.map bookingKey (bookings st)).
Proof.
  unfold findBooking. intros H Hin.
  apply in_map_iff in Hin as (b & Hk & Hb).
  pose proof (find_none _ _ H b Hb) as Hf. simpl in Hf.
  unfold bookingKey in Hk. injection Hk as Hd Hs.
  rewrite Hd, Hs, !Z.eqb_refl in Hf. discriminate.
Qed.

Lemma api_book_unique (st : State) (clk : Clock) (caller : UserId)
    (date : option Date) (seatIds : list Z) :
  NoDup seatIds -> bookingsUnique st ->
  bookingsUnique (fst (api_book st clk caller date seatIds)).
Proof.
  intros Hids Hst. unfold api_book, withUser.
  destruct (users st !! caller) as [user|]; [|exact Hst].
  destruct date as [date|]; [|exact Hst].
  destruct (validateSeatIds st seatIds); [exact Hst|].
  destruct (MAX_SEATS_PER_BOOKING <? Z.of_nat (length seatIds)); [exact Hst|].
  destruct (validateBookingPolicy st clk user date seatIds); [exact Hst|].
  set (st1 := clearExpiredLocksForDate (tsPurge clk) date st).
  destruct (bookCheck st1 user date (tsCheck clk) seatIds) eqn:Hcheck; [exact Hst|].
  unfold bookingsUnique. simpl. rewrite commit_bookings, map_app, map_map.
  simpl. change (bookings st1) with (bookings st).
  apply NoDup_app. split; [exact Hst|]. split.
  - intros k Hk Hnew. apply list_elem_of_In in Hk, Hnew.
    apply in_map_iff in Hnew as (s & <- & Hs).
    pose proof (bookCheck_none _ _ _ _ _ Hcheck s Hs) as Hnone.
    exact (findBooking_none_key st1 date s Hnone Hk).
  - apply NoDup_map_injective; [|exact Hids].
    intros x y Hxy. now injection Hxy.
Qed.

Theorem handle_keeps_bookings_unique (st : State) (clk : Clock) (caller : UserId)
    (r : Request) :
  (forall date seatIds, r = PostBook date seatIds -> NoDup seatIds) ->
  bookingsUnique st -> bookingsUnique (fst (handle st clk caller r)).
Proof.
  intros Hr Hst. destruct r; simpl.
  - unfold api_seats, withUser. destruct (users st !! caller); [|exact Hst].
    destruct date; exact Hst.
  - unfold api_leave, withUser. destruct (users st !! caller) as [user|]; [|exact Hst].
    destruct date as [date|]; [|exact Hst]. unfold bookingsUnique. simpl.
    apply NoDup_map_filter.
    destruct (List.find _ (leaves st)); [exact Hst|].
    destruct (truthySeat (designatedSeatId user)); exact Hst.
  - unfold api_lock, withUser. destruct (users st !! caller) as [user|]; [|exact Hst].
    destruct date as [date|]; [|exact Hst].
    destruct (validateSeatIds st seatIds); [exact Hst|].
    destruct (isWeekend date || isHoliday st date); [exact Hst|].
    destruct (validateBookingPolicy st clk user date seatIds); [exact Hst|].
    destruct (lockCheck _ user date (tsCheck clk) seatIds); exact Hst.
  - unfold api_unlock, withUser. destruct (users st !! caller); [|exact Hst].
    destruct date; [|exact Hst]. destruct (validateSeatIds st seatIds); exact Hst.
  - apply api_book_unique; [|exact Hst]. now apply (Hr date).
  - unfold api_cancel, withUser. destruct (users st !! caller) as [user|]; [|exact Hst].
    destruct date as [date|]; [|exact Hst].
    destruct (validateSeatIds st seatIds); [exact Hst|].
    destruct (truthyFound _); [exact Hst|].
    unfold bookingsUnique. simpl. apply NoDup_map_filter, Hst.
  - unfold api_user_batch, withUser. destruct (users st !! caller) as [user|]; [|exact Hst].
    destruct (truthyStr newBatch) as [nb|]; [|exact Hst].
    destruct (negb (isBatchName nb)); [exact Hst|].
    destruct (existsb _ (bookings st)); exact Hst.
  - unfold api_admin_reset, withAdmin, withUser.
    destruct (users st !! caller) as [user|]; [|exact Hst].
    destruct (negb (isAdmin user)); [exact Hst|]. constructor.
  - unfold api_admin_force_cancel, withAdmin, withUser.
    destruct (users st !! caller) as [user|]; [|exact Hst].
    destruct (negb (isAdmin user)); [exact Hst|].
    destruct date as [date|]; [|exact Hst]. destruct seat as [seat|]; [|exact Hst].
    destruct (negb (truthyNum seat)); [exact Hst|].
    unfold bookingsUnique. simpl. apply NoDup_map_filter, Hst.
  - unfold api_admin_batch_schedule, withAdmin, withUser.
    destruct (users st !! caller) as [user|]; [|exact Hst].
    destruct (negb (isAdmin user)); [exact Hst|]. destruct schedule; exact Hst.
  - unfold api_admin_seat_type, withAdmin, withUser, updateSeatDefinition.
    destruct (users st !! caller) as [user|]; [|exact Hst].
    destruct (negb (isAdmin user)); [exact Hst|].
    destruct seat as [seat|]; [|exact Hst]. destruct newType as [ty|]; [|exact Hst].
    destruct (negb (truthyNum seat)); [exact Hst|].
    destruct (getSeatDefinition st seat); [|exact Hst].
    destruct (findIndex _ (seatDefinitions st)); exact Hst.
  - unfold api_admin_assign_seat, withAdmin, withUser, updateSeatDefinition.
    destruct (users st !! caller) as [user|]; [|exact Hst].
    destruct (negb (isAdmin user)); [exact Hst|].
    destruct (truthyStr uid) as [u|]; [|exact Hst]. destruct seat as [seat|]; [|exact Hst].
    destruct (negb (truthyNum seat)); [exact Hst|].
    destruct (getSeatDefinition st seat); [|exact Hst].
    destruct (users st !! u); [|exact Hst].
    destruct (findIndex _ (seatDefinitions st)); exact Hst.
  - unfold api_admin_holidays, withAdmin, withUser.
    destruct (users st !! caller) as [user|]; [|exact Hst].
    destruct (negb (isAdmin user)); [exact Hst|].
    destruct date; [|exact Hst]. destruct markHoliday as [[|]|]; exact Hst.
Qed.

(** ** Confirmation is all-or-nothing (C2) *)

Lemma purge_keeps_live (now : Z) (date : Date) (st : State) (l : Lock) :
  In l (locks st) -> liveAt now l ->
  In l (locks (clearExpiredLocksForDate now date st)).
Proof.
  intros Hin Hlive. simpl. apply filter_In. split; [exact Hin|].
  destruct (negb (l_date l =? date)); [reflexivity|].
  apply Z.ltb_lt, Hlive.
Qed.

Lemma purge_only_removes (now : Z) (date : Date) (st : State) (l : Lock) :
  In l (locks (clearExpiredLocksForDate now date st)) -> In l (locks st).
Proof. simpl. intros H. apply filter_In in H. tauto. Qed.

Lemma purge_drops_expired (now : Z) (date : Date) (st : State) (l : Lock) :
  l_date l = date -> lockExpiry l <= now ->
  ~ In l (locks (clearExpiredLocksForDate now date st)).
Proof.
  intros Hd He Hin. simpl in Hin. apply filter_In in Hin as [_ Hk].
  rewrite Hd, Z.eqb_refl in Hk. simpl in Hk. apply Z.ltb_lt in Hk. lia.
Qed.

(** The availability loop stops at a seat that is booked, or whose lock
    is another user's and still live. *)
Lemma bookCheck_blocked (st : State) (user : User) (date : Date) (now : Z)
    (seatIds : list Z) (s : Z) :
  In s seatIds ->
  (findBooking st date s <> None \/
   exists l, findLock st date s = Some l /\
             String.eqb (l_userId l) (userId user) = false /\ now < lockExpiry l) ->
  bookCheck st user date now seatIds <> None.
Proof.
  intros Hin Hblock. induction seatIds as [|a rest IH]; simpl; [contradiction|].
  destruct (findBooking st date a) eqn:Hb; [discriminate|].
  destruct (findLock st date a) as [l|] eqn:Hl.
  - destruct (negb (String.eqb (l_userId l) (userId user)) && (now <? lockExpiry l)) eqn:Hother;
      [discriminate|].
    destruct (lockExpiry l <=? now); [discriminate|].
    destruct Hin as [->|Hin]; [|auto].
    destruct Hblock as [Hbooked|(l' & Hl' & Hu & He)]; [congruence|].
    rewrite Hl in Hl'. injection Hl' as <-.
    rewrite Hu in Hother. simpl in Hother. apply Z.ltb_ge in Hother. lia.
  - destruct Hin as [->|Hin]; [|auto].
    destruct Hblock as [Hbooked|(l' & Hl' & _)]; congruence.
Qed.

(** C2, as the code has it.  A rejected confirmation creates no booking
    and leaves the store as it was, except that the locks of the requested
    date that had expired at the purge are gone: every lock still live at
    the purge is kept, none is added.  The call is rejected as soon as one
    requested seat is booked, or locked by another user whose lock is
    live, or the policy check fails (in which case nothing at all
    changes); so for [[A; B]] with [B] booked, neither seat is added to the
    bookings. *)
Theorem book_all_or_nothing (st : State) (clk : Clock) (caller : UserId)
    (date : option Date) (seatIds : list Z) :
  let r := api_book st clk caller date seatIds in
  (rejected (snd r) ->
     bookings (fst r) = bookings st /\
     (fst r = st \/
      exists d, date = Some d /\ fst r = clearExpiredLocksForDate (tsPurge clk) d st) /\
     (forall l, In l (locks st) -> liveAt (tsPurge clk) l -> In l (locks (fst r))) /\
     (forall l, In l (locks (fst r)) -> In l (locks st))) /\
  (forall d user s,
     date = Some d -> users st !! caller = Some user -> In s seatIds ->
     (findBooking st d s <> None \/
      exists l, findLock (clearExpiredLocksForDate (tsPurge clk) d st) d s = Some l /\
                String.eqb (l_userId l) (userId user) = false /\
                tsCheck clk < lockExpiry l) ->
     rejected (snd r)) /\
  (forall d user,
     date = Some d -> users st !! caller = Some user ->
     validateBookingPolicy st clk user d seatIds <> None ->
     rejected (snd r) /\ fst r = st).
Proof.
  cbv zeta. unfold api_book, withUser. split; [|split].
  - destruct (users st !! caller) as [user|]; [|simpl; intuition].
    destruct date as [d|]; [|simpl; intuition].
    destruct (validateSeatIds st seatIds); [simpl; intuition|].
    destruct (MAX_SEATS_PER_BOOKING <? Z.of_nat (length seatIds)); [simpl; intuition|].
    destruct (validateBookingPolicy st clk user d seatIds); [simpl; intuition|].
    destruct (bookCheck _ user d (tsCheck clk) seatIds); [|simpl; contradiction].
    intros _. cbn [fst snd]. split; [reflexivity|]. split; [right; eauto|]. split.
    + intros l. apply purge_keeps_live.
    + intros l. apply purge_only_removes.
  - intros d user s -> -> Hin Hblock.
    destruct (validateSeatIds st seatIds); [exact I|].
    destruct (MAX_SEATS_PER_BOOKING <? Z.of_nat (length seatIds)); [exact I|].
    destruct (validateBookingPolicy st clk user d seatIds); [exact I|].
    destruct (bookCheck _ user d (tsCheck clk) seatIds) eqn:Hc; [exact I|].
    exfalso. revert Hc. apply bookCheck_blocked with (s := s); [exact Hin|].
    exact Hblock.
  - intros d user -> -> Hpol.
    destruct (validateSeatIds st seatIds); [split; [exact I|reflexivity]|].
    destruct (MAX_SEATS_PER_BOOKING <? Z.of_nat (length seatIds));
      [split; [exact I|reflexivity]|].
    destruct (validateBookingPolicy st clk user d seatIds);
      [split; [exact I|reflexivity]|congruence].
Qed.

(** The claim as stated fails: in a rejected batch the expired lock on a
    requested seat is removed.  Alice's lock on seat 41 expired at
    instant 5; at instant 1000 she confirms [[41; 42]], seat 42 being
    Bob's; the call is rejected for seat 42 and her lock on seat 41 is no
    longer in the store. *)
Lemma book_rejection_removes_expired_lock :
  let r := api_book officeStale morning "alice1" (Some wednesday) [41; 42] in
  snd r = RespErr 400 (MsgAlreadyBooked 42) /\
  In staleLock (locks officeStale) /\
  l_date staleLock = wednesday /\ In (l_seatId staleLock) [41; 42] /\
  ~ In staleLock (locks (fst r)).
Proof.
  cbv zeta. repeat split; try (vm_compute; reflexivity).
  - left. reflexivity.
  - left. reflexivity.
  - vm_compute. tauto.
Qed.

Lemma book_all_or_nothing_witness :
  let r := api_book officeStale morning "alice1" (Some wednesday) [41; 42] in
  bookings (fst r) = bookings officeStale /\
  forall l, In l (locks officeStale) -> liveAt 1000 l -> In l (locks (fst r)).
Proof.
  cbv zeta.
  destruct (book_all_or_nothing officeStale morning "alice1" (Some wednesday) [41; 42])
    as (Hrej & _ & _).
  destruct Hrej as (Hb & _ & Hl & _); [vm_compute; exact I|].
  split; [exact Hb|exact Hl].
Defined.

(** ** The advance-booking rule in the lock path (C3) *)

(** C3, on the code.  The lock handler calls [validateBookingPolicy] as it
    is, the 3 PM rule included: a lock request for tomorrow made before
    15:00 by a user who is not on leave, for valid seats on a working
    day, is rejected with the advance-booking message and changes
    nothing. *)
Theorem lock_rejected_by_advance_rule (st : State) (clk : Clock) (caller : UserId)
    (user : User) (date : Date) (seatIds : list Z) :
  users st !! caller = Some user ->
  validateSeatIds st seatIds = None ->
  isWeekend date = false -> isHoliday st date = false ->
  isUserOnLeave st (userId user) date = false ->
  date = today clk + 1 -> hour clk < 15 ->
  api_lock st clk caller (Some date) seatIds = (st, RespErr 400 MsgAdvanceBooking).
Proof.
  intros Hu Hv Hw Hh Hl Hd Hhour.
  unfold api_lock, withUser. rewrite Hu, Hv, Hw, Hh. simpl.
  unfold validateBookingPolicy. rewrite Hw, Hh, Hl. simpl.
  replace (date =? today clk + 1) with true by (symmetry; apply Z.eqb_eq, Hd).
  replace (hour clk <? 15) with true by (symmetry; apply Z.ltb_lt, Hhour).
  reflexivity.
Qed.

Lemma lock_rejected_by_advance_rule_witness :
  api_lock office morning "alice1" (Some (wednesday + 1)) [41] =
  (office, RespErr 400 MsgAdvanceBooking).
Proof.
  apply (lock_rejected_by_advance_rule office morning "alice1" alice (wednesday + 1) [41]);
    try (vm_compute; reflexivity).
Defined.

(** ** The purge of expired locks *)

Lemma validateSeatIds_locks (st : State) (ls : list Lock) (seatIds : list Z) :
  validateSeatIds (set_locks st ls) seatIds = validateSeatIds st seatIds.
Proof. reflexivity. Qed.

Lemma checkSeatOwnership_locks (st : State) (ls : list Lock) (user : User)
    (date : Date) (b : bool) (seatIds : list Z) :
  checkSeatOwnership (set_locks st ls) user date b seatIds =
  checkSeatOwnership st user date b seatIds.
Proof.
  induction seatIds as [|s rest IH]; simpl; [reflexivity|].
  change (getSeatDefinition (set_locks st ls) s) with (getSeatDefinition st s).
  destruct (getSeatDefinition st s) as [def|]; [|reflexivity].
  destruct (type def); [|exact IH].
  destruct (truthyStr (assignedTo def)) as [owner|]; [|exact IH].
  change (isUserOnLeave (set_locks st ls) owner date) with (isUserOnLeave st owner date).
  rewrite IH. reflexivity.
Qed.

Lemma validateBookingPolicy_locks (st : State) (ls : list Lock) (clk : Clock)
    (user : User) (date : Date) (seatIds : list Z) :
  validateBookingPolicy (set_locks st ls) clk user date seatIds =
  validateBookingPolicy st clk user date seatIds.
Proof.
  unfold validateBookingPolicy. rewrite checkSeatOwnership_locks. reflexivity.
Qed.

Lemma bookCheck_ext (a b : State) (user : User) (date : Date) (now : Z) (seatIds : list Z) :
  (forall s, findBooking a date s = findBooking b date s) ->
  (forall s, findLock a date s = findLock b date s) ->
  bookCheck a user date now seatIds = bookCheck b user date now seatIds.
Proof.
  intros Hb Hl. induction seatIds as [|s rest IH]; simpl; [reflexivity|].
  now rewrite Hb, Hl, IH.
Qed.

Lemma lockCheck_ext (a b : State) (user : User) (date : Date) (now : Z) (seatIds : list Z) :
  (forall s, findBooking a date s = findBooking b date s) ->
  (forall s, findLock a date s = findLock b date s) ->
  lockCheck a user date now seatIds = lockCheck b user date now seatIds.
Proof.
  intros Hb Hl. induction seatIds as [|s rest IH]; simpl; [reflexivity|].
  now rewrite Hb, Hl, IH.
Qed.

(** After the purge of a date, the first lock of the date that satisfies
    a test is the same whether or not the expired locks of the whole
    store were dropped beforehand. *)
Lemma purge_find_withoutExpired (now : Z) (date : Date) (st : State) (f : Lock -> bool) :
  (forall l, f l = true -> l_date l = date) ->
  List.find f (locks (clearExpiredLocksForDate now date (withoutExpiredLocks now st))) =
  List.find f (locks (clearExpiredLocksForDate now date st)).
Proof.
  intros Hf. simpl. apply find_filter_narrow.
  intros l Hl Hk. rewrite (Hf l Hl), Z.eqb_refl in Hk. exact Hk.
Qed.

Lemma purge_findLock_withoutExpired (now : Z) (date : Date) (st : State) (s : Z) :
  findLock (clearExpiredLocksForDate now date (withoutExpiredLocks now st)) date s =
  findLock (clearExpiredLocksForDate now date st) date s.
Proof.
  unfold findLock. apply purge_find_withoutExpired.
  intros l Hl. apply andb_true_iff in Hl as [Hd _]. apply Z.eqb_eq, Hd.
Qed.

Lemma projection_withoutExpired (clk : Clock) (date : Date) (st : State) :
  snd (getSeatStateForDate clk date (withoutExpiredLocks (tsPurge clk) st)) =
  snd (getSeatStateForDate clk date st).
Proof.
  unfold getSeatStateForDate. cbn [snd].
  change (seatDefinitions (clearExpiredLocksForDate (tsPurge clk) date
                             (withoutExpiredLocks (tsPurge clk) st)))
    with (seatDefinitions st).
  change (seatDefinitions (clearExpiredLocksForDate (tsPurge clk) date st))
    with (seatDefinitions st).
  apply imap_ext. intros i def _. unfold projectSeat.
  rewrite purge_find_withoutExpired; [reflexivity|].
  intros l Hl. apply andb_true_iff in Hl as [Hl _].
  apply andb_true_iff in Hl as [Hd _]. apply Z.eqb_eq, Hd.
Qed.

(** The answers of the lock and of the confirm handler do not depend on
    the locks that have expired at the purge. *)
Lemma lock_response_withoutExpired (st : State) (clk : Clock) (caller : UserId)
    (date : option Date) (seatIds : list Z) :
  snd (api_lock (withoutExpiredLocks (tsPurge clk) st) clk caller date seatIds) =
  snd (api_lock st clk caller date seatIds).
Proof.
  unfold api_lock, withUser.
  change (users (withoutExpiredLocks (tsPurge clk) st)) with (users st).
  destruct (users st !! caller) as [user|]; [|reflexivity].
  destruct date as [date|]; [|reflexivity].
  unfold withoutExpiredLocks. rewrite validateSeatIds_locks.
  destruct (validateSeatIds st seatIds); [reflexivity|].
  change (isHoliday (set_locks st _) date) with (isHoliday st date).
  destruct (isWeekend date || isHoliday st date); [reflexivity|].
  rewrite validateBookingPolicy_locks.
  destruct (validateBookingPolicy st clk user date seatIds); [reflexivity|].
  rewrite (lockCheck_ext _ (clearExpiredLocksForDate (tsPurge clk) date st));
    [|reflexivity|apply purge_findLock_withoutExpired].
  destruct (lockCheck _ user date (tsCheck clk) seatIds); reflexivity.
Qed.

Lemma book_response_withoutExpired (st : State) (clk : Clock) (caller : UserId)
    (date : option Date) (seatIds : list Z) :
  snd (api_book (withoutExpiredLocks (tsPurge clk) st) clk caller date seatIds) =
  snd (api_book st clk caller date seatIds).
Proof.
  unfold api_book, withUser.
  change (users (withoutExpiredLocks (tsPurge clk) st)) with (users st).
  destruct (users st !! caller) as [user|]; [|reflexivity].
  destruct date as [date|]; [|reflexivity].
  unfold withoutExpiredLocks. rewrite validateSeatIds_locks.
  destruct (validateSeatIds st seatIds); [reflexivity|].
  destruct (MAX_SEATS_PER_BOOKING <? Z.of_nat (length seatIds)); [reflexivity|].
  rewrite validateBookingPolicy_locks.
  destruct (validateBookingPolicy st clk user date seatIds); [reflexivity|].
  rewrite (bookCheck_ext _ (clearExpiredLocksForDate (tsPurge clk) date st));
    [|reflexivity|apply purge_findLock_withoutExpired].
  destruct (bookCheck _ user date (tsCheck clk) seatIds); reflexivity.
Qed.

(** ** Expired locks at confirmation (C4) *)

(** The availability loop stops at a seat whose lock is still in the
    store but has run out at the check. *)
Lemma bookCheck_expired (st : State) (user : User) (date : Date) (now : Z)
    (seatIds : list Z) (s : Z) (l : Lock) :
  In s seatIds -> findLock st date s = Some l -> lockExpiry l <= now ->
  bookCheck st user date now seatIds <> None.
Proof.
  intros Hin Hl He. induction seatIds as [|a rest IH]; simpl; [contradiction|].
  destruct (findBooking st date a); [discriminate|].
  destruct (findLock st date a) as [l'|] eqn:Hl'.
  - destruct (negb (String.eqb (l_userId l') (userId user)) && (now <? lockExpiry l'));
      [discriminate|].
    destruct (lockExpiry l' <=? now) eqn:He'; [discriminate|].
    destruct Hin as [->|Hin]; [|auto].
    rewrite Hl in Hl'. injection Hl' as <-. apply Z.leb_gt in He'. lia.
  - destruct Hin as [->|Hin]; [congruence|auto].
Qed.

(** Where the loop answers "lock expired", the lock it found has run out
    at the check. *)
Lemma bookCheck_expired_inv (st : State) (user : User) (date : Date) (now : Z)
    (seatIds : list Z) (s : Z) :
  bookCheck st user date now seatIds = Some (MsgLockExpired s) ->
  exists l, findLock st date s = Some l /\ lockExpiry l <= now.
Proof.
  induction seatIds as [|a rest IH]; simpl; [discriminate|].
  destruct (findBooking st date a); [discriminate|].
  destruct (findLock st date a) as [l|] eqn:Hl; [|exact IH].
  destruct (negb (String.eqb (l_userId l) (userId user)) && (now <? lockExpiry l));
    [discriminate|].
  destruct (lockExpiry l <=? now) eqn:He; [|exact IH].
  intros H. injection H as <-. exists l. split; [exact Hl|]. apply Z.leb_le, He.
Qed.

Lemma findLock_some (st : State) (date : Date) (s : Z) (l : Lock) :
  findLock st date s = Some l -> In l (locks st) /\ l_date l = date /\ l_seatId l = s.
Proof.
  unfold findLock. intros H. apply find_some in H as [Hin Hp].
  apply andb_true_iff in Hp as [Hd Hs]. apply Z.eqb_eq in Hd, Hs. auto.
Qed.

(** C4, as the code has it.  For a confirmation that passes the seat-id,
    size and policy checks: a lock of the date that has expired when the
    handler purges the date's locks is removed before the seats are
    checked; the call is rejected, with the bookings as they were, when a
    requested seat's lock survived the purge and has run out at the clock
    read of the check; and the answer "lock expired" is given for such a
    lock only, one that expires between the two clock reads; the answer
    is the one the store without the locks expired at the purge would
    give. *)
Theorem book_expired_lock_window (st : State) (clk : Clock) (caller : UserId)
    (user : User) (date : Date) (seatIds : list Z) :
  users st !! caller = Some user ->
  validateSeatIds st seatIds = None ->
  Z.of_nat (length seatIds) <= MAX_SEATS_PER_BOOKING ->
  validateBookingPolicy st clk user date seatIds = None ->
  let st1 := clearExpiredLocksForDate (tsPurge clk) date st in
  let r := api_book st clk caller (Some date) seatIds in
  (forall l, In l (locks st) -> l_date l = date -> lockExpiry l <= tsPurge clk ->
             ~ In l (locks st1)) /\
  (forall s l, In s seatIds -> findLock st1 date s = Some l ->
               lockExpiry l <= tsCheck clk ->
               rejected (snd r) /\ bookings (fst r) = bookings st) /\
  (forall s code, snd r = RespErr code (MsgLockExpired s) ->
     exists l, In l (locks st) /\ l_date l = date /\ l_seatId l = s /\
               tsPurge clk < lockExpiry l /\ lockExpiry l <= tsCheck clk) /\
  snd (api_book (withoutExpiredLocks (tsPurge clk) st) clk caller (Some date) seatIds)
    = snd r.
Proof.
  intros Hu Hv Hmax Hpol. cbv zeta.
  split; [intros l _ Hd He; now apply purge_drops_expired|].
  split; [|split; [|apply book_response_withoutExpired]];
    unfold api_book, withUser; rewrite Hu, Hv, Hpol;
    replace (MAX_SEATS_PER_BOOKING <? Z.of_nat (length seatIds)) with false
      by (symmetry; apply Z.ltb_ge, Hmax).
  - intros s l Hin Hl He.
    destruct (bookCheck _ user date (tsCheck clk) seatIds) eqn:Hc.
    + split; [exact I|reflexivity].
    + exfalso. revert Hc. now apply bookCheck_expired with (s := s) (l := l).
  - intros s code.
    destruct (bookCheck _ user date (tsCheck clk) seatIds) as [m|] eqn:Hc;
      [|discriminate].
    cbn [snd]. intros H. injection H as _ ->.
    apply bookCheck_expired_inv in Hc as (l & Hl & He).
    apply findLock_some in Hl as (Hin & Hd & Hs).
    exists l. simpl in Hin. apply filter_In in Hin as [Hin Hk].
    rewrite Hd, Z.eqb_refl in Hk. simpl in Hk. apply Z.ltb_lt in Hk.
    repeat split; assumption.
Qed.

(** The claim as stated fails for a call made at one instant: Alice's
    lock on seat 41 expired at instant 5; at instant 1000 (both clock
    reads) she confirms seat 41; the lock exists in the store, has
    expired, and the call is not rejected: the seat is booked. *)
Lemma book_not_rejected_on_expired_lock :
  let st := set_locks office [staleLock] in
  let r := api_book st morning "alice1" (Some wednesday) [41] in
  tsPurge morning = tsCheck morning /\
  findLock st wednesday 41 = Some staleLock /\
  lockExpiry staleLock <= tsCheck morning /\
  snd r = RespOk MsgBookingSuccessful [41] /\
  bookings (fst r) = [mkBooking wednesday 41 "alice1" 1000].
Proof. cbv zeta. repeat split; vm_compute; try reflexivity; discriminate. Qed.

(** A request whose second clock read is later than the first: Bob's lock
    on seat 41 runs out at 1001, between the purge at 1000 and the check
    at 1002. *)
Lemma book_expired_lock_window_witness :
  let clk := mkClock wednesday 10 1000 1002 1002 in
  let st := set_locks office [mkLock wednesday 41 "bob2" 1001] in
  let r := api_book st clk "alice1" (Some wednesday) [41] in
  rejected (snd r) /\ bookings (fst r) = bookings st.
Proof.
  cbv zeta.
  assert (H := book_expired_lock_window
                 (set_locks office [mkLock wednesday 41 "bob2" 1001])
                 (mkClock wednesday 10 1000 1002 1002) "alice1" alice wednesday [41]
                 ltac:(vm_compute; reflexivity) ltac:(vm_compute; reflexivity)
                 ltac:(vm_compute; discriminate) ltac:(vm_compute; reflexivity)).
  cbv zeta in H. destruct H as (_ & Hrej & _).
  apply (Hrej 41 (mkLock wednesday 41 "bob2" 1001)).
  - left. reflexivity.
  - vm_compute. reflexivity.
  - vm_compute. discriminate.
Defined.

Lemma find_some_iff {A} (p : A -> bool) (l : list A) :
  List.find p l <> None <-> exists x, In x l /\ p x = true.
Proof.
  split.
  - destruct (List.find p l) as [x|] eqn:Hf; [|congruence].
    intros _. apply find_some in Hf. eauto.
  - intros (x & Hin & Hp) Hf. rewrite (find_none _ _ Hf x Hin) in Hp. discriminate.
Qed.

Lemma findBooking_bookedOn (st : State) (date : Date) (s : Z) :
  findBooking st date s <> None <-> bookedOn st date s.
Proof.
  unfold findBooking, bookedOn. rewrite find_some_iff. split.
  - intros (b & Hin & Hp). apply andb_true_iff in Hp as [Hd Hs].
    apply Z.eqb_eq in Hd, Hs. eauto.
  - intros (b & Hin & Hd & Hs). exists b. split; [exact Hin|].
    now rewrite Hd, Hs, !Z.eqb_refl.
Qed.

Lemma findBooking_none_iff (st : State) (date : Date) (s : Z) :
  findBooking st date s = None <-> ~ bookedOn st date s.
Proof.
  rewrite <- findBooking_bookedOn. destruct (findBooking st date s); split;
    intros H; try reflexivity; try discriminate; try congruence.
  exfalso. apply H. discriminate.
Qed.

Lemma bookCheck_none_iff (st : State) (user : User) (date : Date) (now : Z) (seatIds : list Z) :
  bookCheck st user date now seatIds = None <->
  forall s, In s seatIds ->
    findBooking st date s = None /\
    forall l, findLock st date s = Some l ->
              String.eqb (l_userId l) (userId user) = true /\ now < lockExpiry l.
Proof.
  induction seatIds as [|a rest IH]; simpl.
  - split; [intros _ s []|reflexivity].
  - destruct (findBooking st date a) eqn:Hb.
    + split; [discriminate|]. intros H. destruct (H a (or_introl eq_refl)) as [Hn _].
      congruence.
    + destruct (findLock st date a) as [l|] eqn:Hl.
      * destruct (String.eqb (l_userId l) (userId user)) eqn:Hu;
          destruct (now <? lockExpiry l) eqn:He; simpl.
        -- replace (lockExpiry l <=? now) with false
             by (symmetry; apply Z.leb_gt; apply Z.ltb_lt in He; lia).
           rewrite IH. split.
           ++ intros H s [<-|Hs]; [|auto]. split; [exact Hb|].
              intros l' Hl'. rewrite Hl in Hl'. injection Hl' as <-.
              split; [exact Hu|apply Z.ltb_lt, He].
           ++ intros H s Hs. apply H. now right.
        -- replace (lockExpiry l <=? now) with true
             by (symmetry; apply Z.leb_le; apply Z.ltb_ge in He; lia).
           split; [discriminate|]. intros H.
           destruct (H a (or_introl eq_refl)) as [_ Hk].
           destruct (Hk l Hl) as [_ Hk']. apply Z.ltb_ge in He. lia.
        -- split; [discriminate|]. intros H.
           destruct (H a (or_introl eq_refl)) as [_ Hk].
           destruct (Hk l Hl) as [Hk' _]. congruence.
        -- replace (lockExpiry l <=? now) with true
             by (symmetry; apply Z.leb_le; apply Z.ltb_ge in He; lia).
           split; [discriminate|]. intros H.
           destruct (H a (or_introl eq_refl)) as [_ Hk].
           destruct (Hk l Hl) as [Hk' _]. congruence.
      * rewrite IH. split.
        -- intros H s [<-|Hs]; [|auto]. split; [exact Hb|]. intros l' Hl'. congruence.
        -- intros H s Hs. apply H. now right.
Qed.

(** ** Expired locks and what they change (C5) *)

(** With the current time of a request taken to be what its first clock
    read, the one of the purge, returns: a seat is reported locked only
    on account
    of a lock that is live at both clock reads of the projection; and the
    projection, the answer of a lock request and the answer of a
    confirmation are what they would be had every lock that has expired
    at the current time been taken out of the store before the
    request. *)
Theorem expired_locks_unobservable (st : State) (clk : Clock) (caller : UserId)
    (d : Date) (date : option Date) (seatIds : list Z) :
  let st' := withoutExpiredLocks (tsPurge clk) st in
  (forall view, In view (snd (getSeatStateForDate clk d st)) ->
     v_status view = locked ->
     exists l, In l (locks st) /\ l_date l = d /\ l_seatId l = v_seatId view /\
               v_lockedBy view = Some (l_userId l) /\
               v_lockExpiry view = Some (lockExpiry l) /\
               tsPurge clk < lockExpiry l /\ tsCheck clk < lockExpiry l) /\
  snd (getSeatStateForDate clk d st') = snd (getSeatStateForDate clk d st) /\
  snd (api_seats st' clk caller date) = snd (api_seats st clk caller date) /\
  snd (api_lock st' clk caller date seatIds) = snd (api_lock st clk caller date seatIds) /\
  snd (api_book st' clk caller date seatIds) = snd (api_book st clk caller date seatIds).
Proof.
  cbv zeta. split; [|split; [|split; [|split]]].
  - intros view Hin Hlocked. unfold getSeatStateForDate in Hin. cbn [snd] in Hin.
    apply list_elem_of_In, elem_of_lookup_imap in Hin as (i & def & -> & _).
    unfold projectSeat in *.
    destruct (findBooking _ d (seatId def)); [discriminate|].
    destruct (List.find _ _) as [l|] eqn:Hl; [|discriminate].
    apply find_some in Hl as [Hin Hp].
    apply andb_true_iff in Hp as [Hp He]. apply andb_true_iff in Hp as [Hd Hs].
    apply Z.eqb_eq in Hd, Hs. apply Z.ltb_lt in He.
    simpl in Hin. apply filter_In in Hin as [Hin Hk].
    rewrite Hd, Z.eqb_refl in Hk. simpl in Hk. apply Z.ltb_lt in Hk.
    exists l. simpl. auto 10.
  - apply projection_withoutExpired.
  - unfold api_seats, withUser.
    change (users (withoutExpiredLocks (tsPurge clk) st)) with (users st).
    destruct (users st !! caller) as [user|]; [|reflexivity].
    destruct date as [date|]; [|reflexivity].
    pose proof (projection_withoutExpired clk date st) as Hp.
    unfold getSeatStateForDate in *. cbn [snd] in *. rewrite Hp. reflexivity.
  - apply lock_response_withoutExpired.
  - apply book_response_withoutExpired.
Qed.

Lemma expired_locks_unobservable_witness :
  snd (api_book (withoutExpiredLocks 1000 officeStale) morning "alice1"
         (Some wednesday) [41]) =
  snd (api_book officeStale morning "alice1" (Some wednesday) [41]).
Proof.
  exact (proj2 (proj2 (proj2 (proj2
    (expired_locks_unobservable officeStale morning "alice1" wednesday
       (Some wednesday) [41]))))).
Defined.




(** ** Ownership of designated seats (C6) *)



(** ** Leave is idempotent (C7) *)

Lemma find_none_filter_nil {A} (p : A -> bool) (l : list A) :
  List.find p l = None <-> List.filter p l = [].
Proof.
  induction l as [|a l IH]; simpl; [tauto|].
  destruct (p a); [split; discriminate|exact IH].
Qed.

Lemma leaveCount_find (st : State) (uid : UserId) (date : Date) :
  List.find (leaveOf uid date) (leaves st) = None <-> leaveCount st uid date = 0%nat.
Proof.
  unfold leaveCount. rewrite find_none_filter_nil. fold (leaveOf uid date).
  destruct (List.filter (leaveOf uid date) (leaves st)); simpl; split;
    intros H; try reflexivity; discriminate.
Qed.

(** The state after one leave request, in terms of the state before. *)
Lemma api_leave_effect (st : State) (caller : UserId) (user : User) (date : Date) :
  users st !! caller = Some user ->
  let st1 := fst (api_leave st caller (Some date)) in
  let created := match List.find (leaveOf (userId user) date) (leaves st) with
                 | None => true
                 | Some _ => false
                 end in
  snd (api_leave st caller (Some date)) = RespOk MsgLeaveRecorded [] /\
  leaves st1 =
    (if created
     then leaves st ++ [mkLeave (userId user) date
                          (if truthySeat (designatedSeatId user)
                           then designatedSeatId user else None)]
     else leaves st) /\
  users st1 !! caller =
    Some (mkUser (userId user) (batch user) (designatedSeatId user)
            (floaterLeaveCount user +
             (if created && truthySeat (designatedSeatId user) then 1 else 0))
            (isAdmin user)) /\
  bookings st1 =
    List.filter (fun b => negb (String.eqb (b_userId b) (userId user) && (b_date b =? date)))
                (bookings st).
Proof.
  intros Hu. cbv zeta. unfold api_leave, withUser. rewrite Hu.
  fold (leaveOf (userId user) date).
  destruct (List.find (leaveOf (userId user) date) (leaves st)) as [l|] eqn:Hf; cbn [fst snd].
  - repeat split. simpl. rewrite Hu, Z.add_0_r. now destruct user.
  - destruct (truthySeat (designatedSeatId user)) eqn:Hd; cbn [fst snd andb].
    + repeat split. simpl. now rewrite lookup_insert_eq.
    + repeat split. simpl. rewrite Hu, Z.add_0_r. now destruct user.
Qed.

(** C7.  Two leave requests of a user for a date, the user having at
    most one leave record for the date before (as in every state the
    server can reach, where only this handler adds leave records): both
    succeed; there is exactly one leave record of the user for the date
    after the first and after the second call; the second call adds no
    record and leaves the user, and with it [floaterLeaveCount],
    untouched; the first call adds one to the counter if it created the
    record and the user holds a designated seat, and nothing otherwise;
    after each call the user holds no booking for the date, the other
    bookings being kept. *)
Theorem markLeave_idempotent (st : State) (caller : UserId) (user : User) (date : Date) :
  users st !! caller = Some user ->
  (leaveCount st (userId user) date <= 1)%nat ->
  let r1 := api_leave st caller (Some date) in
  let r2 := api_leave (fst r1) caller (Some date) in
  let mine := fun b => String.eqb (b_userId b) (userId user) && (b_date b =? date) in
  snd r1 = RespOk MsgLeaveRecorded [] /\ snd r2 = RespOk MsgLeaveRecorded [] /\
  leaveCount (fst r1) (userId user) date = 1%nat /\
  leaveCount (fst r2) (userId user) date = 1%nat /\
  leaves (fst r2) = leaves (fst r1) /\
  (exists u1,
     users (fst r1) !! caller = Some u1 /\ users (fst r2) !! caller = Some u1 /\
     floaterLeaveCount u1 =
       floaterLeaveCount user +
       (if (leaveCount st (userId user) date =? 0)%nat && truthySeat (designatedSeatId user)
        then 1 else 0)) /\
  bookings (fst r1) = List.filter (fun b => negb (mine b)) (bookings st) /\
  bookings (fst r2) = bookings (fst r1) /\
  (forall b, In b (bookings (fst r1)) -> mine b = false).
Proof.
  intros Hu Hcount. cbv zeta.
  destruct (api_leave_effect st caller user date Hu) as (Hr1 & Hl1 & Hu1 & Hb1).
  set (st1 := fst (api_leave st caller (Some date))) in *.
  set (created := match List.find (leaveOf (userId user) date) (leaves st) with
                  | None => true | Some _ => false end) in *.
  set (u1 := mkUser (userId user) (batch user) (designatedSeatId user)
               (floaterLeaveCount user +
                (if created && truthySeat (designatedSeatId user) then 1 else 0))
               (isAdmin user)) in *.
  assert (Hc1 : leaveCount st1 (userId user) date = 1%nat).
  { unfold leaveCount. rewrite Hl1. fold (leaveOf (userId user) date). subst created.
    destruct (List.find (leaveOf (userId user) date) (leaves st)) as [l|] eqn:Hf.
    - assert (leaveCount st (userId user) date <> 0%nat)
        by (rewrite <- leaveCount_find, Hf; discriminate).
      unfold leaveCount in *. fold (leaveOf (userId user) date) in *. lia.
    - rewrite List.filter_app. apply find_none_filter_nil in Hf. rewrite Hf. simpl.
      unfold leaveOf at 1. simpl. now rewrite String.eqb_refl, Z.eqb_refl. }
  destruct (api_leave_effect st1 caller u1 date Hu1) as (Hr2 & Hl2 & Hu2 & Hb2).
  change (userId u1) with (userId user) in *.
  assert (Hfound : List.find (leaveOf (userId user) date) (leaves st1) <> None).
  { rewrite leaveCount_find, Hc1. discriminate. }
  destruct (List.find (leaveOf (userId user) date) (leaves st1)) as [l|] eqn:Hf;
    [|congruence].
  cbn [andb] in Hu2. rewrite Z.add_0_r in Hu2.
  assert (Hcreated : created = (leaveCount st (userId user) date =? 0)%nat).
  { subst created.
    destruct (List.find (leaveOf (userId user) date) (leaves st)) eqn:Hf0.
    - symmetry. apply Nat.eqb_neq. rewrite <- leaveCount_find, Hf0. discriminate.
    - symmetry. apply Nat.eqb_eq. now apply leaveCount_find. }
  assert (Hgone : forall b, In b (bookings st1) ->
            String.eqb (b_userId b) (userId user) && (b_date b =? date) = false).
  { intros b Hin. rewrite Hb1 in Hin. apply filter_In in Hin as [_ Hn].
    now apply negb_true_iff in Hn. }
  repeat split; try assumption.
  - unfold leaveCount. rewrite Hl2. exact Hc1.
  - exists u1. split; [exact Hu1|]. split.
    + rewrite Hu2. subst u1. reflexivity.
    + simpl. now rewrite Hcreated.
  - rewrite Hb2. clear - Hgone. induction (bookings st1) as [|b l IH]; [reflexivity|].
    simpl. rewrite (Hgone b (or_introl eq_refl)). simpl. f_equal.
    apply IH. intros x Hx. apply Hgone. now right.
Qed.

(** Bob, who holds the designated seat 1, marks leave twice for the
    Wednesday: one record, and the counter goes from 0 to 1. *)
Lemma markLeave_idempotent_witness :
  let r1 := api_leave officeAssigned "bob2" (Some wednesday) in
  let r2 := api_leave (fst r1) "bob2" (Some wednesday) in
  leaveCount (fst r2) "bob2" wednesday = 1%nat /\
  exists u1, users (fst r2) !! "bob2" = Some u1 /\ floaterLeaveCount u1 = 1.
Proof.
  cbv zeta.
  assert (H := markLeave_idempotent officeAssigned "bob2" bobOwner wednesday
                 ltac:(vm_compute; reflexivity) ltac:(vm_compute; lia)).
  cbv zeta in H. destruct H as (_ & _ & _ & Hc & _ & (u1 & _ & Hu & Hf) & _).
  split; [exact Hc|]. exists u1. split; [exact Hu|]. exact Hf.
Defined.

(** The hypothesis of the theorem holds in every state the handlers can
    produce from one that satisfies it: only the leave handler adds leave
    records, and only when there is none for the user and date. *)
Lemma api_leave_keeps_leaves_unique (st : State) (caller : UserId) (date : option Date) :
  leavesUnique st -> leavesUnique (fst (api_leave st caller date)).
Proof.
  intros Hst. unfold api_leave, withUser.
  destruct (users st !! caller) as [user|] eqn:Hu; [|exact Hst].
  destruct date as [date|]; [|exact Hst].
  intros uid d. unfold leaveCount. cbn [fst]. simpl.
  fold (leaveOf (userId user) date).
  destruct (List.find (leaveOf (userId user) date) (leaves st)) eqn:Hf;
    [exact (Hst uid d)|].
  assert (Hl : leaves (if truthySeat (designatedSeatId user)
                then set_users
                       (set_leaves st
                          (leaves st ++
                           [mkLeave (userId user) date
                              (if truthySeat (designatedSeatId user)
                               then designatedSeatId user else None)]))
                       (<[caller := mkUser (userId user) (batch user)
                                      (designatedSeatId user)
                                      (floaterLeaveCount user + 1) (isAdmin user)]>
                        (users st))
                else set_leaves st
                       (leaves st ++
                        [mkLeave (userId user) date
                           (if truthySeat (designatedSeatId user)
                            then designatedSeatId user else None)]))
          = leaves st ++ [mkLeave (userId user) date
                            (if truthySeat (designatedSeatId user)
                             then designatedSeatId user else None)])
    by (destruct (truthySeat (designatedSeatId user)); reflexivity).
  simpl in Hl. rewrite Hl, List.filter_app, length_app. simpl.
  destruct (leaveOf uid d _) eqn:Hnew.
  - unfold leaveOf in Hnew. simpl in Hnew. apply andb_true_iff in Hnew as [Hn Hd].
    apply String.eqb_eq in Hn. apply Z.eqb_eq in Hd. subst uid d.
    apply find_none_filter_nil in Hf. rewrite Hf. simpl. lia.
  - simpl. pose proof (Hst uid d) as H. unfold leaveCount in H. lia.
Qed.

Lemma leavesUnique_same (st st' : State) :
  leaves st' = leaves st -> leavesUnique st -> leavesUnique st'.
Proof. intros Hl Hst uid d. unfold leaveCount. rewrite Hl. exact (Hst uid d). Qed.

Theorem handle_keeps_leaves_unique (st : State) (clk : Clock) (caller : UserId)
    (r : Request) :
  leavesUnique st -> leavesUnique (fst (handle st clk caller r)).
Proof.
  intros Hst. destruct r; simpl.
  - unfold api_seats, withUser. destruct (users st !! caller); [|exact Hst].
    destruct date; exact Hst.
  - now apply api_leave_keeps_leaves_unique.
  - unfold api_lock, withUser. destruct (users st !! caller) as [user|]; [|exact Hst].
    destruct date as [date|]; [|exact Hst].
    destruct (validateSeatIds st seatIds); [exact Hst|].
    destruct (isWeekend date || isHoliday st date); [exact Hst|].
    destruct (validateBookingPolicy st clk user date seatIds); [exact Hst|].
    destruct (lockCheck _ user date (tsCheck clk) seatIds); exact Hst.
  - unfold api_unlock, withUser. destruct (users st !! caller); [|exact Hst].
    destruct date; [|exact Hst]. destruct (validateSeatIds st seatIds); exact Hst.
  - unfold api_book, withUser. destruct (users st !! caller) as [user|]; [|exact Hst].
    destruct date as [date|]; [|exact Hst].
    destruct (validateSeatIds st seatIds); [exact Hst|].
    destruct (MAX_SEATS_PER_BOOKING <? Z.of_nat (length seatIds)); [exact Hst|].
    destruct (validateBookingPolicy st clk user date seatIds); [exact Hst|].
    destruct (bookCheck _ user date (tsCheck clk) seatIds); [exact Hst|].
    cbn [fst]. apply leavesUnique_same with (st := st); [|exact Hst].
    now destruct (commit_frame user date (tsCommit clk) seatIds
                    (clearExpiredLocksForDate (tsPurge clk) date st))
      as (_ & _ & Hl & _).
  - unfold api_cancel, withUser. destruct (users st !! caller) as [user|]; [|exact Hst].
    destruct date as [date|]; [|exact Hst].
    destruct (validateSeatIds st seatIds); [exact Hst|].
    destruct (truthyFound _); exact Hst.
  - unfold api_user_batch, withUser. destruct (users st !! caller) as [user|]; [|exact Hst].
    destruct (truthyStr newBatch) as [nb|]; [|exact Hst].
    destruct (negb (isBatchName nb)); [exact Hst|].
    destruct (existsb _ (bookings st)); exact Hst.
  - unfold api_admin_reset, withAdmin, withUser.
    destruct (users st !! caller) as [user|]; [|exact Hst].
    destruct (negb (isAdmin user)); [exact Hst|].
    intros uid d. unfold leaveCount. simpl. lia.
  - unfold api_admin_force_cancel, withAdmin, withUser.
    destruct (users st !! caller) as [user|]; [|exact Hst].
    destruct (negb (isAdmin user)); [exact Hst|].
    destruct date as [date|]; [|exact Hst]. destruct seat as [seat|]; [|exact Hst].
    destruct (negb (truthyNum seat)); exact Hst.
  - unfold api_admin_batch_schedule, withAdmin, withUser.
    destruct (users st !! caller) as [user|]; [|exact Hst].
    destruct (negb (isAdmin user)); [exact Hst|]. destruct schedule; exact Hst.
  - unfold api_admin_seat_type, withAdmin, withUser, updateSeatDefinition.
    destruct (users st !! caller) as [user|]; [|exact Hst].
    destruct (negb (isAdmin user)); [exact Hst|].
    destruct seat as [seat|]; [|exact Hst]. destruct newType as [ty|]; [|exact Hst].
    destruct (negb (truthyNum seat)); [exact Hst|].
    destruct (getSeatDefinition st seat); [|exact Hst].
    destruct (findIndex _ (seatDefinitions st)); exact Hst.
  - unfold api_admin_assign_seat, withAdmin, withUser, updateSeatDefinition.
    destruct (users st !! caller) as [user|]; [|exact Hst].
    destruct (negb (isAdmin user)); [exact Hst|].
    destruct (truthyStr uid) as [u|]; [|exact Hst]. destruct seat as [seat|]; [|exact Hst].
    destruct (negb (truthyNum seat)); [exact Hst|].
    destruct (getSeatDefinition st seat); [|exact Hst].
    destruct (users st !! u); [|exact Hst].
    destruct (findIndex _ (seatDefinitions st)); exact Hst.
  - unfold api_admin_holidays, withAdmin, withUser.
    destruct (users st !! caller) as [user|]; [|exact Hst].
    destruct (negb (isAdmin user)); [exact Hst|].
    destruct date; [|exact Hst]. destruct markHoliday as [[|]|]; exact Hst.
Qed.

(** ** The attendance cycle (C8) *)

Lemma thursday_of_week (d : Z) : startOfIsoWeek d + 3 = 7 * ((d + 3) / 7).
Proof.
  unfold startOfIsoWeek, isoWeekdayIndex.
  pose proof (Z.div_mod (d + 3) 7). lia.
Qed.

Lemma startOfIsoWeek_bounds (d : Z) : startOfIsoWeek d <= d <= startOfIsoWeek d + 6.
Proof.
  unfold startOfIsoWeek, isoWeekdayIndex.
  pose proof (Z.mod_pos_bound (d + 3) 7). lia.
Qed.

Lemma startOfIsoWeek_shift (d k : Z) : startOfIsoWeek (d + k * 7) = startOfIsoWeek d + k * 7.
Proof.
  unfold startOfIsoWeek, isoWeekdayIndex.
  replace (d + k * 7 + 3) with (d + 3 + k * 7) by lia.
  rewrite Z.mod_add by lia. lia.
Qed.

(** Within one ISO year, week numbers differ as the weeks do. *)
Lemma isoWeek_difference (d1 d2 : Z) :
  isoWeekYear d1 = isoWeekYear d2 ->
  isoWeek d1 - isoWeek d2 = (d1 + 3) / 7 - (d2 + 3) / 7.
Proof.
  intros Hy. unfold isoWeek. rewrite Hy, !thursday_of_week.
  set (J := days_from_civil (isoWeekYear d2) 1 1).
  replace (7 * ((d1 + 3) / 7) - J) with (- J + (d1 + 3) / 7 * 7) by lia.
  replace (7 * ((d2 + 3) / 7) - J) with (- J + (d2 + 3) / 7 * 7) by lia.
  rewrite !Z.div_add by lia. lia.
Qed.

(** The cycle of a date, from the Monday of its week and the parity of
    its week number. *)
Lemma getCycleBounds_monday (d : Z) :
  getCycleBounds d =
  if isoWeek d mod 2 =? 1
  then (startOfIsoWeek d, startOfIsoWeek d + 13)
  else (startOfIsoWeek d - 7, startOfIsoWeek d + 6).
Proof.
  unfold getCycleBounds, setIsoWeek, endOfIsoWeek.
  destruct (isoWeek d mod 2 =? 1); rewrite !startOfIsoWeek_shift; f_equal; lia.
Qed.

Lemma date_in_own_cycle (d : Z) :
  let '(start, end_) := getCycleBounds d in isBetween d start end_ = true.
Proof.
  rewrite getCycleBounds_monday. pose proof (startOfIsoWeek_bounds d).
  unfold isBetween.
  destruct (isoWeek d mod 2 =? 1); apply andb_true_iff; split; apply Z.leb_le; lia.
Qed.

Lemma attendanceDays_spec (st : State) (uid : UserId) (d x : Z) :
  x ∈ attendanceDays st uid d <->
  (let '(start, end_) := getCycleBounds d in start <= x <= end_) /\
  hasBookingOn st uid x.
Proof.
  unfold attendanceDays, hasBookingOn. destruct (getCycleBounds d) as [start end_].
  rewrite elem_of_list_to_set, list_elem_of_In, in_map_iff. split.
  - intros (b & Hx & Hin). apply filter_In in Hin as [Hin Hbt].
    apply filter_In in Hin as [Hin Hu]. apply String.eqb_eq in Hu.
    unfold isBetween in Hbt. apply andb_true_iff in Hbt as [H1 H2].
    apply Z.leb_le in H1, H2. subst x. split; [lia|]. exists b. auto.
  - intros [Hr (b & Hin & Hu & Hx)]. exists b. split; [exact Hx|].
    apply filter_In. split.
    + apply filter_In. split; [exact Hin|]. now apply String.eqb_eq.
    + unfold isBetween. rewrite Hx. apply andb_true_iff. split; apply Z.leb_le; lia.
Qed.

Lemma hasBookingOn_app (st : State) (extra : list Booking) (uid : UserId) (x : Z) :
  hasBookingOn (set_bookings st (bookings st ++ extra)) uid x <->
  hasBookingOn st uid x \/ exists b, In b extra /\ b_userId b = uid /\ b_date b = x.
Proof.
  unfold hasBookingOn. simpl. split.
  - intros (b & Hin & Hb). apply in_app_or in Hin as [Hin|Hin]; [left|right]; eauto.
  - intros [(b & Hin & Hb)|(b & Hin & Hb)]; exists b; (split; [|exact Hb]);
      apply in_or_app; auto.
Qed.

(** C8.  Two dates of the same pair of ISO weeks (2k-1, 2k) of one ISO
    year have the same cycle bounds, and the attendance count of a user
    is the same whichever of the two dates is queried; the policy summary
    reports that count.  A booking of the user on the first date is
    counted when the second date is queried: the count is then at least
    one, and when the user, who held no booking for the first date,
    books it (one seat or several), the count reported for the second
    date goes up by exactly one. *)
Theorem cycle_consistent (d1 d2 : Z) :
  sameWeekPair d1 d2 ->
  getCycleBounds d1 = getCycleBounds d2 /\
  forall (st : State) (user : User),
    getAttendanceCountForCycle st (userId user) d1 =
      getAttendanceCountForCycle st (userId user) d2 /\
    attendanceCount (buildPolicySummary st user d2) =
      getAttendanceCountForCycle st (userId user) d2 /\
    (forall b, In b (bookings st) -> b_userId b = userId user -> b_date b = d1 ->
       d1 ∈ attendanceDays st (userId user) d2 /\
       1 <= getAttendanceCountForCycle st (userId user) d2) /\
    (forall extra, extra <> [] ->
       (forall b, In b extra -> b_userId b = userId user /\ b_date b = d1) ->
       ~ hasBookingOn st (userId user) d1 ->
       getAttendanceCountForCycle (set_bookings st (bookings st ++ extra)) (userId user) d2
       = getAttendanceCountForCycle st (userId user) d2 + 1).
Proof.
  intros [Hy Hpair].
  assert (Hb : getCycleBounds d1 = getCycleBounds d2).
  { rewrite !getCycleBounds_monday.
    pose proof (isoWeek_difference d1 d2 Hy) as Hdiff.
    pose proof (thursday_of_week d1) as H1. pose proof (thursday_of_week d2) as H2.
    destruct (isoWeek d1 mod 2 =? 1) eqn:P1; destruct (isoWeek d2 mod 2 =? 1) eqn:P2;
      [apply Z.eqb_eq in P1|apply Z.eqb_eq in P1|apply Z.eqb_neq in P1|apply Z.eqb_neq in P1];
      [apply Z.eqb_eq in P2|apply Z.eqb_neq in P2|apply Z.eqb_eq in P2|apply Z.eqb_neq in P2];
      f_equal; revert Hpair Hdiff P1 P2 H1 H2;
      generalize (isoWeek d1) (isoWeek d2) (startOfIsoWeek d1) (startOfIsoWeek d2)
                 ((d1 + 3) / 7) ((d2 + 3) / 7);
      clear; intros w1 w2 m1 m2 q1 q2 Hpair Hdiff P1 P2 Ht1 Ht2;
      pose proof (Z.div_mod (w1 + 1) 2); pose proof (Z.div_mod (w2 + 1) 2);
      pose proof (Z.mod_pos_bound (w1 + 1) 2); pose proof (Z.mod_pos_bound (w2 + 1) 2);
      pose proof (Z.div_mod w1 2); pose proof (Z.div_mod w2 2);
      pose proof (Z.mod_pos_bound w1 2); pose proof (Z.mod_pos_bound w2 2);
      lia. }
  split; [exact Hb|].
  intros st user.
  assert (Hin2 : let '(start, end_) := getCycleBounds d2 in start <= d1 <= end_).
  { rewrite <- Hb. pose proof (date_in_own_cycle d1) as Hown.
    destruct (getCycleBounds d1) as [start end_]. unfold isBetween in Hown.
    apply andb_true_iff in Hown as [Hlo Hhi]. apply Z.leb_le in Hlo, Hhi. lia. }
  split; [|split; [reflexivity|split]].
  - unfold getAttendanceCountForCycle, attendanceDays. now rewrite Hb.
  - intros b Hin Hu Hd.
    assert (Hmem : d1 ∈ attendanceDays st (userId user) d2).
    { apply attendanceDays_spec. split; [exact Hin2|]. exists b. auto. }
    split; [exact Hmem|].
    unfold getAttendanceCountForCycle.
    destruct (size (attendanceDays st (userId user) d2)) eqn:Hsize; [|lia].
    apply size_empty_iff in Hsize. exfalso.
    apply (not_elem_of_empty (C := gset Z) d1). rewrite <- Hsize. exact Hmem.
  - intros extra Hne Hextra Hnone.
    assert (Hnew : attendanceDays (set_bookings st (bookings st ++ extra)) (userId user) d2
                   = attendanceDays st (userId user) d2 ∪ {[ d1 ]}).
    { apply set_eq. intros x.
      rewrite elem_of_union, elem_of_singleton, !attendanceDays_spec, hasBookingOn_app.
      split.
      - intros [Hr [Hold|(b & Hbin & _ & Hbd)]]; [left; auto|right].
        destruct (Hextra b Hbin) as [_ Hd]. congruence.
      - intros [[Hr Hold]| ->]; [auto|]. split; [exact Hin2|]. right.
        destruct extra as [|b extra]; [contradiction|].
        exists b. destruct (Hextra b (or_introl eq_refl)) as [Hu Hd].
        split; [now left|auto]. }
    unfold getAttendanceCountForCycle. rewrite Hnew, size_union, size_singleton; [lia|].
    intros x Hx Hx1. apply elem_of_singleton in Hx1. subst x.
    apply attendanceDays_spec in Hx as [_ Hx]. contradiction.
Qed.

(** Monday 2025-06-16 (week 25) and Friday 2025-06-27 (week 26): Alice,
    without bookings, books seat 41 for the Monday, and the count reported
    for the Friday goes from 0 to 1. *)
Lemma cycle_consistent_witness :
  getCycleBounds (days_from_civil 2025 6 16) = getCycleBounds (days_from_civil 2025 6 27) /\
  getAttendanceCountForCycle
    (set_bookings office (bookings office ++ [mkBooking (days_from_civil 2025 6 16) 41 "alice1" 7]))
    "alice1" (days_from_civil 2025 6 27)
  = getAttendanceCountForCycle office "alice1" (days_from_civil 2025 6 27) + 1.
Proof.
  destruct (cycle_consistent (days_from_civil 2025 6 16) (days_from_civil 2025 6 27))
    as [Hbounds Hcount]; [split; vm_compute; reflexivity|].
  split; [exact Hbounds|].
  destruct (Hcount office alice) as (_ & _ & _ & Hup).
  apply (Hup [mkBooking (days_from_civil 2025 6 16) 41 "alice1" 7]).
  - discriminate.
  - intros b [<-|[]]. split; reflexivity.
  - intros (b & Hin & _). vm_compute in Hin. exact Hin.
Defined.

(** Outside the claim: a week 53 is odd and so is the week 1 that follows
    it, so the cycle of the last week of 2026 runs into the cycle of the
    first week of 2027. *)
Example cycles_overlap_after_week_53 :
  getCycleBounds (days_from_civil 2026 12 30) =
    (days_from_civil 2026 12 28, days_from_civil 2027 1 10) /\
  getCycleBounds (days_from_civil 2027 1 5) =
    (days_from_civil 2027 1 4, days_from_civil 2027 1 17).
Proof. split; reflexivity. Qed.

(** ** Cancellation (C9) *)

Lemma ownsBooking_true (st : State) (user : User) (date : Date) (s : Z) :
  ownsBooking st user date s = true <-> holdsBooking st (userId user) date s.
Proof.
  unfold ownsBooking, holdsBooking. split.
  - destruct (List.find _ (bookings st)) as [b|] eqn:Hf; [|discriminate].
    intros _. apply find_some in Hf as [Hin Hp].
    apply andb_true_iff in Hp as [Hp Hu]. apply andb_true_iff in Hp as [Hd Hs].
    apply Z.eqb_eq in Hd, Hs. apply String.eqb_eq in Hu. eauto.
  - intros (b & Hin & Hd & Hs & Hu).
    destruct (List.find _ (bookings st)) as [b'|] eqn:Hf; [reflexivity|].
    pose proof (find_none _ _ Hf b Hin) as Hn. simpl in Hn.
    rewrite Hd, Hs, Hu, !Z.eqb_refl, String.eqb_refl in Hn. discriminate.
Qed.

Lemma ownsBooking_false (st : State) (user : User) (date : Date) (s : Z) :
  ownsBooking st user date s = false <-> ~ holdsBooking st (userId user) date s.
Proof.
  rewrite <- ownsBooking_true. destruct (ownsBooking st user date s); split;
    intros H; try reflexivity; try discriminate; congruence.
Qed.

Lemma find_first {A} (p : A -> bool) (pre : list A) (x : A) (post : list A) :
  (forall y, In y pre -> p y = false) -> p x = true ->
  List.find p (pre ++ x :: post) = Some x.
Proof.
  intros Hpre Hx. induction pre as [|a pre IH]; simpl.
  - now rewrite Hx.
  - rewrite (Hpre a (or_introl eq_refl)). apply IH. intros y Hy. apply Hpre. now right.
Qed.

Lemma existsb_eqb_In (x : Z) (l : list Z) : existsb (Z.eqb x) l = true <-> In x l.
Proof.
  rewrite existsb_exists. split.
  - intros (y & Hy & He). apply Z.eqb_eq in He. now subst.
  - intros H. exists x. split; [exact H|apply Z.eqb_refl].
Qed.

(** What the handler does when every requested seat id is positive: if
    some requested seat is not held by the caller for the date,
    the request is rejected and the state is unchanged; when the ids pass
    [validateSeatIds], the message names the first such seat of the list;
    and if every requested seat is held by the caller, the request
    succeeds and removes exactly the caller's bookings and the caller's
    locks of the requested seats for the date, and nothing else
    changes. *)
Theorem cancel_own_bookings_only (st : State) (caller : UserId) (user : User)
    (date : Date) (seatIds : list Z) :
  users st !! caller = Some user ->
  Forall (fun s => 0 < s) seatIds ->
  let r := api_cancel st caller (Some date) seatIds in
  let requested := fun (d : Z) (s : Z) (u : string) =>
    d = date /\ In s seatIds /\ u = userId user in
  ((exists s, In s seatIds /\ ~ holdsBooking st (userId user) date s) ->
     rejected (snd r) /\ fst r = st) /\
  (validateSeatIds st seatIds = None ->
   forall pre bad post,
     seatIds = pre ++ bad :: post ->
     (forall x, In x pre -> holdsBooking st (userId user) date x) ->
     ~ holdsBooking st (userId user) date bad ->
     r = (st, RespErr 400 (MsgCancelNotOwn bad))) /\
  (validateSeatIds st seatIds = None ->
   (forall s, In s seatIds -> holdsBooking st (userId user) date s) ->
     snd r = RespOk MsgBookingCancelled [] /\
     (forall b, In b (bookings (fst r)) <->
                In b (bookings st) /\ ~ requested (b_date b) (b_seatId b) (b_userId b)) /\
     (forall l, In l (locks (fst r)) <->
                In l (locks st) /\ ~ requested (l_date l) (l_seatId l) (l_userId l)) /\
     users (fst r) = users st /\ seatDefinitions (fst r) = seatDefinitions st /\
     leaves (fst r) = leaves st /\ batchSchedule (fst r) = batchSchedule st /\
     holidays (fst r) = holidays st).
Proof.
  intros Hu Hpos. cbv zeta. unfold api_cancel, withUser. rewrite Hu.
  rewrite truthyFound_positive by exact Hpos.
  split; [|split].
  - intros (s & Hin & Hnot).
    destruct (validateSeatIds st seatIds); [split; [exact I|reflexivity]|].
    destruct (List.find _ seatIds) eqn:Hf; [split; [exact I|reflexivity]|].
    pose proof (find_none _ _ Hf s Hin) as Hn. simpl in Hn.
    apply negb_false_iff, ownsBooking_true in Hn. contradiction.
  - intros Hv pre bad post -> Hpre Hbad. rewrite Hv.
    rewrite (find_first _ pre bad post); [reflexivity| |].
    + intros y Hy. apply negb_false_iff, ownsBooking_true, Hpre, Hy.
    + apply negb_true_iff, ownsBooking_false, Hbad.
  - intros Hv Hall. rewrite Hv.
    destruct (List.find _ seatIds) as [bad|] eqn:Hf.
    { apply find_some in Hf as [Hin Hn].
      apply negb_true_iff, ownsBooking_false in Hn. exfalso. exact (Hn (Hall bad Hin)). }
    cbn [fst snd]. split; [reflexivity|]. split; [|split; [|simpl; tauto]].
    + intros b. simpl. rewrite filter_In, negb_true_iff, !andb_false_iff.
      rewrite <- !not_true_iff_false, existsb_eqb_In, Z.eqb_eq, String.eqb_eq.
      split; intros [Hin Hc]; split; try exact Hin.
      * intros (Hd & Hs & Hw). tauto.
      * destruct (Z.eq_dec (b_date b) date) as [Hd|Hd]; [|tauto].
        destruct (in_dec Z.eq_dec (b_seatId b) seatIds) as [Hs|Hs]; [|tauto].
        destruct (String.eqb_spec (b_userId b) (userId user)) as [Hw|Hw]; [|tauto].
        exfalso. apply Hc. auto.
    + intros l. simpl. rewrite filter_In, negb_true_iff, !andb_false_iff.
      rewrite <- !not_true_iff_false, existsb_eqb_In, Z.eqb_eq, String.eqb_eq.
      split; intros [Hin Hc]; split; try exact Hin.
      * intros (Hd & Hs & Hw). tauto.
      * destruct (Z.eq_dec (l_date l) date) as [Hd|Hd]; [|tauto].
        destruct (in_dec Z.eq_dec (l_seatId l) seatIds) as [Hs|Hs]; [|tauto].
        destruct (String.eqb_spec (l_userId l) (userId user)) as [Hw|Hw]; [|tauto].
        exfalso. apply Hc. auto.
Qed.

(** Alice asks to cancel seats 41 and 42 of the Wednesday; seat 42 is
    Bob's and she holds neither: the request is rejected for seat 41, the
    first of the list, and Bob's booking stays. *)
Lemma cancel_own_bookings_only_witness :
  api_cancel officeStale "alice1" (Some wednesday) [41; 42] =
  (officeStale, RespErr 400 (MsgCancelNotOwn 41)).
Proof.
  assert (H := cancel_own_bookings_only officeStale "alice1" alice wednesday [41; 42]
                 ltac:(vm_compute; reflexivity) ltac:(repeat constructor)).
  cbv zeta in H. destruct H as (_ & Hfirst & _).
  apply (Hfirst ltac:(vm_compute; reflexivity) [] 41 [42]); [reflexivity|intros x []|].
  intros (b & Hin & _ & Hs & _). simpl in Hin.
  destruct Hin as [<-|[]]. vm_compute in Hs. discriminate.
Defined.

(** Outside the domain of seat identifiers: the id 0 is falsy, so it
    passes both [if (invalid)] and [if (invalidSeat)], and a request for
    it is answered with success although no seat 0 exists. *)
Example cancel_seat_zero :
  api_cancel office "alice1" (Some wednesday) [0] =
  (office, RespOk MsgBookingCancelled []).
Proof. vm_compute. reflexivity. Qed.

(** C9.  The handler looks for the first requested seat that the caller
    does not hold and rejects the request when [if (invalidSeat)] finds
    one; the id 0 is falsy and passes that test, as it passes the one of
    [validateSeatIds].  So a request whose first seat not held by the
    caller is the id 0 is not rejected, whatever follows the 0 in the
    list: it is answered "Booking cancelled", and the caller's bookings
    and locks of the listed seats for the date are removed, although the
    list names seats of which the caller holds no booking. *)
Theorem cancel_accepts_unowned_seats_behind_zero (st : State) (caller : UserId)
    (user : User) (date : Date) (pre post : list Z) :
  users st !! caller = Some user ->
  getSeatDefinition st 0 = None ->
  ~ holdsBooking st (userId user) date 0 ->
  (forall x, In x pre ->
     getSeatDefinition st x <> None /\ holdsBooking st (userId user) date x) ->
  let seatIds := pre ++ 0 :: post in
  let r := api_cancel st caller (Some date) seatIds in
  snd r = RespOk MsgBookingCancelled [] /\
  (forall b, In b (bookings (fst r)) <->
             In b (bookings st) /\
             ~ (b_date b = date /\ In (b_seatId b) seatIds /\ b_userId b = userId user)) /\
  (forall l, In l (locks (fst r)) <->
             In l (locks st) /\
             ~ (l_date l = date /\ In (l_seatId l) seatIds /\ l_userId l = userId user)) /\
  (forall x, In x seatIds -> ~ holdsBooking (fst r) (userId user) date x).
Proof.
  intros Hu Hzero Hnot Hpre. cbv zeta. unfold api_cancel, withUser. rewrite Hu.
  assert (Hv : validateSeatIds st (pre ++ 0 :: post) = None).
  { unfold validateSeatIds.
    replace (Z.of_nat (length (pre ++ 0 :: post)) =? 0) with false
      by (symmetry; apply Z.eqb_neq; rewrite length_app; simpl; lia).
    rewrite (find_first _ pre 0 post); [reflexivity| |now rewrite Hzero].
    intros y Hy. destruct (Hpre y Hy) as [Hdef _].
    destruct (getSeatDefinition st y); [reflexivity|contradiction]. }
  rewrite Hv.
  rewrite (find_first _ pre 0 post);
    [|intros y Hy; apply negb_false_iff, ownsBooking_true, Hpre, Hy
     |apply negb_true_iff, ownsBooking_false, Hnot].
  cbn [truthyFound truthyNum fst snd].
  assert (Hbk : forall b,
            In b (List.filter
                    (fun b => negb ((b_date b =? date)
                                    && existsb (Z.eqb (b_seatId b)) (pre ++ 0 :: post)
                                    && String.eqb (b_userId b) (userId user)))
                    (bookings st)) <->
            In b (bookings st) /\
            ~ (b_date b = date /\ In (b_seatId b) (pre ++ 0 :: post) /\
               b_userId b = userId user)).
  { intros b. rewrite filter_In, negb_true_iff, !andb_false_iff.
    rewrite <- !not_true_iff_false, existsb_eqb_In, Z.eqb_eq, String.eqb_eq.
    split; intros [Hin Hc]; split; try exact Hin.
    - intros (Hd & Hs & Hw). tauto.
    - destruct (Z.eq_dec (b_date b) date) as [Hd|Hd]; [|tauto].
      destruct (in_dec Z.eq_dec (b_seatId b) (pre ++ 0 :: post)) as [Hs|Hs]; [|tauto].
      destruct (String.eqb_spec (b_userId b) (userId user)) as [Hw|Hw]; [|tauto].
      exfalso. apply Hc. auto. }
  split; [reflexivity|]. split; [exact Hbk|]. split.
  - intros l. simpl. rewrite filter_In, negb_true_iff, !andb_false_iff.
    rewrite <- !not_true_iff_false, existsb_eqb_In, Z.eqb_eq, String.eqb_eq.
    split; intros [Hin Hc]; split; try exact Hin.
    + intros (Hd & Hs & Hw). tauto.
    + destruct (Z.eq_dec (l_date l) date) as [Hd|Hd]; [|tauto].
      destruct (in_dec Z.eq_dec (l_seatId l) (pre ++ 0 :: post)) as [Hs|Hs]; [|tauto].
      destruct (String.eqb_spec (l_userId l) (userId user)) as [Hw|Hw]; [|tauto].
      exfalso. apply Hc. auto.
  - intros x Hx (b & Hin & Hd & Hs & Hw). simpl in Hin.
    apply Hbk in Hin as [_ Hc]. apply Hc. rewrite Hs. auto.
Qed.

(** Alice holds seat 41 for the Wednesday and Bob seat 42.  Alice asks
    to cancel the seats 0, 42 and 41: seat 42 is not hers, yet the
    request is answered "Booking cancelled" and her booking of seat 41 is
    gone. *)
Lemma cancel_accepts_unowned_seats_behind_zero_witness :
  let st := set_bookings office [mkBooking wednesday 41 "alice1" 7;
                                 mkBooking wednesday 42 "bob2" 7] in
  let r := api_cancel st "alice1" (Some wednesday) [0; 42; 41] in
  ~ holdsBooking st "alice1" wednesday 42 /\
  snd r = RespOk MsgBookingCancelled [] /\
  holdsBooking st "alice1" wednesday 41 /\
  ~ holdsBooking (fst r) "alice1" wednesday 41.
Proof.
  cbv zeta.
  assert (Hown : forall s, s <> 41 ->
            ~ holdsBooking (set_bookings office [mkBooking wednesday 41 "alice1" 7;
                                                 mkBooking wednesday 42 "bob2" 7])
                "alice1" wednesday s).
  { intros s Hs (b & Hin & _ & Hseat & Hw). simpl in Hin.
    destruct Hin as [<-|[<-|[]]]; [now apply Hs|discriminate]. }
  assert (H := cancel_accepts_unowned_seats_behind_zero
                 (set_bookings office [mkBooking wednesday 41 "alice1" 7;
                                       mkBooking wednesday 42 "bob2" 7])
                 "alice1" alice wednesday [] [42; 41]
                 ltac:(vm_compute; reflexivity) ltac:(vm_compute; reflexivity)
                 (Hown 0 ltac:(discriminate)) ltac:(intros x [])).
  cbv zeta in H. destruct H as (Hresp & _ & _ & Hgone).
  split; [apply Hown; discriminate|]. split; [exact Hresp|]. split.
  - exists (mkBooking wednesday 41 "alice1" 7). simpl. auto.
  - apply Hgone. simpl. auto.
Defined.

(** ** Switching batch (C10) *)

Lemma existsb_hasBookingOn (st : State) (uid : UserId) (date : Date) :
  existsb (fun b => String.eqb (b_userId b) uid && (b_date b =? date)) (bookings st) = true
  <-> hasBookingOn st uid date.
Proof.
  unfold hasBookingOn. rewrite existsb_exists. split.
  - intros (b & Hin & Hp). apply andb_true_iff in Hp as [Hu Hd].
    apply String.eqb_eq in Hu. apply Z.eqb_eq in Hd. eauto.
  - intros (b & Hin & Hu & Hd). exists b. split; [exact Hin|].
    now rewrite Hu, Hd, String.eqb_refl, Z.eqb_refl.
Qed.

Lemma isBatchName_truthy (nb : string) :
  isBatchName nb = true -> truthyStr (Some nb) = Some nb.
Proof.
  unfold isBatchName. intros H. apply orb_true_iff in H.
  destruct H as [H|H]; apply String.eqb_eq in H; subst nb; reflexivity.
Qed.

(** C10.  The target date of a batch switch is the date of the request
    or, without one, today.  If the caller holds a booking for the target
    date the request is rejected and the state, the caller's batch
    included, is unchanged; the rejection is the "active booking" error
    when the requested batch is one of the two batch names.  If the caller
    holds no booking for the target date and the requested batch is one of
    the two names, the caller's batch becomes the requested one, the other
    fields of the user and the rest of the state being kept. *)
Theorem batch_switch_guard (st : State) (clk : Clock) (caller : UserId) (user : User)
    (newBatch : option string) (date : option Date) :
  users st !! caller = Some user ->
  let target := match date with Some d => d | None => today clk end in
  let r := api_user_batch st clk caller newBatch date in
  (hasBookingOn st (userId user) target ->
     rejected (snd r) /\ fst r = st /\ users (fst r) !! caller = Some user /\
     (forall nb, newBatch = Some nb -> isBatchName nb = true ->
                 snd r = RespErr 400 MsgActiveBooking)) /\
  (~ hasBookingOn st (userId user) target ->
     forall nb, newBatch = Some nb -> isBatchName nb = true ->
       let user' := mkUser (userId user) nb (designatedSeatId user)
                           (floaterLeaveCount user) (isAdmin user) in
       snd r = RespUser user' /\
       users (fst r) = <[caller := user']> (users st) /\
       users (fst r) !! caller = Some user' /\ batch user' = nb /\
       bookings (fst r) = bookings st /\ locks (fst r) = locks st /\
       leaves (fst r) = leaves st /\ seatDefinitions (fst r) = seatDefinitions st).
Proof.
  intros Hu. cbv zeta. unfold api_user_batch, withUser. rewrite Hu. split.
  - intros Hbooked. apply existsb_hasBookingOn in Hbooked.
    destruct (truthyStr newBatch) as [nb'|] eqn:Ht.
    + destruct (negb (isBatchName nb')) eqn:Hn.
      * repeat split; try assumption.
        intros nb -> Hnb. rewrite (isBatchName_truthy nb Hnb) in Ht.
        injection Ht as <-. rewrite Hnb in Hn. discriminate.
      * rewrite Hbooked. repeat split; assumption.
    + repeat split; try assumption.
      intros nb -> Hnb. rewrite (isBatchName_truthy nb Hnb) in Ht. discriminate.
  - intros Hfree nb -> Hnb. rewrite (isBatchName_truthy nb Hnb), Hnb.
    cbn [negb].
    destruct (existsb _ (bookings st)) eqn:He.
    + apply existsb_hasBookingOn in He. contradiction.
    + cbn [fst snd]. repeat split. simpl. apply lookup_insert_eq.
Qed.

(** With a booking of seat 41 for the Wednesday, Alice cannot move to
    batch 2 that day. *)
Lemma batch_switch_guard_witness :
  let st := set_bookings office [mkBooking wednesday 41 "alice1" 7] in
  api_user_batch st morning "alice1" (Some "batch2") None =
  (st, RespErr 400 MsgActiveBooking).
Proof.
  cbv zeta.
  assert (H := batch_switch_guard
                 (set_bookings office [mkBooking wednesday 41 "alice1" 7])
                 morning "alice1" alice (Some "batch2") None
                 ltac:(vm_compute; reflexivity)).
  cbv zeta in H. destruct H as [Hbooked _].
  destruct Hbooked as (_ & Hst & _ & Hmsg).
  { exists (mkBooking wednesday 41 "alice1" 7). repeat split. now left. }
  specialize (Hmsg "batch2" eq_refl eq_refl).
  destruct (api_user_batch _ morning "alice1" (Some "batch2") None) as [s r].
  simpl in *. now subst.
Defined.

(** * Further properties of the handlers *)

(** ** The projection of the seats *)

Lemma projectSeat_seatId (st : State) (now : Z) (d : Date) (i : nat) (def : SeatDef) :
  v_seatId (projectSeat st now d i def) = seatId def.
Proof.
  unfold projectSeat. destruct (findBooking st d (seatId def)); [reflexivity|].
  destruct (List.find _ (locks st)); reflexivity.
Qed.

Lemma map_imap_pointwise {A B C} (g : B -> C) (h : A -> C) (l : list A) :
  forall f : nat -> A -> B,
    (forall i x, g (f i x) = h x) -> List.map g (imap f l) = List.map h l.
Proof.
  induction l as [|x l IH]; intros f Hf; simpl; [reflexivity|].
  rewrite Hf. f_equal. apply IH. intros i y. apply Hf.
Qed.

Lemma purged_live_lock (clk : Clock) (d : Date) (st : State) (s : Z) :
  List.find (fun l => (l_date l =? d) && (l_seatId l =? s) && (tsCheck clk <? lockExpiry l))
            (locks (clearExpiredLocksForDate (tsPurge clk) d st)) <> None
  <-> liveLockOn st (Z.max (tsPurge clk) (tsCheck clk)) d s.
Proof.
  rewrite find_some_iff. unfold liveLockOn. simpl. split.
  - intros (l & Hin & Hp). apply filter_In in Hin as [Hin Hk].
    apply andb_true_iff in Hp as [Hp He]. apply andb_true_iff in Hp as [Hd Hs].
    apply Z.eqb_eq in Hd, Hs. apply Z.ltb_lt in He.
    rewrite Hd, Z.eqb_refl in Hk. simpl in Hk. apply Z.ltb_lt in Hk.
    exists l. repeat split; try assumption. lia.
  - intros (l & Hin & Hd & Hs & He). exists l. split.
    + apply filter_In. split; [exact Hin|]. rewrite Hd, Z.eqb_refl. simpl.
      apply Z.ltb_lt. lia.
    + rewrite Hd, Hs, !Z.eqb_refl. simpl. apply Z.ltb_lt. lia.
Qed.

(** The projection has one view per seat of the catalogue, in the order
    of the catalogue.  A seat is occupied exactly when some booking exists
    for it on the date, and then the view names the holder of the first
    such booking; it is locked exactly when it is not booked and one of
    its locks for the date is live at both clock reads; it is available
    otherwise. *)
Theorem projection_status (clk : Clock) (d : Date) (st : State) :
  let views := snd (getSeatStateForDate clk d st) in
  List.map v_seatId views = List.map seatId (seatDefinitions st) /\
  forall v, In v views ->
    (v_status v = occupied <-> bookedOn st d (v_seatId v)) /\
    (v_status v = occupied ->
       exists b, findBooking st d (v_seatId v) = Some b /\
                 v_bookedBy v = Some (b_userId b)) /\
    (v_status v = locked <->
       ~ bookedOn st d (v_seatId v) /\
       liveLockOn st (Z.max (tsPurge clk) (tsCheck clk)) d (v_seatId v)) /\
    (v_status v = available <->
       ~ bookedOn st d (v_seatId v) /\
       ~ liveLockOn st (Z.max (tsPurge clk) (tsCheck clk)) d (v_seatId v)).
Proof.
  cbv zeta. unfold getSeatStateForDate. cbn [snd]. split.
  - apply map_imap_pointwise. intros i def. apply projectSeat_seatId.
  - intros v Hin.
    apply list_elem_of_In, elem_of_lookup_imap in Hin as (i & def & -> & _).
    rewrite projectSeat_seatId.
    pose proof (findBooking_bookedOn st d (seatId def)) as Hb.
    pose proof (purged_live_lock clk d st (seatId def)) as Hl.
    unfold projectSeat.
    change (findBooking (clearExpiredLocksForDate (tsPurge clk) d st) d (seatId def))
      with (findBooking st d (seatId def)).
    destruct (findBooking st d (seatId def)) as [b|] eqn:Hfb.
    + assert (Hbooked : bookedOn st d (seatId def)) by (apply Hb; discriminate).
      cbn [v_status v_bookedBy]. repeat split; try discriminate; try tauto.
      exists b. split; reflexivity.
    + assert (Hfree : ~ bookedOn st d (seatId def)) by (intros H; apply Hb in H; congruence).
      destruct (List.find _ (locks (clearExpiredLocksForDate (tsPurge clk) d st)))
        as [l|] eqn:Hfl; cbn [v_status v_bookedBy].
      * assert (Hlive : liveLockOn st (Z.max (tsPurge clk) (tsCheck clk)) d (seatId def))
          by (apply Hl; discriminate).
        repeat split; try discriminate; try tauto.
      * assert (Hnone : ~ liveLockOn st (Z.max (tsPurge clk) (tsCheck clk)) d (seatId def))
          by (intros H; apply Hl in H; congruence).
        repeat split; try discriminate; try tauto.
Qed.

Lemma projection_status_witness :
  List.map v_seatId (snd (getSeatStateForDate morning wednesday officeStale)) =
  List.map seatId (seatDefinitions officeStale) /\
  bookedOn officeStale wednesday 42.
Proof.
  destruct (projection_status morning wednesday officeStale) as [Hids Hviews].
  split; [exact Hids|].
  destruct (Hviews (mkSeatView 42 "E"%char 2 occupied (Some "bob2") None None floater None)
              ltac:(vm_compute; tauto)) as [Hocc _].
  apply (proj1 Hocc). reflexivity.
Defined.

Lemma find_ext_in {A} (p q : A -> bool) (l : list A) :
  (forall x, In x l -> p x = q x) -> List.find p l = List.find q l.
Proof.
  induction l as [|a l IH]; intros H; simpl; [reflexivity|].
  rewrite (H a (or_introl eq_refl)). destruct (q a); [reflexivity|].
  apply IH. intros x Hx. apply H. now right.
Qed.

(** After a purge at the instant of the check, the first lock of a seat
    for the date is its first live lock. *)
Lemma purged_findLock_live (now : Z) (d : Date) (st : State) (s : Z) :
  List.find (fun l => (l_date l =? d) && (l_seatId l =? s) && (now <? lockExpiry l))
            (locks (clearExpiredLocksForDate now d st)) =
  findLock (clearExpiredLocksForDate now d st) d s.
Proof.
  unfold findLock. apply find_ext_in. intros l Hin. simpl in Hin.
  apply filter_In in Hin as [_ Hk].
  destruct (l_date l =? d); simpl in *; [|reflexivity].
  rewrite Hk. apply andb_true_r.
Qed.

(** When the two clock reads of the projection return the same instant,
    the view of a seat tells what the availability loops of the lock and
    of the confirm handler answer for that seat at that instant: "already
    booked" for an occupied seat, "locked by another user" for a seat
    locked by somebody else, and nothing for an available seat or one
    the user has locked. *)
Theorem projection_agrees_with_checks (clk : Clock) (d : Date) (st : State)
    (user : User) (v : SeatView) :
  tsPurge clk = tsCheck clk ->
  In v (snd (getSeatStateForDate clk d st)) ->
  let st1 := clearExpiredLocksForDate (tsPurge clk) d st in
  lockCheck st1 user d (tsCheck clk) [v_seatId v] = viewVerdict user v /\
  bookCheck st1 user d (tsCheck clk) [v_seatId v] = viewVerdict user v.
Proof.
  intros Hclk Hin. cbv zeta. unfold getSeatStateForDate in Hin. cbn [snd] in Hin.
  apply list_elem_of_In, elem_of_lookup_imap in Hin as (i & def & -> & _).
  rewrite projectSeat_seatId. unfold projectSeat, viewVerdict. rewrite <- Hclk.
  rewrite purged_findLock_live. simpl.
  destruct (findBooking _ d (seatId def)) as [b|]; [split; reflexivity|].
  destruct (findLock _ d (seatId def)) as [l|] eqn:Hl; cbn; [|split; reflexivity].
  apply findLock_some in Hl as (Hinl & Hd & _). simpl in Hinl.
  apply filter_In in Hinl as [_ Hk]. rewrite Hd, Z.eqb_refl in Hk. simpl in Hk.
  rewrite Hk, andb_true_r.
  assert (He : (lockExpiry l <=? tsPurge clk) = false)
    by (apply Z.leb_gt; apply Z.ltb_lt in Hk; lia).
  rewrite He. destruct (String.eqb (l_userId l) (userId user)); split; reflexivity.
Qed.

Lemma projection_agrees_with_checks_witness :
  let v := mkSeatView 42 "E"%char 2 occupied (Some "bob2") None None floater None in
  lockCheck (clearExpiredLocksForDate 1000 wednesday officeStale) alice wednesday 1000 [42]
  = Some (MsgAlreadyBooked 42).
Proof.
  cbv zeta.
  exact (proj1 (projection_agrees_with_checks morning wednesday officeStale alice
                  (mkSeatView 42 "E"%char 2 occupied (Some "bob2") None None floater None)
                  eq_refl ltac:(vm_compute; tauto))).
Defined.

(** ** Locks: placing, exclusion, release *)

Lemma placeLock_upsert (user : User) (date : Date) (expiry : Z) (ls : list Lock) (s : Z) :
  placeLock user date expiry ls s =
  upsert (ownLockOf user date s) (mkLock date s (userId user) expiry) ls.
Proof.
  unfold placeLock. fold (ownLockOf user date s).
  generalize (mkLock date s (userId user) expiry). intros x.
  induction ls as [|a ls IH]; simpl; [reflexivity|].
  destruct (ownLockOf user date s a); simpl; [reflexivity|].
  rewrite <- IH. destruct (findIndex (ownLockOf user date s) ls); reflexivity.
Qed.

Lemma upsert_In {A} (p : A -> bool) (x : A) (l : list A) (y : A) :
  In y (upsert p x l) -> y = x \/ In y l.
Proof.
  induction l as [|a l IH]; simpl.
  - intros [<-|[]]. now left.
  - destruct (p a); simpl.
    + intros [<-|H]; auto.
    + intros [<-|H]; auto. destruct (IH H); auto.
Qed.

Lemma upsert_keeps {A} (p : A -> bool) (x : A) (l : list A) (y : A) :
  In y l -> p y = false -> In y (upsert p x l).
Proof.
  induction l as [|a l IH]; simpl; [contradiction|].
  intros [<-|H] Hp.
  - rewrite Hp. now left.
  - destruct (p a); simpl; auto.
Qed.

(** The first element that satisfies [q] after an upsert of an element
    that does, when the first such element before, if any, is one the
    upsert replaces. *)
Lemma find_upsert_same {A} (p q : A -> bool) (x : A) (l : list A) :
  q x = true ->
  (forall a, List.find q l = Some a -> p a = true) ->
  List.find q (upsert p x l) = Some x.
Proof.
  intros Hx. induction l as [|a l IH]; simpl; intros H.
  - now rewrite Hx.
  - destruct (p a) eqn:Hp; simpl.
    + now rewrite Hx.
    + destruct (q a) eqn:Hq.
      * rewrite (H a eq_refl) in Hp. discriminate.
      * apply IH, H.
Qed.

Lemma find_upsert_other {A} (p q : A -> bool) (x : A) (l : list A) :
  q x = false -> (forall a, p a = true -> q a = false) ->
  List.find q (upsert p x l) = List.find q l.
Proof.
  intros Hx Hp. induction l as [|a l IH]; simpl.
  - now rewrite Hx.
  - destruct (p a) eqn:Ha; simpl.
    + now rewrite Hx, (Hp a Ha).
    + destruct (q a); [reflexivity|exact IH].
Qed.

Lemma ownLockOf_lockOf (user : User) (date : Date) (s : Z) (l : Lock) :
  ownLockOf user date s l = lockOf date s l && String.eqb (l_userId l) (userId user).
Proof. reflexivity. Qed.

Lemma lockOf_other_seat (date : Date) (s s' : Z) (l : Lock) :
  s <> s' -> lockOf date s' l = true -> lockOf date s l = false.
Proof.
  unfold lockOf. intros Hne H. apply andb_true_iff in H as [_ Hs].
  apply Z.eqb_eq in Hs. rewrite Hs.
  replace (s' =? s) with false by (symmetry; apply Z.eqb_neq; congruence).
  apply andb_false_r.
Qed.

(** Through the loop that places the locks, the first lock of a requested
    seat becomes the lock written for it, provided the first lock of the
    seat before the loop, if any, was the user's own. *)
Lemma placeLocks_first (user : User) (date : Date) (expiry : Z) (seatIds : list Z) (s : Z) :
  forall ls,
    In s seatIds ->
    (forall a, List.find (lockOf date s) ls = Some a ->
               String.eqb (l_userId a) (userId user) = true) ->
    List.find (lockOf date s) (fold_left (placeLock user date expiry) seatIds ls) =
    Some (mkLock date s (userId user) expiry).
Proof.
  induction seatIds as [|s' rest IH]; intros ls Hin Hfirst; [contradiction|].
  simpl. rewrite placeLock_upsert.
  destruct (Z.eq_dec s' s) as [->|Hne].
  - assert (Hnow : List.find (lockOf date s)
                     (upsert (ownLockOf user date s) (mkLock date s (userId user) expiry) ls)
                   = Some (mkLock date s (userId user) expiry)).
    { apply find_upsert_same.
      - unfold lockOf. simpl. now rewrite !Z.eqb_refl.
      - intros a Ha. rewrite ownLockOf_lockOf, (Hfirst a Ha), andb_true_r.
        now apply find_some in Ha as [_ Ha]. }
    clear Hin Hfirst IH. revert Hnow.
    generalize (upsert (ownLockOf user date s) (mkLock date s (userId user) expiry) ls).
    induction rest as [|t rest IH]; intros cur Hcur; simpl; [exact Hcur|].
    apply IH. rewrite placeLock_upsert.
    destruct (Z.eq_dec t s) as [->|Hts].
    + apply find_upsert_same.
      * unfold lockOf. simpl. now rewrite !Z.eqb_refl.
      * intros a Ha. rewrite Hcur in Ha. injection Ha as <-.
        unfold ownLockOf. simpl. now rewrite !Z.eqb_refl, String.eqb_refl.
    + rewrite find_upsert_other; [exact Hcur| |].
      * unfold lockOf. simpl. rewrite Z.eqb_refl. simpl. apply Z.eqb_neq, Hts.
      * intros a Ha. rewrite ownLockOf_lockOf in Ha. apply andb_true_iff in Ha as [Ha _].
        apply (lockOf_other_seat date s t a); [congruence|exact Ha].
  - destruct Hin as [Heq|Hin]; [congruence|].
    apply IH; [exact Hin|]. intros a Ha. apply Hfirst. rewrite <- Ha. symmetry.
    apply find_upsert_other.
    + unfold lockOf. simpl. rewrite Z.eqb_refl. simpl. apply Z.eqb_neq, Hne.
    + intros b Hb. rewrite ownLockOf_lockOf in Hb. apply andb_true_iff in Hb as [Hb _].
      apply (lockOf_other_seat date s s' b); [congruence|exact Hb].
Qed.

Lemma lockCheck_none_iff (st : State) (user : User) (date : Date) (now : Z) (seatIds : list Z) :
  lockCheck st user date now seatIds = None <->
  forall s, In s seatIds ->
    findBooking st date s = None /\
    forall l, findLock st date s = Some l ->
              String.eqb (l_userId l) (userId user) = true \/ lockExpiry l <= now.
Proof.
  induction seatIds as [|a rest IH]; simpl.
  - split; [intros _ s []|reflexivity].
  - destruct (findBooking st date a) eqn:Hb.
    + split; [discriminate|]. intros H. destruct (H a (or_introl eq_refl)) as [Hn _].
      congruence.
    + destruct (findLock st date a) as [l|] eqn:Hl.
      * destruct (String.eqb (l_userId l) (userId user)) eqn:Hu; simpl.
        -- rewrite IH. split.
           ++ intros H s [<-|Hs]; [|auto]. split; [exact Hb|].
              intros l' Hl'. rewrite Hl in Hl'. injection Hl' as <-. now left.
           ++ intros H s Hs. apply H. now right.
        -- destruct (now <? lockExpiry l) eqn:He.
           ++ split; [discriminate|]. intros H.
              destruct (H a (or_introl eq_refl)) as [_ Hk].
              destruct (Hk l Hl) as [Hk'|Hk']; [congruence|].
              apply Z.ltb_lt in He. lia.
           ++ rewrite IH. split.
              ** intros H s [<-|Hs]; [|auto]. split; [exact Hb|].
                 intros l' Hl'. rewrite Hl in Hl'. injection Hl' as <-. right.
                 apply Z.ltb_ge, He.
              ** intros H s Hs. apply H. now right.
      * rewrite IH. split.
        -- intros H s [<-|Hs]; [|auto]. split; [exact Hb|]. intros l' Hl'. congruence.
        -- intros H s Hs. apply H. now right.
Qed.

(** What a successful lock request has gone through. *)
Lemma api_lock_success (st st2 : State) (clk : Clock) (caller : UserId) (date : Date)
    (seatIds : list Z) (m : Message) (bs : list Z) :
  api_lock st clk caller (Some date) seatIds = (st2, RespOk m bs) ->
  exists user,
    users st !! caller = Some user /\
    validateSeatIds st seatIds = None /\
    isWeekend date || isHoliday st date = false /\
    validateBookingPolicy st clk user date seatIds = None /\
    lockCheck (clearExpiredLocksForDate (tsPurge clk) date st) user date (tsCheck clk) seatIds
      = None /\
    st2 = set_locks (clearExpiredLocksForDate (tsPurge clk) date st)
            (fold_left (placeLock user date (tsCheck clk + LOCK_DURATION_MS)) seatIds
               (locks (clearExpiredLocksForDate (tsPurge clk) date st))).
Proof.
  unfold api_lock, withUser.
  destruct (users st !! caller) as [user|]; [|discriminate].
  destruct (validateSeatIds st seatIds) eqn:Hv; [discriminate|].
  destruct (isWeekend date || isHoliday st date) eqn:Hw; [discriminate|].
  destruct (validateBookingPolicy st clk user date seatIds) eqn:Hp; [discriminate|].
  destruct (lockCheck _ user date (tsCheck clk) seatIds) eqn:Hc; [discriminate|].
  intros H. injection H as <- _ _. exists user. auto 10.
Qed.

Lemma placeLocks_In (user : User) (date : Date) (expiry : Z) (seatIds : list Z) (l : Lock) :
  forall ls,
    In l (fold_left (placeLock user date expiry) seatIds ls) ->
    In l ls \/ exists s, In s seatIds /\ l = mkLock date s (userId user) expiry.
Proof.
  induction seatIds as [|a rest IH]; intros ls; simpl; [auto|].
  intros H. apply IH in H as [H|(s & Hs & ->)].
  - rewrite placeLock_upsert in H. apply upsert_In in H as [->|H]; eauto.
  - eauto.
Qed.

Lemma ownRequested_false (user : User) (date : Date) (seatIds : list Z) (l : Lock) :
  ownRequested user date seatIds l = false ->
  forall s, In s seatIds -> ownLockOf user date s l = false.
Proof.
  unfold ownRequested, ownLockOf. intros H s Hs.
  destruct (l_date l =? date); [|reflexivity].
  destruct (String.eqb (l_userId l) (userId user)); [|apply andb_false_r].
  rewrite andb_true_r in *. simpl in *.
  destruct (l_seatId l =? s) eqn:He; [|reflexivity].
  apply Z.eqb_eq in He. subst s.
  assert (existsb (Z.eqb (l_seatId l)) seatIds = true) by now apply existsb_eqb_In.
  congruence.
Qed.

Lemma placeLocks_keeps (user : User) (date : Date) (expiry : Z) (seatIds : list Z) (l : Lock) :
  forall ls,
    In l ls -> ownRequested user date seatIds l = false ->
    In l (fold_left (placeLock user date expiry) seatIds ls).
Proof.
  induction seatIds as [|a rest IH]; intros ls Hin Hown; simpl; [exact Hin|].
  apply IH.
  - rewrite placeLock_upsert. apply upsert_keeps; [exact Hin|].
    apply (ownRequested_false user date (a :: rest) l Hown). now left.
  - unfold ownRequested in *. simpl in Hown.
    destruct (l_date l =? date); [|reflexivity].
    destruct (String.eqb (l_userId l) (userId user)); [|apply andb_false_r].
    rewrite andb_true_r in *. simpl in *. apply orb_false_iff in Hown. tauto.
Qed.

Lemma lock_success_first (st st2 : State) (clk : Clock) (caller : UserId) (user : User)
    (date : Date) (seatIds : list Z) (m : Message) (bs : list Z) :
  users st !! caller = Some user ->
  tsCheck clk <= tsPurge clk ->
  api_lock st clk caller (Some date) seatIds = (st2, RespOk m bs) ->
  (forall s, In s seatIds ->
     findBooking st date s = None /\
     findLock st2 date s = Some (freshLock user date (tsCheck clk) s)) /\
  validateSeatIds st seatIds = None /\
  bookings st2 = bookings st /\ users st2 = users st /\ leaves st2 = leaves st /\
  seatDefinitions st2 = seatDefinitions st /\ batchSchedule st2 = batchSchedule st /\
  holidays st2 = holidays st.
Proof.
  intros Hu Hclk Hok.
  apply api_lock_success in Hok as (user' & Hu' & Hv & _ & _ & Hcheck & ->).
  rewrite Hu in Hu'. injection Hu' as <-.
  set (st1 := clearExpiredLocksForDate (tsPurge clk) date st) in *.
  pose proof (proj1 (lockCheck_none_iff st1 user date (tsCheck clk) seatIds) Hcheck) as Hall.
  split; [|repeat split; exact Hv].
  intros s Hs. destruct (Hall s Hs) as [Hb Hl]. split; [exact Hb|].
  unfold findLock, freshLock. simpl. apply placeLocks_first; [exact Hs|].
  intros a Ha. change (findLock st1 date s = Some a) in Ha.
  destruct (Hl a Ha) as [Hown|Hexp]; [exact Hown|].
  apply findLock_some in Ha as (Hin & Hd & _). simpl in Hin.
  apply filter_In in Hin as [_ Hk]. rewrite Hd, Z.eqb_refl in Hk. simpl in Hk.
  apply Z.ltb_lt in Hk. lia.
Qed.

(** A successful lock request, its two clock reads in order or equal as
    for a call made at one instant ([tsCheck <= tsPurge]): for every
    requested seat no booking existed and the first lock of the seat for
    the date is now the caller's, expiring two minutes after the check, a
    lock the caller already held being replaced by it; nothing but the
    lock store changes; the store gains only such locks, and keeps every
    lock that survived the purge and is not the caller's on a requested
    seat. *)
Theorem lock_success_effect (st st2 : State) (clk : Clock) (caller : UserId) (user : User)
    (date : Date) (seatIds : list Z) (m : Message) (bs : list Z) :
  users st !! caller = Some user ->
  tsCheck clk <= tsPurge clk ->
  api_lock st clk caller (Some date) seatIds = (st2, RespOk m bs) ->
  m = MsgSeatsLocked /\ bs = [] /\
  (forall s, In s seatIds ->
     findBooking st date s = None /\
     findLock st2 date s = Some (freshLock user date (tsCheck clk) s)) /\
  bookings st2 = bookings st /\ users st2 = users st /\ leaves st2 = leaves st /\
  seatDefinitions st2 = seatDefinitions st /\
  (forall l, In l (locks st2) ->
     In l (locks st) \/ exists s, In s seatIds /\ l = freshLock user date (tsCheck clk) s) /\
  (forall l, In l (locks st) -> ownRequested user date seatIds l = false ->
     l_date l <> date \/ tsPurge clk < lockExpiry l -> In l (locks st2)).
Proof.
  intros Hu Hclk Hok.
  assert (Hresp : m = MsgSeatsLocked /\ bs = []).
  { revert Hok. unfold api_lock, withUser. rewrite Hu.
    destruct (validateSeatIds st seatIds); [discriminate|].
    destruct (isWeekend date || isHoliday st date); [discriminate|].
    destruct (validateBookingPolicy st clk user date seatIds); [discriminate|].
    destruct (lockCheck _ user date (tsCheck clk) seatIds); [discriminate|].
    intros H. injection H as _ <- <-. auto. }
  destruct (lock_success_first st st2 clk caller user date seatIds m bs Hu Hclk Hok)
    as (Hseats & _ & Hb & Hus & Hlv & Hsd & _).
  apply api_lock_success in Hok as (user' & Hu' & _ & _ & _ & _ & ->).
  rewrite Hu in Hu'. injection Hu' as <-.
  destruct Hresp as [-> ->]. split; [reflexivity|]. split; [reflexivity|].
  split; [exact Hseats|]. repeat split.
  - intros l Hin. simpl in Hin. apply placeLocks_In in Hin as [Hin|Hnew].
    + left. apply filter_In in Hin. tauto.
    + right. exact Hnew.
  - intros l Hin Hown Hlive. simpl. apply placeLocks_keeps; [|exact Hown].
    apply filter_In. split; [exact Hin|].
    destruct (Z.eqb_spec (l_date l) date) as [Hd|Hd]; simpl; [|reflexivity].
    apply Z.ltb_lt. destruct Hlive; [contradiction|assumption].
Qed.

Lemma lock_success_effect_witness :
  findLock (fst (api_lock office morning "alice1" (Some wednesday) [41; 42])) wednesday 42
  = Some (freshLock alice wednesday 1000 42).
Proof.
  destruct (lock_success_effect office
              (fst (api_lock office morning "alice1" (Some wednesday) [41; 42]))
              morning "alice1" alice wednesday [41; 42] MsgSeatsLocked []
              ltac:(vm_compute; reflexivity) ltac:(vm_compute; discriminate)
              ltac:(vm_compute; reflexivity))
    as (_ & _ & Hseats & _).
  apply (Hseats 42). right. now left.
Defined.

Lemma validateSeatIds_same (a b : State) (seatIds : list Z) :
  seatDefinitions a = seatDefinitions b -> validateSeatIds a seatIds = validateSeatIds b seatIds.
Proof.
  intros H. unfold validateSeatIds, getSeatDefinition. now rewrite H.
Qed.



(** *** Locks under a clock that moves between the reads *)

Lemma filter_filter_and {A} (p q : A -> bool) (l : list A) :
  List.filter p (List.filter q l) = List.filter (fun x => q x && p x) l.
Proof.
  induction l as [|a l IH]; simpl; [reflexivity|].
  destruct (q a); simpl; [destruct (p a); simpl; now rewrite IH|exact IH].
Qed.


Lemma length_le_1_In {A} (l : list A) (a b : A) :
  (length l <= 1)%nat -> In a l -> In b l -> a = b.
Proof.
  destruct l as [|x [|y l]]; simpl; intros H Ha Hb; [contradiction| |lia].
  destruct Ha as [<-|[]]. destruct Hb as [<-|[]]. reflexivity.
Qed.

Lemma filter_length_impl {A} (f g : A -> bool) (l : list A) :
  (forall a, In a l -> f a = true -> g a = true) ->
  (length (List.filter f l) <= length (List.filter g l))%nat.
Proof.
  induction l as [|a l IH]; simpl; intros H; [lia|].
  assert (IH' := IH (fun b Hb => H b (or_intror Hb))).
  destruct (f a) eqn:Hf.
  - rewrite (H a (or_introl eq_refl) Hf). simpl. lia.
  - destruct (g a); simpl; lia.
Qed.

Lemma filter_upsert_other {A} (p q : A -> bool) (x : A) (l : list A) :
  q x = false -> (forall a, p a = true -> q a = false) ->
  List.filter q (upsert p x l) = List.filter q l.
Proof.
  intros Hx Hp. induction l as [|a l IH]; simpl.
  - now rewrite Hx.
  - destruct (p a) eqn:Ha; simpl.
    + now rewrite Hx, (Hp a Ha).
    + destruct (q a); [f_equal|]; exact IH.
Qed.

Lemma filter_upsert_same {A} (p : A -> bool) (x : A) (l : list A) :
  p x = true -> (length (List.filter p l) <= 1)%nat ->
  length (List.filter p (upsert p x l)) = 1%nat.
Proof.
  intros Hx. induction l as [|a l IH]; simpl; [intros _; now rewrite Hx|].
  destruct (p a) eqn:Ha; simpl; intros H.
  - rewrite Hx. simpl. lia.
  - rewrite Ha. apply IH, H.
Qed.

Lemma ownLockOf_fresh (user : User) (date : Date) (e : Z) (s t : Z) :
  ownLockOf user date t (mkLock date s (userId user) e) = (s =? t).
Proof.
  unfold ownLockOf. simpl. now rewrite Z.eqb_refl, String.eqb_refl, andb_true_r.
Qed.

Lemma lockOf_fresh (user : User) (date d : Date) (e : Z) (s t : Z) :
  lockOf d t (mkLock date s (userId user) e) = (date =? d) && (s =? t).
Proof. reflexivity. Qed.

Lemma upsert_ownWhenLive (user : User) (date : Date) (now e : Z) (s t : Z) (ls : list Lock) :
  ownWhenLive user date now s ls ->
  ownWhenLive user date now s
    (upsert (ownLockOf user date t) (mkLock date t (userId user) e) ls).
Proof.
  intros [Hcnt Hown]. destruct (Z.eq_dec t s) as [->|Hne].
  - split.
    + rewrite filter_upsert_same; [lia| |exact Hcnt].
      rewrite ownLockOf_fresh. apply Z.eqb_refl.
    + intros a Ha Hq Hl. apply upsert_In in Ha as [->|Ha]; [apply String.eqb_refl|eauto].
  - split.
    + rewrite filter_upsert_other; [exact Hcnt| |].
      * rewrite ownLockOf_fresh. apply Z.eqb_neq, Hne.
      * intros a Ha. rewrite ownLockOf_lockOf in Ha. apply andb_true_iff in Ha as [Ha _].
        rewrite ownLockOf_lockOf, (lockOf_other_seat date s t a); [reflexivity|congruence|exact Ha].
    + intros a Ha Hq Hl. apply upsert_In in Ha as [->|Ha]; [|eauto].
      exfalso. rewrite lockOf_fresh, Z.eqb_refl in Hq. simpl in Hq.
      apply Z.eqb_eq in Hq. contradiction.
Qed.

Lemma placeLocks_ownWhenLive (user : User) (date : Date) (now e : Z) (s : Z)
    (seatIds : list Z) :
  forall ls,
    ownWhenLive user date now s ls ->
    ownWhenLive user date now s (fold_left (placeLock user date e) seatIds ls).
Proof.
  induction seatIds as [|t rest IH]; intros ls H; simpl; [exact H|].
  apply IH. rewrite placeLock_upsert. now apply upsert_ownWhenLive.
Qed.



(** After the purge at [now], a store that had at most one live lock per
    seat and date has at most one lock per seat for the date. *)
Lemma purged_one_lock_per_seat (now : Z) (date : Date) (st : State) (s : Z) :
  liveLocksUnique now st ->
  (length (List.filter (lockOf date s) (locks (clearExpiredLocksForDate now date st))) <= 1)%nat.
Proof.
  intros Huniq. simpl. rewrite filter_filter_and.
  etransitivity; [|apply (Huniq date s)].
  apply filter_length_impl. intros a _ Ha.
  apply andb_true_iff in Ha as [Hk Hq]. rewrite Hq. simpl.
  unfold lockOf in Hq. apply andb_true_iff in Hq as [Hd _]. now rewrite Hd in Hk.
Qed.

Lemma purged_ownWhenLive (purge check : Z) (st : State) (user : User) (date : Date)
    (seatIds : list Z) (s : Z) :
  liveLocksUnique purge st ->
  lockCheck (clearExpiredLocksForDate purge date st) user date check seatIds = None ->
  In s seatIds ->
  ownWhenLive user date check s (locks (clearExpiredLocksForDate purge date st)).
Proof.
  intros Huniq Hcheck Hs.
  pose proof (purged_one_lock_per_seat purge date st s Huniq) as Hone.
  set (st1 := clearExpiredLocksForDate purge date st) in *.
  split.
  - etransitivity; [|exact Hone]. apply filter_length_impl. intros a _ Ha.
    rewrite ownLockOf_lockOf in Ha. now apply andb_true_iff in Ha as [Ha _].
  - intros a Ha Hq Hl.
    destruct (proj1 (lockCheck_none_iff st1 user date check seatIds) Hcheck s Hs) as [_ Hc].
    destruct (findLock st1 date s) as [first|] eqn:Hf.
    + pose proof Hf as Hf'. unfold findLock in Hf'. apply find_some in Hf' as [Hin Hqf].
      assert (a = first) as ->.
      { apply (length_le_1_In _ a first Hone); apply filter_In; auto. }
      destruct (Hc first eq_refl) as [Hown|Hexp]; [exact Hown|lia].
    + unfold findLock in Hf. pose proof (find_none _ _ Hf a Ha) as Hn.
      unfold lockOf in Hq. simpl in Hn. congruence.
Qed.





(** The commit loop leaves no lock on a committed seat for the date, and
    takes away no other lock. *)
Lemma commit_locks (user : User) (date : Date) (ts : Z) (seatIds : list Z) (st : State) :
  locks (fold_left (commitSeat user date ts) seatIds st) =
  List.filter (fun l => negb ((l_date l =? date) && existsb (Z.eqb (l_seatId l)) seatIds))
              (locks st).
Proof.
  revert st. induction seatIds as [|s rest IH]; intros st; simpl.
  - induction (locks st) as [|a l IHl]; simpl; [reflexivity|].
    rewrite andb_false_r. simpl. now f_equal.
  - rewrite IH. simpl. rewrite filter_filter_and. apply filter_ext.
    intros l. destruct (l_date l =? date); simpl; [|reflexivity].
    rewrite negb_orb. reflexivity.
Qed.



(** The condition on the store is needed.  Bob holds two locks on seat
    41, one running out at 1001 and one running for long: Alice's lock
    request with the reads 1000 and 1002 passes the first and succeeds,
    and at 2000, when the purge has removed the first, Bob's lock request
    for the seat succeeds too. *)
Example two_live_locks_defeat_exclusion :
  let st := set_locks office [mkLock wednesday 41 "bob2" 1001;
                              mkLock wednesday 41 "bob2" 500000] in
  let clk := mkClock wednesday 10 1000 1002 1002 in
  let r := api_lock st clk "alice1" (Some wednesday) [41] in
  snd r = RespOk MsgSeatsLocked [] /\
  snd (api_lock (fst r) (mkClock wednesday 10 2000 2001 2002) "bob2" (Some wednesday) [41])
  = RespOk MsgSeatsLocked [].
Proof. cbv zeta. split; vm_compute; reflexivity. Qed.

(** ** At most one lock per seat and date *)

Lemma lockOf_key (date : Date) (s : Z) (l : Lock) :
  lockOf date s l = true <-> lockKey l = (date, s).
Proof.
  unfold lockOf, lockKey. rewrite andb_true_iff, !Z.eqb_eq. split.
  - intros [-> ->]. reflexivity.
  - intros H. injection H as -> ->. auto.
Qed.

Lemma upsert_keeps_keys_unique (user : User) (date : Date) (e : Z) (s : Z) (ls : list Lock) :
  NoDup (List.map lockKey ls) ->
  (forall a, List.find (lockOf date s) ls = Some a -> ownLockOf user date s a = true) ->
  NoDup (List.map lockKey (upsert (ownLockOf user date s) (mkLock date s (userId user) e) ls)).
Proof.
  induction ls as [|a ls IH]; simpl; intros Hnd Hfirst.
  - apply NoDup_cons. split; [intros H; inversion H|constructor].
  - apply NoDup_cons in Hnd as [Hnotin Hnd].
    destruct (ownLockOf user date s a) eqn:Hown; simpl.
    + assert (Hk : lockKey a = (date, s)).
      { apply lockOf_key. rewrite ownLockOf_lockOf in Hown.
        now apply andb_true_iff in Hown as [Hown _]. }
      apply NoDup_cons. split; [|exact Hnd]. unfold lockKey at 1. simpl.
      rewrite <- Hk. exact Hnotin.
    + destruct (lockOf date s a) eqn:Hl.
      { rewrite (Hfirst a eq_refl) in Hown. discriminate. }
      apply NoDup_cons. split; [|apply IH; assumption].
      intros Hin. apply list_elem_of_In, in_map_iff in Hin as (y & Hy & Hin).
      apply upsert_In in Hin as [->|Hin].
      * assert (lockOf date s a = true) by (apply lockOf_key; now rewrite <- Hy).
        congruence.
      * apply Hnotin, list_elem_of_In, in_map_iff. eauto.
Qed.

Lemma placeLocks_keep_keys_unique (user : User) (date : Date) (e : Z) (seatIds : list Z) :
  forall ls,
    NoDup (List.map lockKey ls) ->
    (forall s a, In s seatIds -> List.find (lockOf date s) ls = Some a ->
                 String.eqb (l_userId a) (userId user) = true) ->
    NoDup (List.map lockKey (fold_left (placeLock user date e) seatIds ls)).
Proof.
  induction seatIds as [|s rest IH]; intros ls Hnd Hfirst; simpl; [exact Hnd|].
  rewrite placeLock_upsert. apply IH.
  - apply upsert_keeps_keys_unique; [exact Hnd|].
    intros a Ha. rewrite ownLockOf_lockOf, (Hfirst s a (or_introl eq_refl) Ha), andb_true_r.
    now apply find_some in Ha as [_ Ha].
  - intros t a Ht Ha. destruct (Z.eq_dec t s) as [->|Hne].
    + rewrite find_upsert_same in Ha.
      * injection Ha as <-. simpl. apply String.eqb_refl.
      * unfold lockOf. simpl. now rewrite !Z.eqb_refl.
      * intros b Hb. rewrite ownLockOf_lockOf, (Hfirst s b (or_introl eq_refl) Hb), andb_true_r.
        now apply find_some in Hb as [_ Hb].
    + rewrite find_upsert_other in Ha.
      * apply (Hfirst t a); [now right|exact Ha].
      * unfold lockOf. simpl. rewrite Z.eqb_refl. simpl. apply Z.eqb_neq. congruence.
      * intros b Hb. rewrite ownLockOf_lockOf in Hb. apply andb_true_iff in Hb as [Hb _].
        apply (lockOf_other_seat date t s b); [exact Hne|exact Hb].
Qed.

Lemma api_lock_keeps_locks_unique (st : State) (clk : Clock) (caller : UserId)
    (date : option Date) (seatIds : list Z) :
  tsCheck clk <= tsPurge clk -> locksUnique st ->
  locksUnique (fst (api_lock st clk caller date seatIds)).
Proof.
  intros Hclk Hst. unfold api_lock, withUser.
  destruct (users st !! caller) as [user|]; [|exact Hst].
  destruct date as [date|]; [|exact Hst].
  destruct (validateSeatIds st seatIds); [exact Hst|].
  destruct (isWeekend date || isHoliday st date); [exact Hst|].
  destruct (validateBookingPolicy st clk user date seatIds); [exact Hst|].
  assert (Hpurged : locksUnique (clearExpiredLocksForDate (tsPurge clk) date st))
    by (unfold locksUnique; simpl; apply NoDup_map_filter, Hst).
  destruct (lockCheck _ user date (tsCheck clk) seatIds) eqn:Hc; [exact Hpurged|].
  unfold locksUnique. cbn [fst]. simpl.
  apply placeLocks_keep_keys_unique; [exact Hpurged|].
  intros s a Hs Ha.
  set (st1 := clearExpiredLocksForDate (tsPurge clk) date st) in *.
  change (findLock st1 date s = Some a) in Ha.
  destruct (proj1 (lockCheck_none_iff st1 user date (tsCheck clk) seatIds) Hc s Hs)
    as [_ Hc'].
  destruct (Hc' a Ha) as [Hown|Hexp]; [exact Hown|].
  apply findLock_some in Ha as (Hin & Hd & _). simpl in Hin.
  apply filter_In in Hin as [_ Hk]. rewrite Hd, Z.eqb_refl in Hk. simpl in Hk.
  apply Z.ltb_lt in Hk. lia.
Qed.

(** Every request made at one instant keeps the lock store free of
    duplicates: if no seat has two locks for one date before the request,
    none has after it.  (The lock handler alone needs the two clock reads
    to agree: a lock that runs out between them is passed over by the
    availability loop and stays beside the new one.) *)
Theorem handle_keeps_locks_unique (st : State) (clk : Clock) (caller : UserId)
    (r : Request) :
  tsCheck clk <= tsPurge clk ->
  locksUnique st -> locksUnique (fst (handle st clk caller r)).
Proof.
  intros Hclk Hst. destruct r; simpl.
  - unfold api_seats, withUser. destruct (users st !! caller); [|exact Hst].
    destruct date; [|exact Hst]. unfold locksUnique. simpl. apply NoDup_map_filter, Hst.
  - unfold api_leave, withUser. destruct (users st !! caller) as [user|]; [|exact Hst].
    destruct date as [date|]; [|exact Hst]. unfold locksUnique. simpl.
    destruct (List.find _ (leaves st)); [exact Hst|].
    destruct (truthySeat (designatedSeatId user)); exact Hst.
  - now apply api_lock_keeps_locks_unique.
  - unfold api_unlock, withUser. destruct (users st !! caller); [|exact Hst].
    destruct date; [|exact Hst]. destruct (validateSeatIds st seatIds); [exact Hst|].
    unfold locksUnique. simpl. apply NoDup_map_filter, Hst.
  - unfold api_book, withUser. destruct (users st !! caller) as [user|]; [|exact Hst].
    destruct date as [date|]; [|exact Hst].
    destruct (validateSeatIds st seatIds); [exact Hst|].
    destruct (MAX_SEATS_PER_BOOKING <? Z.of_nat (length seatIds)); [exact Hst|].
    destruct (validateBookingPolicy st clk user date seatIds); [exact Hst|].
    destruct (bookCheck _ user date (tsCheck clk) seatIds).
    + unfold locksUnique. simpl. apply NoDup_map_filter, Hst.
    + unfold locksUnique. cbn [fst]. rewrite commit_locks. simpl.
      apply NoDup_map_filter, NoDup_map_filter, Hst.
  - unfold api_cancel, withUser. destruct (users st !! caller) as [user|]; [|exact Hst].
    destruct date as [date|]; [|exact Hst].
    destruct (validateSeatIds st seatIds); [exact Hst|].
    destruct (truthyFound _); [exact Hst|].
    unfold locksUnique. simpl. apply NoDup_map_filter, Hst.
  - unfold api_user_batch, withUser. destruct (users st !! caller) as [user|]; [|exact Hst].
    destruct (truthyStr newBatch) as [nb|]; [|exact Hst].
    destruct (negb (isBatchName nb)); [exact Hst|].
    destruct (existsb _ (bookings st)); exact Hst.
  - unfold api_admin_reset, withAdmin, withUser.
    destruct (users st !! caller) as [user|]; [|exact Hst].
    destruct (negb (isAdmin user)); [exact Hst|]. constructor.
  - unfold api_admin_force_cancel, withAdmin, withUser.
    destruct (users st !! caller) as [user|]; [|exact Hst].
    destruct (negb (isAdmin user)); [exact Hst|].
    destruct date as [date|]; [|exact Hst]. destruct seat as [seat|]; [|exact Hst].
    destruct (negb (truthyNum seat)); [exact Hst|].
    unfold locksUnique. simpl. apply NoDup_map_filter, Hst.
  - unfold api_admin_batch_schedule, withAdmin, withUser.
    destruct (users st !! caller) as [user|]; [|exact Hst].
    destruct (negb (isAdmin user)); [exact Hst|]. destruct schedule; exact Hst.
  - unfold api_admin_seat_type, withAdmin, withUser, updateSeatDefinition.
    destruct (users st !! caller) as [user|]; [|exact Hst].
    destruct (negb (isAdmin user)); [exact Hst|].
    destruct seat as [seat|]; [|exact Hst]. destruct newType as [ty|]; [|exact Hst].
    destruct (negb (truthyNum seat)); [exact Hst|].
    destruct (getSeatDefinition st seat); [|exact Hst].
    destruct (findIndex _ (seatDefinitions st)); exact Hst.
  - unfold api_admin_assign_seat, withAdmin, withUser, updateSeatDefinition.
    destruct (users st !! caller) as [user|]; [|exact Hst].
    destruct (negb (isAdmin user)); [exact Hst|].
    destruct (truthyStr uid) as [u|]; [|exact Hst]. destruct seat as [seat|]; [|exact Hst].
    destruct (negb (truthyNum seat)); [exact Hst|].
    destruct (getSeatDefinition st seat); [|exact Hst].
    destruct (users st !! u); [|exact Hst].
    destruct (findIndex _ (seatDefinitions st)); exact Hst.
  - unfold api_admin_holidays, withAdmin, withUser.
    destruct (users st !! caller) as [user|]; [|exact Hst].
    destruct (negb (isAdmin user)); [exact Hst|].
    destruct date; [|exact Hst]. destruct markHoliday as [[|]|]; exact Hst.
Qed.

Lemma handle_keeps_locks_unique_witness :
  locksUnique (fst (handle office morning "alice1" (PostLock (Some wednesday) [41; 41]))).
Proof.
  apply handle_keeps_locks_unique; [vm_compute; discriminate|constructor].
Defined.

(** The condition on the clock is needed: Bob's lock on seat 41 runs out
    at 1001, between the purge at 1000 and the check at 1002 of Alice's
    lock request, which then leaves two locks on the seat. *)
Example lock_beside_lapsed_lock :
  let st := set_locks office [mkLock wednesday 41 "bob2" 1001] in
  locks (fst (api_lock st (mkClock wednesday 10 1000 1002 1002) "alice1"
                (Some wednesday) [41])) =
  [mkLock wednesday 41 "bob2" 1001; mkLock wednesday 41 "alice1" 121002].
Proof. vm_compute. reflexivity. Qed.

(** ** Releasing locks *)

Lemma filter_all {A} (p : A -> bool) (l : list A) :
  (forall x, In x l -> p x = true) -> List.filter p l = l.
Proof.
  induction l as [|a l IH]; simpl; intros H; [reflexivity|].
  rewrite (H a (or_introl eq_refl)). f_equal. apply IH. intros x Hx. apply H. now right.
Qed.

Lemma filter_none {A} (p : A -> bool) (l : list A) :
  (forall x, In x l -> p x = false) -> List.filter p l = [].
Proof.
  induction l as [|a l IH]; simpl; intros H; [reflexivity|].
  rewrite (H a (or_introl eq_refl)). apply IH. intros x Hx. apply H. now right.
Qed.

(** An unlock request with valid seat ids always succeeds.  It removes
    the caller's locks on the listed seats for the date and nothing else:
    locks of other users, of other seats or of other dates stay, and so
    does every booking.  When the caller holds none of these locks the
    state is unchanged, and a second identical request changes nothing
    more. *)
Theorem unlock_releases_own_only (st : State) (caller : UserId) (user : User)
    (date : Date) (seatIds : list Z) :
  users st !! caller = Some user ->
  validateSeatIds st seatIds = None ->
  let r := api_unlock st caller (Some date) seatIds in
  snd r = RespOk MsgSeatsUnlocked [] /\
  (forall l, In l (locks (fst r)) <->
             In l (locks st) /\ ownRequested user date seatIds l = false) /\
  bookings (fst r) = bookings st /\ leaves (fst r) = leaves st /\
  users (fst r) = users st /\
  ((forall l, In l (locks st) -> ownRequested user date seatIds l = false) -> fst r = st) /\
  api_unlock (fst r) caller (Some date) seatIds = r.
Proof.
  intros Hu Hv. cbv zeta. unfold api_unlock, withUser. rewrite Hu, Hv. cbn [fst snd].
  fold (ownRequested user date seatIds).
  change (fun l : Lock => negb ((l_date l =? date) && existsb (Z.eqb (l_seatId l)) seatIds
                               && String.eqb (l_userId l) (userId user)))
    with (fun l : Lock => negb (ownRequested user date seatIds l)).
  split; [reflexivity|]. split; [|split; [reflexivity|split; [reflexivity|split;
    [reflexivity|split]]]].
  - intros l. simpl. rewrite filter_In, negb_true_iff. reflexivity.
  - intros Hnone. rewrite filter_all.
    + now destruct st.
    + intros l Hl. now rewrite (Hnone l Hl).
  - simpl. rewrite Hu.
    rewrite (validateSeatIds_same _ st) by reflexivity. rewrite Hv.
    unfold set_locks. simpl. f_equal. f_equal.
    rewrite filter_filter_and. apply filter_ext. intros l. apply andb_diag.
Qed.

Lemma unlock_releases_own_only_witness :
  let st := fst (api_lock office morning "alice1" (Some wednesday) [41; 42]) in
  locks (fst (api_unlock st "bob2" (Some wednesday) [41; 42])) = locks st.
Proof.
  cbv zeta.
  destruct (unlock_releases_own_only
              (fst (api_lock office morning "alice1" (Some wednesday) [41; 42]))
              "bob2" bob wednesday [41; 42]
              ltac:(vm_compute; reflexivity) ltac:(vm_compute; reflexivity))
    as (_ & _ & _ & _ & _ & Hnoop & _).
  rewrite Hnoop; [reflexivity|].
  intros l Hl. vm_compute in Hl. destruct Hl as [<-|[<-|[]]]; reflexivity.
Defined.

Lemma upsert_app_l {A} (p : A -> bool) (x : A) (l n : list A) :
  (forall a, In a l -> p a = false) -> upsert p x (l ++ n) = l ++ upsert p x n.
Proof.
  induction l as [|a l IH]; simpl; intros H; [reflexivity|].
  rewrite (H a (or_introl eq_refl)). f_equal. apply IH. intros b Hb. apply H. now right.
Qed.

Lemma ownRequested_fresh (user : User) (date : Date) (e : Z) (seatIds : list Z) (s : Z) :
  In s seatIds -> ownRequested user date seatIds (mkLock date s (userId user) e) = true.
Proof.
  intros Hs. unfold ownRequested. simpl.
  rewrite Z.eqb_refl, String.eqb_refl, andb_true_r. simpl. now apply existsb_eqb_In.
Qed.

(** The loop that places the locks only writes behind the locks it finds,
    when none of them is the user's own on a requested seat. *)
Lemma placeLocks_append (user : User) (date : Date) (e : Z) (seatIds : list Z) (ls : list Lock) :
  (forall l, In l ls -> ownRequested user date seatIds l = false) ->
  forall todo n,
    (forall s, In s todo -> In s seatIds) ->
    (forall x, In x n -> ownRequested user date seatIds x = true) ->
    exists n', fold_left (placeLock user date e) todo (ls ++ n) = ls ++ n' /\
               forall x, In x n' -> ownRequested user date seatIds x = true.
Proof.
  intros Hls. induction todo as [|s rest IH]; intros n Hsub Hn; simpl.
  - exists n. auto.
  - rewrite placeLock_upsert, upsert_app_l.
    + apply IH.
      * intros t Ht. apply Hsub. now right.
      * intros x Hx. apply upsert_In in Hx as [->|Hx]; [|auto].
        apply ownRequested_fresh, Hsub. now left.
    + intros a Ha. apply (ownRequested_false user date seatIds a (Hls a Ha)).
      apply Hsub. now left.
Qed.

(** Lock, then unlock: when the caller held no lock on the requested
    seats for the date, releasing the seats right after a successful lock
    request gives back the state as the purge at the start of the lock
    request left it. *)
Theorem lock_then_unlock (st st2 : State) (clk : Clock) (caller : UserId) (user : User)
    (date : Date) (seatIds : list Z) (m : Message) (bs : list Z) :
  users st !! caller = Some user ->
  api_lock st clk caller (Some date) seatIds = (st2, RespOk m bs) ->
  (forall l, In l (locks st) -> ownRequested user date seatIds l = false) ->
  api_unlock st2 caller (Some date) seatIds =
  (clearExpiredLocksForDate (tsPurge clk) date st, RespOk MsgSeatsUnlocked []).
Proof.
  intros Hu Hok Hnone.
  apply api_lock_success in Hok as (user' & Hu' & Hv & _ & _ & _ & ->).
  rewrite Hu in Hu'. injection Hu' as <-.
  set (st1 := clearExpiredLocksForDate (tsPurge clk) date st).
  assert (Hnone1 : forall l, In l (locks st1) -> ownRequested user date seatIds l = false).
  { intros l Hl. simpl in Hl. apply filter_In in Hl as [Hl _]. auto. }
  destruct (placeLocks_append user date (tsCheck clk + LOCK_DURATION_MS) seatIds
              (locks st1) Hnone1 seatIds [] (fun s H => H) (fun x H => match H with end))
    as (n' & Hfold & Hn').
  rewrite app_nil_r in Hfold.
  unfold api_unlock, withUser. simpl. rewrite Hu.
  rewrite (validateSeatIds_same _ st) by reflexivity. rewrite Hv.
  f_equal. unfold set_locks. simpl. unfold clearExpiredLocksForDate, set_locks. f_equal.
  fold (ownRequested user date seatIds).
  change (fun l : Lock => negb ((l_date l =? date) && existsb (Z.eqb (l_seatId l)) seatIds
                               && String.eqb (l_userId l) (userId user)))
    with (fun l : Lock => negb (ownRequested user date seatIds l)).
  change (List.filter (fun l : Lock => if negb (l_date l =? date) then true
                                       else tsPurge clk <? lockExpiry l) (locks st))
    with (locks st1).
  rewrite Hfold, List.filter_app.
  rewrite (filter_all _ (locks st1)), (filter_none _ n'), app_nil_r; [reflexivity| |].
  - intros x Hx. now rewrite (Hn' x Hx).
  - intros x Hx. now rewrite (Hnone1 x Hx).
Qed.

Lemma lock_then_unlock_witness :
  api_unlock (fst (api_lock officeStale morning "bob2" (Some wednesday) [41; 43]))
    "bob2" (Some wednesday) [41; 43] =
  (clearExpiredLocksForDate 1000 wednesday officeStale, RespOk MsgSeatsUnlocked []).
Proof.
  apply (lock_then_unlock officeStale _ morning "bob2" bob wednesday [41; 43]
           MsgSeatsLocked []); try (vm_compute; reflexivity).
  intros l Hl. vm_compute in Hl. destruct Hl as [<-|[]]. reflexivity.
Defined.

(** ** Closed days, holidays and leave *)

Lemma policy_closed_day (st : State) (clk : Clock) (user : User) (date : Date)
    (seatIds : list Z) :
  isWeekend date || isHoliday st date = true ->
  validateBookingPolicy st clk user date seatIds = Some MsgWeekendHoliday.
Proof. intros H. unfold validateBookingPolicy. now rewrite H. Qed.

Lemma api_book_closed_day (st : State) (clk : Clock) (caller : UserId) (date : Date)
    (seatIds : list Z) :
  isWeekend date || isHoliday st date = true ->
  rejected (snd (api_book st clk caller (Some date) seatIds)) /\
  fst (api_book st clk caller (Some date) seatIds) = st.
Proof.
  intros H. unfold api_book, withUser.
  destruct (users st !! caller) as [user|]; [|simpl; auto].
  destruct (validateSeatIds st seatIds); [simpl; auto|].
  destruct (MAX_SEATS_PER_BOOKING <? Z.of_nat (length seatIds)); [simpl; auto|].
  rewrite policy_closed_day by exact H. simpl. auto.
Qed.

Lemma api_lock_closed_day (st : State) (clk : Clock) (caller : UserId) (date : Date)
    (seatIds : list Z) :
  isWeekend date || isHoliday st date = true ->
  rejected (snd (api_lock st clk caller (Some date) seatIds)) /\
  fst (api_lock st clk caller (Some date) seatIds) = st.
Proof.
  intros H. unfold api_lock, withUser.
  destruct (users st !! caller) as [user|]; [|simpl; auto].
  destruct (validateSeatIds st seatIds); [simpl; auto|].
  rewrite H. simpl. auto.
Qed.

(** On a Saturday, a Sunday or a holiday every lock and every confirm
    request is rejected and changes nothing, whoever asks and whatever
    the seats.  A request that passes the seat-id (and size) checks gets
    the closed-day message of its handler: the lock handler has its own,
    the confirm handler the one of the policy check. *)
Theorem closed_day_rejects (st : State) (clk : Clock) (caller : UserId) (date : Date)
    (seatIds : list Z) :
  isWeekend date = true \/ isHoliday st date = true ->
  (rejected (snd (api_lock st clk caller (Some date) seatIds)) /\
   fst (api_lock st clk caller (Some date) seatIds) = st) /\
  (rejected (snd (api_book st clk caller (Some date) seatIds)) /\
   fst (api_book st clk caller (Some date) seatIds) = st) /\
  (forall user, users st !! caller = Some user -> validateSeatIds st seatIds = None ->
     snd (api_lock st clk caller (Some date) seatIds) = RespErr 400 MsgLockWeekendHoliday /\
     (Z.of_nat (length seatIds) <= MAX_SEATS_PER_BOOKING ->
      snd (api_book st clk caller (Some date) seatIds) = RespErr 400 MsgWeekendHoliday)).
Proof.
  intros H.
  assert (Hc : isWeekend date || isHoliday st date = true) by (apply orb_true_iff; exact H).
  split; [now apply api_lock_closed_day|]. split; [now apply api_book_closed_day|].
  intros user Hu Hv. unfold api_lock, api_book, withUser. rewrite Hu, Hv, Hc.
  split; [reflexivity|]. intros Hmax.
  replace (MAX_SEATS_PER_BOOKING <? Z.of_nat (length seatIds)) with false
    by (symmetry; apply Z.ltb_ge, Hmax).
  now rewrite policy_closed_day.
Qed.

Lemma closed_day_rejects_witness :
  snd (api_lock office morning "alice1" (Some (wednesday + 3)) [41]) =
  RespErr 400 MsgLockWeekendHoliday.
Proof.
  assert (Hsat : isWeekend (wednesday + 3) = true) by (vm_compute; reflexivity).
  destruct (closed_day_rejects office morning "alice1" (wednesday + 3) [41]
              (or_introl Hsat)) as (_ & _ & H).
  apply (H alice); vm_compute; reflexivity.
Defined.

Lemma isHoliday_true (st : State) (d : Date) : isHoliday st d = true <-> d ∈ holidays st.
Proof. unfold isHoliday. apply bool_decide_eq_true. Qed.

Lemma isHoliday_false (st : State) (d : Date) : isHoliday st d = false <-> d ∉ holidays st.
Proof. unfold isHoliday. apply bool_decide_eq_false. Qed.

(** An administrator's holiday request with a date always succeeds.
    Unless its flag is exactly [false] it marks the date, a missing flag
    included, and from then on every lock and confirm request for the
    date is rejected; with [false] it unmarks the date.  No other date
    changes its status, and marking then unmarking a date that was no
    holiday gives back the holiday set. *)
Theorem holiday_toggle (st : State) (clk : Clock) (caller : UserId) (admin : User)
    (date : Date) (flag : option bool) :
  users st !! caller = Some admin -> isAdmin admin = true ->
  flag <> Some false ->
  let marked := fst (api_admin_holidays st caller (Some date) flag) in
  let unmarked := fst (api_admin_holidays marked caller (Some date) (Some false)) in
  snd (api_admin_holidays st caller (Some date) flag) = RespOk MsgHolidayUpdated [] /\
  isHoliday marked date = true /\
  (forall who seatIds,
     rejected (snd (api_lock marked clk who (Some date) seatIds)) /\
     rejected (snd (api_book marked clk who (Some date) seatIds))) /\
  isHoliday unmarked date = false /\
  (forall d, d <> date ->
     isHoliday marked d = isHoliday st d /\ isHoliday unmarked d = isHoliday st d) /\
  (isHoliday st date = false -> holidays unmarked = holidays st) /\
  bookings marked = bookings st /\ locks marked = locks st.
Proof.
  intros Hu Ha Hflag. cbv zeta.
  assert (Hmark : api_admin_holidays st caller (Some date) flag =
                  (set_holidays st ({[date]} ∪ holidays st), RespOk MsgHolidayUpdated [])).
  { unfold api_admin_holidays, withAdmin, withUser. rewrite Hu, Ha. simpl.
    destruct flag as [[|]|]; try reflexivity. congruence. }
  rewrite Hmark. cbn [fst snd].
  assert (Hunmark : api_admin_holidays (set_holidays st ({[date]} ∪ holidays st)) caller
                      (Some date) (Some false) =
                    (set_holidays st (({[date]} ∪ holidays st) ∖ {[date]}),
                     RespOk MsgHolidayUpdated [])).
  { unfold api_admin_holidays, withAdmin, withUser. simpl. rewrite Hu, Ha. reflexivity. }
  rewrite Hunmark. cbn [fst].
  assert (Hm : isHoliday (set_holidays st ({[date]} ∪ holidays st)) date = true).
  { apply isHoliday_true. simpl. apply elem_of_union. left. now apply elem_of_singleton. }
  split; [reflexivity|]. split; [exact Hm|]. split; [|split; [|split; [|split]]].
  - intros who seatIds. split.
    + apply api_lock_closed_day. rewrite Hm. apply orb_true_r.
    + apply api_book_closed_day. rewrite Hm. apply orb_true_r.
  - apply isHoliday_false. simpl. rewrite elem_of_difference, elem_of_singleton. tauto.
  - intros d Hd. unfold isHoliday. simpl. split; apply bool_decide_ext.
    + rewrite elem_of_union, elem_of_singleton. tauto.
    + rewrite elem_of_difference, elem_of_union, !elem_of_singleton. tauto.
  - intros Hno. apply isHoliday_false in Hno. simpl. apply set_eq. intros x.
    rewrite elem_of_difference, elem_of_union, !elem_of_singleton.
    split; [tauto|]. intros Hx. split; [now right|]. intros ->. contradiction.
  - split; reflexivity.
Qed.

Lemma holiday_toggle_witness :
  let marked := fst (api_admin_holidays officeAdmin "carol3" (Some wednesday) None) in
  isHoliday marked wednesday = true /\
  holidays (fst (api_admin_holidays marked "carol3" (Some wednesday) (Some false)))
    = holidays officeAdmin.
Proof.
  cbv zeta.
  destruct (holiday_toggle officeAdmin morning "carol3" carol wednesday None
              ltac:(vm_compute; reflexivity) eq_refl ltac:(discriminate))
    as (_ & Hm & _ & _ & _ & Hback & _).
  split; [exact Hm|]. apply Hback. vm_compute. reflexivity.
Defined.

Lemma api_leave_frame (st : State) (caller : UserId) (date : option Date) :
  let st1 := fst (api_leave st caller date) in
  seatDefinitions st1 = seatDefinitions st /\ locks st1 = locks st /\
  batchSchedule st1 = batchSchedule st /\ holidays st1 = holidays st.
Proof.
  cbv zeta. unfold api_leave, withUser.
  destruct (users st !! caller) as [user|]; [|auto].
  destruct date as [date|]; [|auto]. cbn [fst].
  destruct (List.find _ (leaves st)); [simpl; auto|].
  destruct (truthySeat (designatedSeatId user)); simpl; auto.
Qed.

(** Once a user has marked leave for a date, the user is on leave that
    day: every lock and confirm request of the user for the date is
    rejected and changes nothing.  The leave status of any other user, and
    of the same user on any other date, is what it was.  If the user owns
    a designated seat, the ownership check now lets every user through
    for that seat on the date. *)
Theorem leave_blocks_requests (st : State) (clk : Clock) (caller : UserId) (user : User)
    (date : Date) (seatIds : list Z) :
  users st !! caller = Some user ->
  let st1 := fst (api_leave st caller (Some date)) in
  isUserOnLeave st1 (userId user) date = true /\
  (rejected (snd (api_lock st1 clk caller (Some date) seatIds)) /\
   fst (api_lock st1 clk caller (Some date) seatIds) = st1) /\
  (rejected (snd (api_book st1 clk caller (Some date) seatIds)) /\
   fst (api_book st1 clk caller (Some date) seatIds) = st1) /\
  (forall uid d, uid <> userId user \/ d <> date ->
     isUserOnLeave st1 uid d = isUserOnLeave st uid d) /\
  (forall S def other b,
     getSeatDefinition st S = Some def -> type def = designated ->
     truthyStr (assignedTo def) = Some (userId user) ->
     checkSeatOwnership st1 other date b [S] = None).
Proof.
  intros Hu. cbv zeta.
  destruct (api_leave_effect st caller user date Hu) as (_ & Hl & Hu1 & _).
  destruct (api_leave_frame st caller (Some date)) as (Hsd & _).
  set (st1 := fst (api_leave st caller (Some date))) in *.
  assert (Hon : isUserOnLeave st1 (userId user) date = true).
  { unfold isUserOnLeave. rewrite Hl. fold (leaveOf (userId user) date).
    destruct (List.find (leaveOf (userId user) date) (leaves st)) as [l|] eqn:Hf.
    - apply find_some in Hf as [Hin Hp]. apply existsb_exists. eauto.
    - rewrite existsb_app. simpl. unfold leaveOf at 2. simpl.
      rewrite String.eqb_refl, Z.eqb_refl. simpl. apply orb_true_r. }
  assert (Hpol : forall ids, isWeekend date || isHoliday st1 date = false ->
            validateBookingPolicy st1 clk
              (mkUser (userId user) (batch user) (designatedSeatId user)
                 (floaterLeaveCount user +
                  (if match List.find (leaveOf (userId user) date) (leaves st) with
                      | Some _ => false | None => true end
                      && truthySeat (designatedSeatId user) then 1 else 0))
                 (isAdmin user)) date ids = Some MsgOnLeave).
  { intros ids Hw. unfold validateBookingPolicy. rewrite Hw. simpl. now rewrite Hon. }
  split; [exact Hon|]. split; [|split; [|split]].
  - unfold api_lock, withUser. rewrite Hu1.
    destruct (validateSeatIds st1 seatIds); [simpl; auto|].
    destruct (isWeekend date || isHoliday st1 date) eqn:Hw; [simpl; auto|].
    rewrite Hpol by reflexivity. simpl. auto.
  - unfold api_book, withUser. rewrite Hu1.
    destruct (validateSeatIds st1 seatIds); [simpl; auto|].
    destruct (MAX_SEATS_PER_BOOKING <? Z.of_nat (length seatIds)); [simpl; auto|].
    destruct (isWeekend date || isHoliday st1 date) eqn:Hw.
    + rewrite policy_closed_day by exact Hw. simpl. auto.
    + rewrite Hpol by reflexivity. simpl. auto.
  - intros uid d Hne. unfold isUserOnLeave. rewrite Hl.
    destruct (List.find (leaveOf (userId user) date) (leaves st)); [reflexivity|].
    rewrite existsb_app. simpl.
    assert (Hno : String.eqb (userId user) uid && (date =? d) = false).
    { destruct Hne as [Hne|Hne].
      - replace (String.eqb (userId user) uid) with false
          by (symmetry; apply String.eqb_neq; congruence). reflexivity.
      - replace (date =? d) with false by (symmetry; apply Z.eqb_neq; congruence).
        apply andb_false_r. }
    rewrite Hno. simpl. apply orb_false_r.
  - intros S def other b Hdef Hty Hown. simpl.
    unfold getSeatDefinition in *. rewrite Hsd, Hdef, Hty, Hown, Hon. reflexivity.
Qed.

Lemma leave_blocks_requests_witness :
  let st1 := fst (api_leave officeAssigned "bob2" (Some wednesday)) in
  rejected (snd (api_book st1 morning "bob2" (Some wednesday) [41])) /\
  checkSeatOwnership st1 alice wednesday true [1] = None.
Proof.
  cbv zeta.
  destruct (leave_blocks_requests officeAssigned morning "bob2" bobOwner wednesday [41]
              ltac:(vm_compute; reflexivity)) as (_ & _ & [Hrej _] & _ & Hseat).
  split; [exact Hrej|].
  apply (Hseat 1 (mkSeatDef 1 designated (Some "bob2"))); vm_compute; reflexivity.
Defined.

(** ** The catalogue of seats *)

Lemma getSeatDefinition_known (st : State) (s : Z) :
  getSeatDefinition st s <> None <-> In s (seatIdsOf st).
Proof.
  unfold getSeatDefinition, seatIdsOf. rewrite find_some_iff, in_map_iff. split.
  - intros (def & Hin & Hp). apply Z.eqb_eq in Hp. eauto.
  - intros (def & Hs & Hin). exists def. split; [exact Hin|]. now apply Z.eqb_eq.
Qed.

Lemma getSeatDefinition_seatId (st : State) (s : Z) (def : SeatDef) :
  getSeatDefinition st s = Some def -> seatId def = s /\ In def (seatDefinitions st).
Proof.
  unfold getSeatDefinition. intros H. apply find_some in H as [Hin Hp].
  apply Z.eqb_eq in Hp. auto.
Qed.

(** [validateSeatIds] rejects the empty list.  For a list without the id
    0 it accepts exactly the lists whose ids are all in the catalogue, and
    otherwise names the first id that is not.  A list whose first unknown
    id is 0 is accepted, whatever follows the 0. *)
Theorem validateSeatIds_spec (st : State) (seatIds : list Z) :
  (seatIds = [] -> validateSeatIds st seatIds = Some MsgSeatIdsNonEmpty) /\
  (seatIds <> [] -> ~ In 0 seatIds ->
     (validateSeatIds st seatIds = None <-> forall s, In s seatIds -> In s (seatIdsOf st))) /\
  (forall pre bad post,
     seatIds = pre ++ bad :: post ->
     (forall x, In x pre -> In x (seatIdsOf st)) -> ~ In bad (seatIdsOf st) ->
     validateSeatIds st seatIds =
       if bad =? 0 then None else Some (MsgSeatNotExist bad)).
Proof.
  split; [intros ->; reflexivity|].
  assert (Hpos : forall l : list Z, l <> [] -> (Z.of_nat (length l) =? 0) = false).
  { intros [|a l] H; [congruence|]. apply Z.eqb_neq. simpl. lia. }
  assert (Hunknown : forall x, (match getSeatDefinition st x with
                                | Some _ => false | None => true end) = true
                               <-> ~ In x (seatIdsOf st)).
  { intros x. rewrite <- getSeatDefinition_known.
    destruct (getSeatDefinition st x); split; intros H; try reflexivity;
      try discriminate; try congruence. exfalso. apply H. discriminate. }
  split.
  - intros Hne Hzero. unfold validateSeatIds. rewrite (Hpos seatIds Hne).
    destruct (List.find _ seatIds) as [bad|] eqn:Hf; simpl.
    + apply find_some in Hf as [Hin Hbad]. apply Hunknown in Hbad.
      rewrite truthyNum_true by (intros ->; contradiction).
      split; [discriminate|]. intros H. exfalso. apply Hbad, H, Hin.
    + split; [|reflexivity]. intros _ s Hs.
      pose proof (find_none _ _ Hf s Hs) as Hk. simpl in Hk.
      destruct (in_dec Z.eq_dec s (seatIdsOf st)) as [Hin|Hnot]; [exact Hin|].
      apply Hunknown in Hnot. congruence.
  - intros pre bad post -> Hpre Hbad. unfold validateSeatIds.
    rewrite Hpos by (destruct pre; discriminate).
    rewrite (find_first _ pre bad post).
    + unfold truthyFound, truthyNum. destruct (bad =? 0); reflexivity.
    + intros y Hy. destruct (getSeatDefinition st y) eqn:Hd; [reflexivity|].
      exfalso. apply getSeatDefinition_known in Hd; [exact Hd|]. apply Hpre, Hy.
    + apply Hunknown, Hbad.
Qed.

Lemma validateSeatIds_spec_witness :
  validateSeatIds office [41; 77; 0] = Some (MsgSeatNotExist 77) /\
  validateSeatIds office [41; 0; 77] = None.
Proof.
  split.
  - apply (proj2 (proj2 (validateSeatIds_spec office [41; 77; 0])) [41] 77 [0] eq_refl).
    + intros x [<-|[]]. vm_compute. tauto.
    + vm_compute. intuition discriminate.
  - apply (proj2 (proj2 (validateSeatIds_spec office [41; 0; 77])) [41] 0 [77] eq_refl).
    + intros x [<-|[]]. vm_compute. tauto.
    + vm_compute. intuition discriminate.
Defined.

Lemma findIndex_none {A} (p : A -> bool) (l : list A) :
  findIndex p l = None <-> List.find p l = None.
Proof.
  induction l as [|a l IH]; simpl; [tauto|].
  destruct (p a); [split; discriminate|].
  destruct (findIndex p l); simpl.
  - split; [discriminate|]. intros H. apply IH in H. discriminate.
  - split; intros _; [now apply IH|reflexivity].
Qed.

Lemma map_alter_same {A B} (g : A -> B) (f : A -> A) (l : list A) (i : nat) :
  (forall x, g (f x) = g x) -> List.map g (alter f i l) = List.map g l.
Proof.
  intros Hg. revert i. induction l as [|a l IH]; intros [|i]; simpl; try reflexivity.
  - now rewrite Hg.
  - f_equal. apply IH.
Qed.

(** The definition found for a seat after the first definition with the
    id [id] has been changed by [f], which keeps the id. *)
Lemma find_after_update (st : State) (id s : Z) (f : SeatDef -> SeatDef) :
  (forall x, seatId (f x) = seatId x) ->
  getSeatDefinition (updateSeatDefinition st id f) s =
  if s =? id then option_map f (getSeatDefinition st id) else getSeatDefinition st s.
Proof.
  intros Hf. unfold updateSeatDefinition, getSeatDefinition.
  destruct (findIndex (fun d => seatId d =? id) (seatDefinitions st)) as [i|] eqn:Hi.
  - simpl. revert i Hi. induction (seatDefinitions st) as [|a l IH]; intros i; simpl;
      [discriminate|].
    destruct (seatId a =? id) eqn:Ha.
    + intros H. injection H as <-. simpl. rewrite Hf.
      apply Z.eqb_eq in Ha. rewrite Ha.
      destruct (Z.eqb_spec s id) as [->|Hne].
      * now rewrite Z.eqb_refl.
      * replace (id =? s) with false by (symmetry; apply Z.eqb_neq; congruence).
        reflexivity.
    + destruct (findIndex _ l) as [j|]; [|discriminate].
      intros H. injection H as <-. simpl.
      destruct (seatId a =? s) eqn:Has.
      * apply Z.eqb_eq in Has. subst s. now rewrite Ha.
      * now apply IH.
  - apply findIndex_none in Hi. destruct (s =? id) eqn:Hs; [|reflexivity].
    apply Z.eqb_eq in Hs. subst s. now rewrite Hi.
Qed.

Lemma update_keeps_ids (st : State) (id : Z) (f : SeatDef -> SeatDef) :
  (forall x, seatId (f x) = seatId x) ->
  seatIdsOf (updateSeatDefinition st id f) = seatIdsOf st.
Proof.
  intros Hf. unfold updateSeatDefinition, seatIdsOf.
  destruct (findIndex _ (seatDefinitions st)); [|reflexivity].
  simpl. now apply map_alter_same.
Qed.

(** No request adds, removes or renumbers a seat: after any request the
    seat ids of the catalogue are those before it or, after a reset, the
    ids 1 to 50 of the default floor; so a server started on the default
    floor always knows exactly the seats 1 to 50. *)
Theorem catalogue_ids_fixed (st : State) (clk : Clock) (caller : UserId) (r : Request) :
  let st' := fst (handle st clk caller r) in
  (seatIdsOf st' = seatIdsOf st \/ seatIdsOf st' = seatIdsOf initialState) /\
  (seatIdsOf st = seatIdsOf initialState ->
     seatIdsOf st' = seatIdsOf initialState /\
     forall s, getSeatDefinition st' s <> None <-> 1 <= s <= 50).
Proof.
  cbv zeta.
  assert (Hstep : seatIdsOf (fst (handle st clk caller r)) = seatIdsOf st \/
                  seatIdsOf (fst (handle st clk caller r)) = seatIdsOf initialState).
  { destruct r; simpl.
    - left. unfold api_seats, withUser. destruct (users st !! caller); [|reflexivity].
      destruct date; reflexivity.
    - left. unfold seatIdsOf. now destruct (api_leave_frame st caller date) as (-> & _).
    - left. unfold api_lock, withUser. destruct (users st !! caller) as [user|]; [|reflexivity].
      destruct date as [date|]; [|reflexivity].
      destruct (validateSeatIds st seatIds); [reflexivity|].
      destruct (isWeekend date || isHoliday st date); [reflexivity|].
      destruct (validateBookingPolicy st clk user date seatIds); [reflexivity|].
      destruct (lockCheck _ user date (tsCheck clk) seatIds); reflexivity.
    - left. unfold api_unlock, withUser. destruct (users st !! caller); [|reflexivity].
      destruct date; [|reflexivity]. destruct (validateSeatIds st seatIds); reflexivity.
    - left. unfold api_book, withUser. destruct (users st !! caller) as [user|]; [|reflexivity].
      destruct date as [date|]; [|reflexivity].
      destruct (validateSeatIds st seatIds); [reflexivity|].
      destruct (MAX_SEATS_PER_BOOKING <? Z.of_nat (length seatIds)); [reflexivity|].
      destruct (validateBookingPolicy st clk user date seatIds); [reflexivity|].
      destruct (bookCheck _ user date (tsCheck clk) seatIds); [reflexivity|].
      cbn [fst]. unfold seatIdsOf.
      now destruct (commit_frame user date (tsCommit clk) seatIds
                      (clearExpiredLocksForDate (tsPurge clk) date st)) as (_ & -> & _).
    - left. unfold api_cancel, withUser. destruct (users st !! caller) as [user|]; [|reflexivity].
      destruct date as [date|]; [|reflexivity].
      destruct (validateSeatIds st seatIds); [reflexivity|].
      destruct (truthyFound _); reflexivity.
    - left. unfold api_user_batch, withUser.
      destruct (users st !! caller) as [user|]; [|reflexivity].
      destruct (truthyStr newBatch) as [nb|]; [|reflexivity].
      destruct (negb (isBatchName nb)); [reflexivity|].
      destruct (existsb _ (bookings st)); reflexivity.
    - unfold api_admin_reset, withAdmin, withUser.
      destruct (users st !! caller) as [user|]; [|now left].
      destruct (negb (isAdmin user)); [now left|]. right. reflexivity.
    - left. unfold api_admin_force_cancel, withAdmin, withUser.
      destruct (users st !! caller) as [user|]; [|reflexivity].
      destruct (negb (isAdmin user)); [reflexivity|].
      destruct date as [date|]; [|reflexivity]. destruct seat as [seat|]; [|reflexivity].
      destruct (negb (truthyNum seat)); reflexivity.
    - left. unfold api_admin_batch_schedule, withAdmin, withUser.
      destruct (users st !! caller) as [user|]; [|reflexivity].
      destruct (negb (isAdmin user)); [reflexivity|]. destruct schedule; reflexivity.
    - left. unfold api_admin_seat_type, withAdmin, withUser.
      destruct (users st !! caller) as [user|]; [|reflexivity].
      destruct (negb (isAdmin user)); [reflexivity|].
      destruct seat as [seat|]; [|reflexivity]. destruct newType as [ty|]; [|reflexivity].
      destruct (negb (truthyNum seat)); [reflexivity|].
      destruct (getSeatDefinition st seat); [|reflexivity].
      cbn [fst]. now apply update_keeps_ids.
    - left. unfold api_admin_assign_seat, withAdmin, withUser.
      destruct (users st !! caller) as [user|]; [|reflexivity].
      destruct (negb (isAdmin user)); [reflexivity|].
      destruct (truthyStr uid) as [u|]; [|reflexivity].
      destruct seat as [seat|]; [|reflexivity].
      destruct (negb (truthyNum seat)); [reflexivity|].
      destruct (getSeatDefinition st seat); [|reflexivity].
      destruct (users st !! u); [|reflexivity].
      cbn [fst]. unfold seatIdsOf. simpl.
      now apply (update_keeps_ids st seat).
    - left. unfold api_admin_holidays, withAdmin, withUser.
      destruct (users st !! caller) as [user|]; [|reflexivity].
      destruct (negb (isAdmin user)); [reflexivity|].
      destruct date; [|reflexivity]. destruct markHoliday as [[|]|]; reflexivity. }
  split; [exact Hstep|]. intros Hdefault.
  assert (Hids : seatIdsOf (fst (handle st clk caller r)) = seatIdsOf initialState)
    by (destruct Hstep as [H|H]; congruence).
  split; [exact Hids|]. intros s. rewrite getSeatDefinition_known, Hids.
  change (seatIdsOf initialState) with (List.map Z.of_nat (seq 1 50)).
  rewrite in_map_iff. split.
  - intros (n & <- & Hn). apply in_seq in Hn. lia.
  - intros Hs. exists (Z.to_nat s). split; [lia|]. apply in_seq. lia.
Qed.

Lemma catalogue_ids_fixed_witness :
  seatIdsOf (fst (handle officeAdmin morning "carol3"
                    (AdminSeatType (Some 41) (Some designated))))
  = seatIdsOf initialState /\
  (getSeatDefinition
     (fst (handle officeAdmin morning "carol3"
             (AdminSeatType (Some 41) (Some designated)))) 51 <> None
   <-> 1 <= 51 <= 50).
Proof.
  destruct (proj2 (catalogue_ids_fixed officeAdmin morning "carol3"
                     (AdminSeatType (Some 41) (Some designated))) eq_refl) as [Hids Hknown].
  split; [exact Hids|apply Hknown].
Defined.

(** ** Administration of seats *)

(** Assigning a seat: for an existing user and seat the request
    succeeds; the seat becomes a designated seat of the user and the
    user's record points to it.  Nothing else is touched: every other
    seat definition and every other user record is as before, so a seat
    the user held earlier stays assigned to the user and a previous owner
    of this seat still has it in the record; bookings, locks and leaves
    are kept. *)
Theorem assign_seat_effect (st : State) (caller : UserId) (admin : User) (uid : UserId)
    (target : User) (id : Z) (def : SeatDef) :
  users st !! caller = Some admin -> isAdmin admin = true ->
  users st !! uid = Some target -> uid <> EmptyString ->
  getSeatDefinition st id = Some def -> id <> 0 ->
  let r := api_admin_assign_seat st caller (Some uid) (Some id) in
  snd r = RespOk (MsgSeatAssigned id) [] /\
  getSeatDefinition (fst r) id = Some (mkSeatDef id designated (Some uid)) /\
  users (fst r) !! uid =
    Some (mkUser (userId target) (batch target) (Some id) (floaterLeaveCount target)
                 (isAdmin target)) /\
  (forall s, s <> id -> getSeatDefinition (fst r) s = getSeatDefinition st s) /\
  (forall u, u <> uid -> users (fst r) !! u = users st !! u) /\
  bookings (fst r) = bookings st /\ locks (fst r) = locks st /\ leaves (fst r) = leaves st.
Proof.
  intros Hu Ha Ht Hne Hdef Hid. cbv zeta.
  unfold api_admin_assign_seat, withAdmin, withUser. rewrite Hu, Ha. simpl.
  replace (String.eqb uid EmptyString) with false
    by (symmetry; apply String.eqb_neq, Hne).
  rewrite truthyNum_true by exact Hid. simpl. rewrite Hdef, Ht. cbn [fst snd].
  set (f := fun d : SeatDef => mkSeatDef (seatId d) designated (Some uid)).
  assert (Hf : forall x, seatId (f x) = seatId x) by reflexivity.
  assert (Hget : forall s, getSeatDefinition (set_users (updateSeatDefinition st id f)
                             (<[uid := mkUser (userId target) (batch target) (Some id)
                                         (floaterLeaveCount target) (isAdmin target)]>
                              (users (updateSeatDefinition st id f)))) s =
                           getSeatDefinition (updateSeatDefinition st id f) s)
    by reflexivity.
  assert (Hsame : forall g, users (updateSeatDefinition st id g) = users st /\
                            bookings (updateSeatDefinition st id g) = bookings st /\
                            locks (updateSeatDefinition st id g) = locks st /\
                            leaves (updateSeatDefinition st id g) = leaves st).
  { intros g. unfold updateSeatDefinition.
    destruct (findIndex _ (seatDefinitions st)); simpl; auto. }
  destruct (Hsame f) as (Hus & Hb & Hl & Hlv).
  split; [reflexivity|]. split; [|split; [|split; [|split]]].
  - rewrite Hget, find_after_update by exact Hf. rewrite Z.eqb_refl, Hdef. simpl.
    unfold f. now rewrite (proj1 (getSeatDefinition_seatId st id def Hdef)).
  - simpl. apply lookup_insert_eq.
  - intros s Hs. rewrite Hget, find_after_update by exact Hf.
    now replace (s =? id) with false by (symmetry; apply Z.eqb_neq, Hs).
  - intros u Hu'. simpl. rewrite lookup_insert_ne by congruence. now rewrite Hus.
  - simpl. auto.
Qed.

Lemma assign_seat_effect_witness :
  getSeatDefinition
    (fst (api_admin_assign_seat officeAdmin "carol3" (Some "alice1") (Some 7))) 7
  = Some (mkSeatDef 7 designated (Some "alice1")).
Proof.
  exact (proj1 (proj2 (assign_seat_effect officeAdmin "carol3" carol "alice1" alice 7
                  (mkSeatDef 7 designated None)
                  ltac:(vm_compute; reflexivity) eq_refl ltac:(vm_compute; reflexivity)
                  ltac:(discriminate) ltac:(vm_compute; reflexivity) ltac:(discriminate)))).
Defined.

(** Converting a seat: for an existing seat the request succeeds.  A
    seat turned into a floater loses its owner, and the ownership loop of
    the policy check then lets every user through for it; a seat turned
    into a designated seat keeps the owner it had.  The other seats, the
    users (the former owner's record included), bookings, locks and
    leaves are untouched. *)
Theorem seat_type_effect (st : State) (caller : UserId) (admin : User) (id : Z)
    (def : SeatDef) (newType : SeatType) :
  users st !! caller = Some admin -> isAdmin admin = true ->
  getSeatDefinition st id = Some def -> id <> 0 ->
  let r := api_admin_seat_type st caller (Some id) (Some newType) in
  snd r = RespOk (MsgSeatConverted id) [] /\
  getSeatDefinition (fst r) id =
    Some (mkSeatDef id newType
            (match newType with floater => None | designated => assignedTo def end)) /\
  (newType = floater ->
     forall user date b, checkSeatOwnership (fst r) user date b [id] = None) /\
  (forall s, s <> id -> getSeatDefinition (fst r) s = getSeatDefinition st s) /\
  users (fst r) = users st /\ bookings (fst r) = bookings st /\
  locks (fst r) = locks st /\ leaves (fst r) = leaves st.
Proof.
  intros Hu Ha Hdef Hid. cbv zeta.
  unfold api_admin_seat_type, withAdmin, withUser. rewrite Hu, Ha. simpl.
  rewrite truthyNum_true by exact Hid. simpl. rewrite Hdef. cbn [fst snd].
  set (f := fun d : SeatDef =>
              mkSeatDef (seatId d) newType
                (match newType with floater => None | designated => assignedTo d end)).
  assert (Hf : forall x, seatId (f x) = seatId x) by reflexivity.
  assert (Hnew : getSeatDefinition (updateSeatDefinition st id f) id =
                 Some (mkSeatDef id newType
                         (match newType with
                          | floater => None | designated => assignedTo def end))).
  { rewrite find_after_update by exact Hf. rewrite Z.eqb_refl, Hdef. simpl.
    unfold f. now rewrite (proj1 (getSeatDefinition_seatId st id def Hdef)). }
  split; [reflexivity|]. split; [exact Hnew|]. split; [|split].
  - intros -> user date b. simpl. now rewrite Hnew.
  - intros s Hs. rewrite find_after_update by exact Hf.
    now replace (s =? id) with false by (symmetry; apply Z.eqb_neq, Hs).
  - unfold updateSeatDefinition. destruct (findIndex _ (seatDefinitions st)); simpl; auto.
Qed.

Lemma seat_type_effect_witness :
  checkSeatOwnership
    (fst (api_admin_seat_type (withCarol officeAssigned) "carol3" (Some 1) (Some floater)))
    alice wednesday true [1] = None.
Proof.
  assert (Hu : users (withCarol officeAssigned) !! "carol3" = Some carol)
    by (vm_compute; reflexivity).
  assert (Hd : getSeatDefinition (withCarol officeAssigned) 1 =
               Some (mkSeatDef 1 designated (Some "bob2"))) by (vm_compute; reflexivity).
  apply (proj1 (proj2 (proj2 (seat_type_effect (withCarol officeAssigned) "carol3" carol 1
                  (mkSeatDef 1 designated (Some "bob2")) floater Hu eq_refl Hd
                  ltac:(discriminate))))).
  reflexivity.
Defined.

(** A forced cancellation by an administrator clears the seat for the
    date, whoever held it: afterwards the seat has no booking and no lock
    for the date, so that the availability loop of a lock request passes
    it for every user; the bookings and locks of other seats or other
    dates are exactly those from before.  The seat id is not looked up in
    the catalogue. *)
Theorem force_cancel_frees_seat (st : State) (caller : UserId) (admin : User)
    (date : Date) (seat : Z) :
  users st !! caller = Some admin -> isAdmin admin = true -> seat <> 0 ->
  let r := api_admin_force_cancel st caller (Some date) (Some seat) in
  snd r = RespOk (MsgBookingCleared seat) [] /\
  ~ bookedOn (fst r) date seat /\ findLock (fst r) date seat = None /\
  (forall user now, lockCheck (fst r) user date now [seat] = None) /\
  (forall b, In b (bookings (fst r)) <->
             In b (bookings st) /\ ~ (b_date b = date /\ b_seatId b = seat)) /\
  (forall l, In l (locks (fst r)) <->
             In l (locks st) /\ ~ (l_date l = date /\ l_seatId l = seat)).
Proof.
  intros Hu Ha Hs. cbv zeta.
  unfold api_admin_force_cancel, withAdmin, withUser. rewrite Hu, Ha. simpl.
  rewrite truthyNum_true by exact Hs. cbn [negb fst snd].
  assert (Hb : forall b, In b (List.filter
                 (fun b => negb ((b_date b =? date) && (b_seatId b =? seat))) (bookings st))
               <-> In b (bookings st) /\ ~ (b_date b = date /\ b_seatId b = seat)).
  { intros b. rewrite filter_In, negb_true_iff, andb_false_iff, !Z.eqb_neq. split.
    - intros [Hin Hk]. split; [exact Hin|]. tauto.
    - intros [Hin Hk]. split; [exact Hin|].
      destruct (Z.eq_dec (b_date b) date); [|tauto].
      destruct (Z.eq_dec (b_seatId b) seat); tauto. }
  assert (Hl : forall l, In l (List.filter
                 (fun l => negb ((l_date l =? date) && (l_seatId l =? seat))) (locks st))
               <-> In l (locks st) /\ ~ (l_date l = date /\ l_seatId l = seat)).
  { intros l. rewrite filter_In, negb_true_iff, andb_false_iff, !Z.eqb_neq. split.
    - intros [Hin Hk]. split; [exact Hin|]. tauto.
    - intros [Hin Hk]. split; [exact Hin|].
      destruct (Z.eq_dec (l_date l) date); [|tauto].
      destruct (Z.eq_dec (l_seatId l) seat); tauto. }
  assert (Hnb : findBooking (set_locks (set_bookings st (List.filter
                   (fun b => negb ((b_date b =? date) && (b_seatId b =? seat))) (bookings st)))
                  (List.filter (fun l => negb ((l_date l =? date) && (l_seatId l =? seat)))
                     (locks st))) date seat = None).
  { unfold findBooking. simpl. apply find_none_filter_nil. apply filter_none.
    intros b Hin. apply Hb in Hin as [_ Hk].
    apply andb_false_iff. rewrite !Z.eqb_neq.
    destruct (Z.eq_dec (b_date b) date); [|tauto].
    destruct (Z.eq_dec (b_seatId b) seat); tauto. }
  assert (Hnl : findLock (set_locks (set_bookings st (List.filter
                   (fun b => negb ((b_date b =? date) && (b_seatId b =? seat))) (bookings st)))
                  (List.filter (fun l => negb ((l_date l =? date) && (l_seatId l =? seat)))
                     (locks st))) date seat = None).
  { unfold findLock. simpl. apply find_none_filter_nil. apply filter_none.
    intros l Hin. apply Hl in Hin as [_ Hk].
    apply andb_false_iff. rewrite !Z.eqb_neq.
    destruct (Z.eq_dec (l_date l) date); [|tauto].
    destruct (Z.eq_dec (l_seatId l) seat); tauto. }
  split; [reflexivity|]. split; [|split; [exact Hnl|split; [|split]]].
  - intros Hbooked. apply findBooking_bookedOn in Hbooked. congruence.
  - intros user now. simpl. now rewrite Hnb, Hnl.
  - exact Hb.
  - exact Hl.
Qed.

Lemma force_cancel_frees_seat_witness :
  ~ bookedOn (fst (api_admin_force_cancel (withCarol officeStale) "carol3"
                     (Some wednesday) (Some 42))) wednesday 42.
Proof.
  assert (Hu : users (withCarol officeStale) !! "carol3" = Some carol)
    by (vm_compute; reflexivity).
  exact (proj1 (proj2 (force_cancel_frees_seat (withCarol officeStale) "carol3" carol
                  wednesday 42 Hu eq_refl ltac:(discriminate)))).
Defined.

(** ** Who may ask *)

(** A request whose caller is not a known user is answered 401, and an
    administrative request of a user without the administrator flag is
    answered 403; neither changes the state, whatever the request
    carries. *)
Theorem requests_are_gated (st : State) (clk : Clock) (caller : UserId) (r : Request) :
  (users st !! caller = None ->
     handle st clk caller r = (st, RespErr 401 MsgUnauthorized)) /\
  (forall user, users st !! caller = Some user -> isAdmin user = false ->
     isAdminRequest r = true ->
     handle st clk caller r = (st, RespErr 403 MsgAdminRequired)).
Proof.
  split.
  - intros Hu. destruct r; simpl;
      unfold api_seats, api_leave, api_lock, api_unlock, api_book, api_cancel,
        api_user_batch, api_admin_reset, api_admin_force_cancel,
        api_admin_batch_schedule, api_admin_seat_type, api_admin_assign_seat,
        api_admin_holidays, withAdmin, withUser; now rewrite Hu.
  - intros user Hu Ha Hr. destruct r; try discriminate; simpl;
      unfold api_admin_reset, api_admin_force_cancel, api_admin_batch_schedule,
        api_admin_seat_type, api_admin_assign_seat, api_admin_holidays,
        withAdmin, withUser; now rewrite Hu, Ha.
Qed.

Lemma requests_are_gated_witness :
  handle office morning "alice1" AdminReset = (office, RespErr 403 MsgAdminRequired).
Proof.
  apply (proj2 (requests_are_gated office morning "alice1" AdminReset) alice);
    vm_compute; reflexivity.
Defined.

(* The users before and after a request, id by id. *)
Lemma handle_users_stable (st : State) (clk : Clock) (caller : UserId) (r : Request)
    (uid : UserId) :
  match users (fst (handle st clk caller r)) !! uid, users st !! uid with
  | Some u', Some u => userId u' = userId u /\ isAdmin u' = isAdmin u
  | None, None => True
  | _, _ => False
  end.
Proof.
  assert (Hsame : forall st' : State, users st' = users st ->
            match users st' !! uid, users st !! uid with
            | Some u', Some u => userId u' = userId u /\ isAdmin u' = isAdmin u
            | None, None => True
            | _, _ => False
            end).
  { intros st' ->. destruct (users st !! uid); auto. }
  assert (Hins : forall (st' : State) k (u u' : User),
            users st !! k = Some u -> userId u' = userId u -> isAdmin u' = isAdmin u ->
            users st' = <[k := u']> (users st) ->
            match users st' !! uid, users st !! uid with
            | Some u', Some u => userId u' = userId u /\ isAdmin u' = isAdmin u
            | None, None => True
            | _, _ => False
            end).
  { intros st' k u u' Hk Hid Had ->. destruct (decide (k = uid)) as [->|Hne].
    - rewrite lookup_insert_eq, Hk. auto.
    - rewrite lookup_insert_ne by exact Hne. destruct (users st !! uid); auto. }
  destruct r; simpl.
  - apply Hsame. unfold api_seats, withUser. destruct (users st !! caller); [|reflexivity].
    destruct date; reflexivity.
  - unfold api_leave, withUser. destruct (users st !! caller) as [user|] eqn:Hu;
      [|now apply Hsame].
    destruct date as [date|]; [|now apply Hsame]. cbn [fst].
    destruct (List.find _ (leaves st)); [now apply Hsame|].
    destruct (truthySeat (designatedSeatId user)); [|now apply Hsame].
    eapply Hins; [exact Hu| | |reflexivity]; reflexivity.
  - apply Hsame. unfold api_lock, withUser.
    destruct (users st !! caller) as [user|]; [|reflexivity].
    destruct date as [date|]; [|reflexivity].
    destruct (validateSeatIds st seatIds); [reflexivity|].
    destruct (isWeekend date || isHoliday st date); [reflexivity|].
    destruct (validateBookingPolicy st clk user date seatIds); [reflexivity|].
    destruct (lockCheck _ user date (tsCheck clk) seatIds); reflexivity.
  - apply Hsame. unfold api_unlock, withUser. destruct (users st !! caller); [|reflexivity].
    destruct date; [|reflexivity]. destruct (validateSeatIds st seatIds); reflexivity.
  - apply Hsame. unfold api_book, withUser.
    destruct (users st !! caller) as [user|]; [|reflexivity].
    destruct date as [date|]; [|reflexivity].
    destruct (validateSeatIds st seatIds); [reflexivity|].
    destruct (MAX_SEATS_PER_BOOKING <? Z.of_nat (length seatIds)); [reflexivity|].
    destruct (validateBookingPolicy st clk user date seatIds); [reflexivity|].
    destruct (bookCheck _ user date (tsCheck clk) seatIds); [reflexivity|].
    cbn [fst].
    now destruct (commit_frame user date (tsCommit clk) seatIds
                    (clearExpiredLocksForDate (tsPurge clk) date st)) as (-> & _).
  - apply Hsame. unfold api_cancel, withUser.
    destruct (users st !! caller) as [user|]; [|reflexivity].
    destruct date as [date|]; [|reflexivity].
    destruct (validateSeatIds st seatIds); [reflexivity|].
    destruct (truthyFound _); reflexivity.
  - unfold api_user_batch, withUser.
    destruct (users st !! caller) as [user|] eqn:Hu; [|now apply Hsame].
    destruct (truthyStr newBatch) as [nb|]; [|now apply Hsame].
    destruct (negb (isBatchName nb)); [now apply Hsame|].
    destruct (existsb _ (bookings st)); [now apply Hsame|].
    eapply Hins; [exact Hu| | |reflexivity]; reflexivity.
  - apply Hsame. unfold api_admin_reset, withAdmin, withUser.
    destruct (users st !! caller) as [user|]; [|reflexivity].
    destruct (negb (isAdmin user)); reflexivity.
  - apply Hsame. unfold api_admin_force_cancel, withAdmin, withUser.
    destruct (users st !! caller) as [user|]; [|reflexivity].
    destruct (negb (isAdmin user)); [reflexivity|].
    destruct date as [date|]; [|reflexivity]. destruct seat as [seat|]; [|reflexivity].
    destruct (negb (truthyNum seat)); reflexivity.
  - apply Hsame. unfold api_admin_batch_schedule, withAdmin, withUser.
    destruct (users st !! caller) as [user|]; [|reflexivity].
    destruct (negb (isAdmin user)); [reflexivity|]. destruct schedule; reflexivity.
  - apply Hsame. unfold api_admin_seat_type, withAdmin, withUser, updateSeatDefinition.
    destruct (users st !! caller) as [user|]; [|reflexivity].
    destruct (negb (isAdmin user)); [reflexivity|].
    destruct seat as [seat|]; [|reflexivity]. destruct newType as [ty|]; [|reflexivity].
    destruct (negb (truthyNum seat)); [reflexivity|].
    destruct (getSeatDefinition st seat); [|reflexivity].
    destruct (findIndex _ (seatDefinitions st)); reflexivity.
  - unfold api_admin_assign_seat, withAdmin, withUser, updateSeatDefinition.
    destruct (users st !! caller) as [user|]; [|now apply Hsame].
    destruct (negb (isAdmin user)); [now apply Hsame|].
    destruct (truthyStr uid0) as [u|]; [|now apply Hsame].
    destruct seat as [seat|]; [|now apply Hsame].
    destruct (negb (truthyNum seat)); [now apply Hsame|].
    destruct (getSeatDefinition st seat); [|now apply Hsame].
    destruct (users st !! u) as [target|] eqn:Ht; [|now apply Hsame].
    cbn [fst].
    destruct (findIndex _ (seatDefinitions st));
      (eapply Hins; [exact Ht| | |reflexivity]; reflexivity).
  - apply Hsame. unfold api_admin_holidays, withAdmin, withUser.
    destruct (users st !! caller) as [user|]; [|reflexivity].
    destruct (negb (isAdmin user)); [reflexivity|].
    destruct date; [|reflexivity]. destruct markHoliday as [[|]|]; reflexivity.
Qed.

(** No request creates or deletes a user, renames one or touches the
    administrator flag: after any request the same ids are known, each
    with the user id and the flag it had. *)
Theorem users_are_stable (st : State) (clk : Clock) (caller : UserId) (r : Request)
    (uid : UserId) :
  match users (fst (handle st clk caller r)) !! uid, users st !! uid with
  | Some u', Some u => userId u' = userId u /\ isAdmin u' = isAdmin u
  | None, None => True
  | _, _ => False
  end.
Proof. exact (handle_users_stable st clk caller r uid). Qed.

(** ** Cycles, attendance and the rotation *)

(** The cycle of a date is a window of fourteen days that starts on a
    Monday and contains the date. *)
Theorem cycle_shape (d : Z) :
  let '(start, end_) := getCycleBounds d in
  end_ = start + 13 /\ format_ddd start = Mon /\ start <= d <= end_ /\
  (start = startOfIsoWeek d \/ start = startOfIsoWeek d - 7).
Proof.
  rewrite getCycleBounds_monday. pose proof (startOfIsoWeek_bounds d) as Hb.
  assert (Hmon : forall k, format_ddd (startOfIsoWeek d + k * 7) = Mon).
  { intros k. unfold format_ddd, day. pose proof (thursday_of_week d) as Ht.
    replace (startOfIsoWeek d + k * 7 + 4) with (1 + ((d + 3) / 7 + k) * 7) by lia.
    rewrite Z.mod_add by lia. reflexivity. }
  destruct (isoWeek d mod 2 =? 1).
  - repeat split; try lia.
    specialize (Hmon 0). now rewrite Z.add_0_r in Hmon.
  - repeat split; try lia. exact (Hmon (-1)).
Qed.

(** What the attendance count of a user for a date leaves out: it is
    zero exactly when the user holds no booking for a date of the cycle,
    and bookings of other users and bookings for dates outside the cycle,
    when added to the store, do not change it. *)
Theorem attendance_ignores_other_bookings (st : State) (uid : UserId) (d : Z) :
  0 <= getAttendanceCountForCycle st uid d /\
  (getAttendanceCountForCycle st uid d = 0 <->
   forall x, fst (getCycleBounds d) <= x <= snd (getCycleBounds d) ->
             ~ hasBookingOn st uid x) /\
  (forall extra,
     (forall b, In b extra ->
        b_userId b <> uid \/
        b_date b < fst (getCycleBounds d) \/ snd (getCycleBounds d) < b_date b) ->
     getAttendanceCountForCycle (set_bookings st (bookings st ++ extra)) uid d
     = getAttendanceCountForCycle st uid d).
Proof.
  assert (Hspec : forall s x, x ∈ attendanceDays s uid d <->
            fst (getCycleBounds d) <= x <= snd (getCycleBounds d) /\ hasBookingOn s uid x).
  { intros s x. rewrite attendanceDays_spec. now destruct (getCycleBounds d). }
  unfold getAttendanceCountForCycle. split; [lia|]. split.
  - split.
    + intros Hz x Hr Hb.
      assert (Hsize : size (attendanceDays st uid d) = 0%nat) by lia.
      apply size_empty_iff in Hsize.
      apply (not_elem_of_empty (C := gset Z) x). rewrite <- Hsize. apply Hspec. auto.
    + intros Hnone.
      assert (Hempty : attendanceDays st uid d = ∅).
      { apply set_eq. intros x. rewrite Hspec. split.
        - intros [Hr Hb]. exfalso. exact (Hnone x Hr Hb).
        - intros Hx. exfalso. exact (not_elem_of_empty x Hx). }
      rewrite Hempty, size_empty. reflexivity.
  - intros extra Hextra. f_equal. f_equal. apply set_eq. intros x.
    rewrite !Hspec, hasBookingOn_app. split.
    + intros [Hr [Hb|(b & Hin & Hu & Hd)]]; [auto|].
      exfalso. destruct (Hextra b Hin) as [Hne|Hout]; [contradiction|lia].
    + intros [Hr Hb]. auto.
Qed.

(** A booking of Bob does not change Alice's count. *)
Lemma attendance_ignores_other_bookings_witness :
  getAttendanceCountForCycle
    (set_bookings officeStale (bookings officeStale ++ [mkBooking wednesday 43 "bob2" 9]))
    "alice1" wednesday
  = getAttendanceCountForCycle officeStale "alice1" wednesday.
Proof.
  apply (proj2 (proj2 (attendance_ignores_other_bookings officeStale "alice1" wednesday))).
  intros b [<-|[]]. left. discriminate.
Defined.

Lemma default_schedule_lookup :
  DEFAULT_BATCH_SCHEDULE !! "batch1" = Some (mkSchedule [Mon; Tue; Wed] [Thu; Fri]) /\
  DEFAULT_BATCH_SCHEDULE !! "batch2" = Some (mkSchedule [Thu; Fri] [Mon; Tue; Wed]).
Proof. split; vm_compute; reflexivity. Qed.

(** With the default rotation every working day belongs to exactly one of
    the two batches, and the weekend to neither; the two batches swap
    their days between odd and even ISO weeks: batch 1 has Monday to
    Wednesday of odd weeks and Thursday and Friday of even weeks. *)
Theorem default_rotation_partitions_week (st : State) (d : Z) :
  batchSchedule st = DEFAULT_BATCH_SCHEDULE ->
  (isWeekend d = true ->
     isBatchScheduledOnDate st "batch1" d = false /\
     isBatchScheduledOnDate st "batch2" d = false) /\
  (isWeekend d = false ->
     isBatchScheduledOnDate st "batch2" d = negb (isBatchScheduledOnDate st "batch1" d)) /\
  isBatchScheduledOnDate st "batch1" d =
    match getWeekType d, getDayName d with
    | weekOne, (Mon | Tue | Wed) => true
    | weekTwo, (Thu | Fri) => true
    | _, _ => false
    end.
Proof.
  intros Hs. unfold isBatchScheduledOnDate, isWeekend, getDayName, format_ddd.
  rewrite Hs. destruct default_schedule_lookup as [-> ->].
  pose proof (Z.mod_pos_bound (d + 4) 7 ltac:(lia)) as Hday.
  unfold day. remember ((d + 4) mod 7) as k eqn:Hk. clear Hk.
  assert (Hcases : k = 0 \/ k = 1 \/ k = 2 \/ k = 3 \/ k = 4 \/ k = 5 \/ k = 6) by lia.
  destruct (getWeekType d);
    destruct Hcases as [->|[->|[->|[->|[->|[->| ->]]]]]]; simpl;
    repeat split; intros; try reflexivity; try discriminate.
Qed.

Lemma default_rotation_partitions_week_witness :
  isBatchScheduledOnDate office "batch2" wednesday =
  negb (isBatchScheduledOnDate office "batch1" wednesday).
Proof.
  apply (proj1 (proj2 (default_rotation_partitions_week office wednesday eq_refl))).
  vm_compute. reflexivity.
Defined.

(** ** Confirmation: when it succeeds, and undoing it *)

(** A confirm request that passes the seat-id, size and policy checks
    succeeds exactly when no listed seat is booked for the date and the
    first lock of each listed seat that survived the purge, if there is
    one, is the caller's and live at the check.  Holding a lock is not
    required: seats without any lock are confirmed as well.  On success
    one booking per listed seat is appended, stamped with the commit
    time, every lock of a listed seat for the date is dropped, and nothing
    else changes. *)
Theorem confirm_succeeds_iff (st : State) (clk : Clock) (caller : UserId) (user : User)
    (date : Date) (seatIds : list Z) :
  users st !! caller = Some user ->
  validateSeatIds st seatIds = None ->
  Z.of_nat (length seatIds) <= MAX_SEATS_PER_BOOKING ->
  validateBookingPolicy st clk user date seatIds = None ->
  let st1 := clearExpiredLocksForDate (tsPurge clk) date st in
  let r := api_book st clk caller (Some date) seatIds in
  (snd r = RespOk MsgBookingSuccessful seatIds <->
   forall s, In s seatIds ->
     ~ bookedOn st date s /\
     forall l, findLock st1 date s = Some l ->
               l_userId l = userId user /\ tsCheck clk < lockExpiry l) /\
  ((forall s, In s seatIds -> ~ bookedOn st date s /\ findLock st1 date s = None) ->
   snd r = RespOk MsgBookingSuccessful seatIds) /\
  (snd r = RespOk MsgBookingSuccessful seatIds ->
   bookings (fst r) =
     bookings st ++ List.map (fun s => mkBooking date s (userId user) (tsCommit clk)) seatIds /\
   locks (fst r) =
     List.filter (fun l => negb ((l_date l =? date) && existsb (Z.eqb (l_seatId l)) seatIds))
                 (locks st1) /\
   users (fst r) = users st /\ leaves (fst r) = leaves st /\
   seatDefinitions (fst r) = seatDefinitions st).
Proof.
  intros Hu Hv Hmax Hpol. cbv zeta.
  set (st1 := clearExpiredLocksForDate (tsPurge clk) date st).
  assert (Hr : api_book st clk caller (Some date) seatIds =
               match bookCheck st1 user date (tsCheck clk) seatIds with
               | Some msg => (st1, RespErr 400 msg)
               | None => (fold_left (commitSeat user date (tsCommit clk)) seatIds st1,
                          RespOk MsgBookingSuccessful seatIds)
               end).
  { unfold api_book, withUser. rewrite Hu, Hv, Hpol.
    now replace (MAX_SEATS_PER_BOOKING <? Z.of_nat (length seatIds)) with false
      by (symmetry; apply Z.ltb_ge, Hmax). }
  rewrite Hr.
  assert (Hiff : bookCheck st1 user date (tsCheck clk) seatIds = None <->
                 forall s, In s seatIds ->
                   ~ bookedOn st date s /\
                   forall l, findLock st1 date s = Some l ->
                             l_userId l = userId user /\ tsCheck clk < lockExpiry l).
  { rewrite bookCheck_none_iff. split; intros H s Hs; destruct (H s Hs) as [Hb Hl]; split.
    - now apply findBooking_none_iff.
    - intros l Hfl. destruct (Hl l Hfl) as [Ho He]. split; [now apply String.eqb_eq|exact He].
    - now apply (findBooking_none_iff st).
    - intros l Hfl. destruct (Hl l Hfl) as [Ho He]. split; [now apply String.eqb_eq|exact He]. }
  split; [|split].
  - rewrite <- Hiff. destruct (bookCheck st1 user date (tsCheck clk) seatIds); simpl;
      split; intros H; try reflexivity; discriminate.
  - intros Hfree.
    assert (Hc : bookCheck st1 user date (tsCheck clk) seatIds = None).
    { apply Hiff. intros s Hs. destruct (Hfree s Hs) as [Hb Hn]. split; [exact Hb|].
      intros l Hl. congruence. }
    now rewrite Hc.
  - destruct (bookCheck st1 user date (tsCheck clk) seatIds); [discriminate|].
    intros _. cbn [fst]. rewrite commit_bookings, commit_locks.
    destruct (commit_frame user date (tsCommit clk) seatIds st1) as (H1 & H2 & H3 & _).
    cbv zeta in H1, H2, H3. rewrite H1, H2, H3. repeat split.
Qed.

Lemma confirm_succeeds_iff_witness :
  snd (api_book office morning "alice1" (Some wednesday) [41; 42]) =
  RespOk MsgBookingSuccessful [41; 42].
Proof.
  apply (proj1 (proj2 (confirm_succeeds_iff office morning "alice1" alice wednesday [41; 42]
                  ltac:(vm_compute; reflexivity) ltac:(vm_compute; reflexivity)
                  ltac:(vm_compute; discriminate) ltac:(vm_compute; reflexivity)))).
  intros s _. split; [|reflexivity]. intros (b & [] & _).
Defined.

(** Confirm, then cancel: after a successful confirm request with
    positive seat ids, the caller's cancellation of the same seats for the
    date succeeds and the bookings are again those from before the
    confirmation; the locks are as the confirmation left them. *)
Theorem confirm_then_cancel (st st2 : State) (clk : Clock) (caller : UserId) (user : User)
    (date : Date) (seatIds : list Z) (m : Message) (bs : list Z) :
  users st !! caller = Some user ->
  Forall (fun s => 0 < s) seatIds ->
  api_book st clk caller (Some date) seatIds = (st2, RespOk m bs) ->
  snd (api_cancel st2 caller (Some date) seatIds) = RespOk MsgBookingCancelled [] /\
  bookings (fst (api_cancel st2 caller (Some date) seatIds)) = bookings st /\
  locks (fst (api_cancel st2 caller (Some date) seatIds)) = locks st2.
Proof.
  intros Hu Hpos Hok.
  assert (Hinv : validateSeatIds st seatIds = None /\
                 bookCheck (clearExpiredLocksForDate (tsPurge clk) date st) user date
                   (tsCheck clk) seatIds = None /\
                 st2 = fold_left (commitSeat user date (tsCommit clk)) seatIds
                         (clearExpiredLocksForDate (tsPurge clk) date st)).
  { revert Hok. unfold api_book, withUser. rewrite Hu.
    destruct (validateSeatIds st seatIds); [discriminate|].
    destruct (MAX_SEATS_PER_BOOKING <? Z.of_nat (length seatIds)); [discriminate|].
    destruct (validateBookingPolicy st clk user date seatIds); [discriminate|].
    destruct (bookCheck _ user date (tsCheck clk) seatIds); [discriminate|].
    intros H. injection H as <- _ _. auto. }
  destruct Hinv as (Hv & Hc & ->).
  set (st1 := clearExpiredLocksForDate (tsPurge clk) date st) in *.
  destruct (commit_frame user date (tsCommit clk) seatIds st1) as (Hus & Hsd & _).
  cbv zeta in Hus, Hsd. change (users st1) with (users st) in Hus.
  pose proof (commit_bookings user date (tsCommit clk) seatIds st1) as Hb.
  pose proof (commit_locks user date (tsCommit clk) seatIds st1) as Hl.
  set (st2 := fold_left (commitSeat user date (tsCommit clk)) seatIds st1) in *.
  change (bookings st1) with (bookings st) in Hb.
  assert (Hold : forall b, In b (bookings st) ->
            (b_date b =? date) && existsb (Z.eqb (b_seatId b)) seatIds
            && String.eqb (b_userId b) (userId user) = false).
  { intros b Hin.
    destruct ((b_date b =? date) && existsb (Z.eqb (b_seatId b)) seatIds) eqn:Hk;
      [|reflexivity].
    apply andb_true_iff in Hk as [Hd Hs]. apply Z.eqb_eq in Hd.
    apply existsb_eqb_In in Hs.
    pose proof (bookCheck_none st1 user date (tsCheck clk) seatIds Hc _ Hs) as Hn.
    exfalso. apply (findBooking_none_key st1 date (b_seatId b) Hn).
    apply in_map_iff. exists b. split; [|exact Hin]. unfold bookingKey. now rewrite Hd. }
  assert (Hnew : forall b,
            In b (List.map (fun s => mkBooking date s (userId user) (tsCommit clk)) seatIds) ->
            (b_date b =? date) && existsb (Z.eqb (b_seatId b)) seatIds
            && String.eqb (b_userId b) (userId user) = true).
  { intros b Hin. apply in_map_iff in Hin as (s & <- & Hs). simpl.
    rewrite Z.eqb_refl, String.eqb_refl, andb_true_r. simpl. now apply existsb_eqb_In. }
  unfold api_cancel, withUser. rewrite Hus, Hu.
  rewrite (validateSeatIds_same st2 st) by exact Hsd. rewrite Hv.
  rewrite truthyFound_positive by exact Hpos.
  assert (Hnone : List.find (fun seatId => negb (ownsBooking st2 user date seatId)) seatIds
                  = None).
  { apply find_none_filter_nil, filter_none. intros s Hs. apply negb_false_iff.
    apply ownsBooking_true. exists (mkBooking date s (userId user) (tsCommit clk)).
    split; [|auto]. rewrite Hb. apply in_or_app. right. apply in_map_iff. eauto. }
  rewrite Hnone. cbn [fst snd]. split; [reflexivity|]. split.
  - simpl. rewrite Hb, List.filter_app.
    rewrite (filter_all _ (bookings st)), filter_none, app_nil_r; [reflexivity| |].
    + intros b Hin. now rewrite (Hnew b Hin).
    + intros b Hin. now rewrite (Hold b Hin).
  - simpl. apply filter_all. intros l Hin. rewrite Hl in Hin.
    apply filter_In in Hin as [_ Hk]. apply negb_true_iff in Hk.
    now rewrite Hk.
Qed.

Lemma confirm_then_cancel_witness :
  bookings (fst (api_cancel (fst (api_book officeStale morning "alice1"
                                    (Some wednesday) [41; 43]))
                   "alice1" (Some wednesday) [41; 43])) = bookings officeStale.
Proof.
  apply (confirm_then_cancel officeStale _ morning "alice1" alice wednesday [41; 43]
           MsgBookingSuccessful [41; 43]).
  - vm_compute. reflexivity.
  - repeat constructor.
  - vm_compute. reflexivity.
Defined.

(** ** The client and the server *)

Lemma checkSeatOwnership_messages (st : State) (user : User) (d : Date) (b : bool)
    (seatIds : list Z) (m : Message) :
  checkSeatOwnership st user d b seatIds = Some m ->
  (exists s, m = MsgSeatNotExist s) \/ (exists s, m = MsgNotAssigned s) \/ m = MsgBatchDays.
Proof.
  induction seatIds as [|s rest IH]; simpl; [discriminate|].
  destruct (getSeatDefinition st s) as [def|]; [|intros H; injection H as <-; eauto].
  destruct (type def); [|exact IH].
  destruct (truthyStr (assignedTo def)) as [owner|]; [|exact IH].
  destruct (isUserOnLeave st owner d); [exact IH|].
  destruct (negb (String.eqb owner (userId user))); [intros H; injection H as <-; eauto|].
  destruct (negb b); [intros H; injection H as <-; auto|exact IH].
Qed.

(** The policy summary that the server sends with the seats foretells
    the first two rules of the policy check for the same user and date:
    its weekend-or-holiday flag is set exactly when the check answers
    with the closed-day message, and otherwise its leave flag is set
    exactly when the check answers with the leave message.  So when the
    confirm button of the client is enabled for a summary, a confirm
    request is not turned away for one of these two reasons, and the text
    shown for the day is "closed" or "on leave" exactly in these cases.
    The floater-only flag is the batch-day flag negated on an open day. *)
Theorem summary_foretells_policy (st : State) (clk : Clock) (user : User) (d : Date)
    (seatIds selected : list Z) :
  let p := buildPolicySummary st user d in
  let verdict := validateBookingPolicy st clk user d seatIds in
  (isWeekendOrHoliday p = true <-> verdict = Some MsgWeekendHoliday) /\
  (isWeekendOrHoliday p = false /\ onLeave p = true <-> verdict = Some MsgOnLeave) /\
  (isConfirmDisabled selected false false (Some p) = false ->
     selected <> [] /\ verdict <> Some MsgWeekendHoliday /\ verdict <> Some MsgOnLeave) /\
  (allowedTodayText (Some p) = TextClosed <-> verdict = Some MsgWeekendHoliday) /\
  (allowedTodayText (Some p) = TextOnLeave <-> verdict = Some MsgOnLeave) /\
  isFloaterOnlyDay p = negb (isBatchDay p) && negb (isWeekendOrHoliday p) /\
  canUseDesignatedToday p = isBatchScheduledOnDate st (batch user) d.
Proof.
  cbv zeta.
  assert (H1 : isWeekendOrHoliday (buildPolicySummary st user d) = true <->
               validateBookingPolicy st clk user d seatIds = Some MsgWeekendHoliday).
  { unfold buildPolicySummary, validateBookingPolicy. simpl.
    destruct (isWeekend d || isHoliday st d); [tauto|].
    split; [discriminate|].
    destruct (isUserOnLeave st (userId user) d); [discriminate|].
    destruct ((d =? today clk + 1) && (hour clk <? 15)); [discriminate|].
    intros H. apply checkSeatOwnership_messages in H as [[s H]|[[s H]|H]]; discriminate. }
  assert (H2 : isWeekendOrHoliday (buildPolicySummary st user d) = false /\
               onLeave (buildPolicySummary st user d) = true <->
               validateBookingPolicy st clk user d seatIds = Some MsgOnLeave).
  { unfold buildPolicySummary, validateBookingPolicy. simpl.
    destruct (isWeekend d || isHoliday st d); [split; [intros [? _]|]; discriminate|].
    destruct (isUserOnLeave st (userId user) d); [tauto|].
    split; [intros [_ ?]; discriminate|].
    destruct ((d =? today clk + 1) && (hour clk <? 15)); [discriminate|].
    intros H. apply checkSeatOwnership_messages in H as [[s H]|[[s H]|H]]; discriminate. }
  split; [exact H1|]. split; [exact H2|]. split; [|split; [|split; [|split]]].
  - unfold isConfirmDisabled. rewrite !orb_false_r. intros H.
    apply orb_false_iff in H as [Hlen Hpol]. apply orb_false_iff in Hpol as [Hw Hl].
    split; [|split].
    + intros ->. discriminate.
    + intros Hv. apply H1 in Hv. congruence.
    + intros Hv. apply H2 in Hv as [_ Hv]. congruence.
  - rewrite <- H1. unfold allowedTodayText.
    destruct (isWeekendOrHoliday _); [tauto|].
    destruct (onLeave _); [split; discriminate|].
    destruct (isBatchDay _); split; discriminate.
  - rewrite <- H2. unfold allowedTodayText.
    destruct (isWeekendOrHoliday _); [split; [|intros [? _]]; discriminate|].
    destruct (onLeave _); [tauto|].
    destruct (isBatchDay _); split; try discriminate; intros [_ ?]; discriminate.
  - reflexivity.
  - reflexivity.
Qed.

Lemma summary_foretells_policy_witness :
  validateBookingPolicy office morning alice (wednesday + 3) [41] = Some MsgWeekendHoliday.
Proof.
  apply (proj1 (summary_foretells_policy office morning alice (wednesday + 3) [41] [41])).
  vm_compute. reflexivity.
Defined.

(** What a view of the projection looks like. *)
Lemma projection_view_cases (clk : Clock) (d : Date) (st : State) (v : SeatView) :
  In v (snd (getSeatStateForDate clk d st)) ->
  let st1 := clearExpiredLocksForDate (tsPurge clk) d st in
  let liveLock :=
    List.find (fun l => (l_date l =? d) && (l_seatId l =? v_seatId v)
                        && (tsCheck clk <? lockExpiry l)) (locks st1) in
  (exists b, findBooking st d (v_seatId v) = Some b /\
             v_status v = occupied /\ v_bookedBy v = Some (b_userId b) /\
             v_lockedBy v = None) \/
  (findBooking st d (v_seatId v) = None /\
   exists l, liveLock = Some l /\
             In l (locks st) /\ l_date l = d /\ l_seatId l = v_seatId v /\
             tsPurge clk < lockExpiry l /\ tsCheck clk < lockExpiry l /\
             v_status v = locked /\ v_lockedBy v = Some (l_userId l) /\
             v_bookedBy v = None) \/
  (findBooking st d (v_seatId v) = None /\ liveLock = None /\ v_status v = available /\
   v_bookedBy v = None /\ v_lockedBy v = None).
Proof.
  intros Hin. cbv zeta. unfold getSeatStateForDate in Hin. cbn [snd] in Hin.
  apply list_elem_of_In, elem_of_lookup_imap in Hin as (i & def & -> & _).
  rewrite projectSeat_seatId. unfold projectSeat.
  change (findBooking (clearExpiredLocksForDate (tsPurge clk) d st) d (seatId def))
    with (findBooking st d (seatId def)).
  destruct (findBooking st d (seatId def)) as [b|]; [left; exists b; auto|].
  destruct (List.find _ _) as [l|] eqn:Hl; [|right; right; auto].
  right. left. split; [reflexivity|]. exists l.
  apply find_some in Hl as [Hinl Hp].
  apply andb_true_iff in Hp as [Hp He]. apply andb_true_iff in Hp as [Hd Hs].
  apply Z.eqb_eq in Hd, Hs. apply Z.ltb_lt in He.
  simpl in Hinl. apply filter_In in Hinl as [Hinl Hk].
  rewrite Hd, Z.eqb_refl in Hk. simpl in Hk. apply Z.ltb_lt in Hk.
  simpl. auto 12.
Qed.

(* The styles of [SeatGrid] and the availability loop of the lock
   handler. *)
Lemma seat_grid_disables_loop (clk : Clock) (d : Date) (st : State) (user : User)
    (selected : list Z) (seat : SeatWithUserFlags) :
  (isDisabled (userId user) seat = true <->
   getSeatStyles (userId user) selected seat = StyleOccupied \/
   getSeatStyles (userId user) selected seat = StyleLockedByOther) /\
  (tsPurge clk = tsCheck clk -> holdersNamed st ->
   In (f_seat seat) (snd (getSeatStateForDate clk d st)) ->
   (isDisabled (userId user) seat = true <->
    lockCheck (clearExpiredLocksForDate (tsPurge clk) d st) user d (tsCheck clk)
      [v_seatId (f_seat seat)] <> None /\
    v_bookedBy (f_seat seat) <> Some (userId user))).
Proof.
  split.
  - unfold isDisabled, getSeatStyles, isOccupied, lockedByOther.
    destruct (v_status (f_seat seat)); simpl;
      destruct (isUser (v_bookedBy (f_seat seat)) (userId user)); simpl;
      try (destruct (truthyStr (v_lockedBy (f_seat seat))) as [h|];
           [destruct (String.eqb h (userId user))|]; simpl);
      destruct (isSelected selected (v_seatId (f_seat seat)));
      destruct (v_type (f_seat seat));
      (split; [intros H; try discriminate H; auto
              |intros [H|H]; try discriminate H; reflexivity]).
  - intros Hclk Hnamed Hin.
    pose proof (projection_view_cases clk d st (f_seat seat) Hin) as Hcases.
    cbv zeta in Hcases. rewrite <- Hclk in *. rewrite purged_findLock_live in Hcases.
    unfold isDisabled, isOccupied, lockedByOther. simpl.
    destruct Hcases as [(b & Hb & Hs & Hbb & Hlb)|[(Hb & l & Hl & Hinl & _ & _ & He & _ & Hs & Hlb & Hbb)
                                                  |(Hb & Hl & Hs & Hbb & Hlb)]].
    + change (findBooking (clearExpiredLocksForDate (tsPurge clk) d st) d
                (v_seatId (f_seat seat))) with (findBooking st d (v_seatId (f_seat seat))).
      rewrite Hb, Hs, Hbb. simpl.
      destruct (String.eqb_spec (b_userId b) (userId user)) as [He|He]; simpl.
      * split; [discriminate|]. intros [_ Hne]. congruence.
      * split; [|reflexivity]. intros _. split; [discriminate|congruence].
    + change (findBooking (clearExpiredLocksForDate (tsPurge clk) d st) d
                (v_seatId (f_seat seat))) with (findBooking st d (v_seatId (f_seat seat))).
      rewrite Hb, Hl, Hs, Hlb, Hbb. simpl.
      replace (String.eqb (l_userId l) EmptyString) with false
        by (symmetry; apply String.eqb_neq, Hnamed, Hinl).
      replace (tsPurge clk <? lockExpiry l) with true by (symmetry; apply Z.ltb_lt, He).
      rewrite andb_true_r.
      destruct (String.eqb (l_userId l) (userId user)); simpl.
      * split; [discriminate|]. intros [Hne _]. congruence.
      * split; [|reflexivity]. intros _. split; discriminate.
    + change (findBooking (clearExpiredLocksForDate (tsPurge clk) d st) d
                (v_seatId (f_seat seat))) with (findBooking st d (v_seatId (f_seat seat))).
      rewrite Hb, Hl, Hs. simpl. split; [discriminate|]. intros [Hne _]. congruence.
Qed.

(** [SeatGrid] disables a seat exactly when it paints it with one of the
    two "not allowed" styles.  On the seats that the server projects for a
    date at one instant, every lock naming its holder (as the locks of
    every state that a run reaches do): the disabled seats are exactly
    those at which the availability loop of the lock handler stops for
    the viewer at that instant, the viewer's own booked seats excepted,
    which stay enabled although the loop stops at them as already booked;
    and a lock request of the viewer for a disabled seat is rejected.
    The policy checks that the handler makes before the loop are not
    reflected in the grid. *)
Theorem seat_grid_disables (clk : Clock) (d : Date) (st : State) (user : User)
    (selected : list Z) (seat : SeatWithUserFlags) :
  (isDisabled (userId user) seat = true <->
   getSeatStyles (userId user) selected seat = StyleOccupied \/
   getSeatStyles (userId user) selected seat = StyleLockedByOther) /\
  (tsPurge clk = tsCheck clk -> holdersNamed st ->
   In (f_seat seat) (snd (getSeatStateForDate clk d st)) ->
   (isDisabled (userId user) seat = true <->
    lockCheck (clearExpiredLocksForDate (tsPurge clk) d st) user d (tsCheck clk)
      [v_seatId (f_seat seat)] <> None /\
    v_bookedBy (f_seat seat) <> Some (userId user))) /\
  (tsPurge clk = tsCheck clk -> holdersNamed st ->
   In (f_seat seat) (snd (getSeatStateForDate clk d st)) ->
   isDisabled (userId user) seat = true ->
   forall caller, users st !! caller = Some user ->
     rejected (snd (api_lock st clk caller (Some d) [v_seatId (f_seat seat)]))).
Proof.
  destruct (seat_grid_disables_loop clk d st user selected seat) as [Hstyle Hloop].
  split; [exact Hstyle|]. split; [exact Hloop|].
  intros Hclk Hnamed Hin Hdis caller Hu.
  destruct (proj1 (Hloop Hclk Hnamed Hin) Hdis) as [Hstop _].
  unfold api_lock, withUser. rewrite Hu.
  destruct (validateSeatIds st _); [exact I|].
  destruct (isWeekend d || isHoliday st d); [exact I|].
  destruct (validateBookingPolicy st clk user d _); [exact I|].
  destruct (lockCheck _ user d (tsCheck clk) _); [exact I|contradiction].
Qed.

(** Seat 42 is booked by Bob: it is disabled for Alice, and her lock
    request for it is rejected. *)
Lemma seat_grid_disables_witness :
  let v := mkSeatView 42 "E"%char 2 occupied (Some "bob2") None None floater None in
  isDisabled "alice1" (seatWithUserFlags officeStale alice wednesday v) = true /\
  rejected (snd (api_lock officeStale morning "alice1" (Some wednesday) [42])).
Proof.
  cbv zeta.
  assert (Hnamed : holdersNamed officeStale).
  { intros l Hl. vm_compute in Hl. destruct Hl as [<-|[]]. discriminate. }
  assert (Hin : In (mkSeatView 42 "E"%char 2 occupied (Some "bob2") None None floater None)
                  (snd (getSeatStateForDate morning wednesday officeStale)))
    by (vm_compute; tauto).
  destruct (seat_grid_disables morning wednesday officeStale alice []
              (seatWithUserFlags officeStale alice wednesday
                 (mkSeatView 42 "E"%char 2 occupied (Some "bob2") None None floater None)))
    as (_ & Hloop & Hreq).
  assert (Hdis : isDisabled "alice1"
                   (seatWithUserFlags officeStale alice wednesday
                      (mkSeatView 42 "E"%char 2 occupied (Some "bob2") None None floater None))
                 = true).
  { apply (proj2 (Hloop eq_refl Hnamed Hin)). split; vm_compute; discriminate. }
  split; [exact Hdis|].
  apply (Hreq eq_refl Hnamed Hin Hdis "alice1"). vm_compute. reflexivity.
Defined.

Lemma sublist_List_filter {A} (p : A -> bool) (l : list A) : sublist (List.filter p l) l.
Proof.
  induction l as [|a l IH]; simpl; [constructor|].
  destruct (p a); now constructor.
Qed.

(** The refresh of the selection in the client, on the seats that the
    server returns to the user for a date: every id that stays selected
    was selected before, its seat is not booked, and the user holds a
    lock on it for the date that is live at both clock reads of the
    projection.  The ids keep their order, and filtering again against the
    same seats changes nothing. *)
Theorem selection_refresh (st st1 : State) (clk : Clock) (caller : UserId) (user : User)
    (d : Date) (seats : list SeatWithUserFlags) (policy : PolicySummary) (prev : list Z) :
  users st !! caller = Some user ->
  api_seats st clk caller (Some d) = (st1, RespSeats seats policy) ->
  let kept := keepSelected seats (userId user) prev in
  (forall id, In id kept ->
     In id prev /\ ~ bookedOn st d id /\
     exists l, In l (locks st) /\ l_date l = d /\ l_seatId l = id /\
               l_userId l = userId user /\
               tsPurge clk < lockExpiry l /\ tsCheck clk < lockExpiry l) /\
  sublist kept prev /\
  keepSelected seats (userId user) kept = kept.
Proof.
  intros Hu Hok. cbv zeta.
  unfold api_seats, withUser in Hok. rewrite Hu in Hok. simpl in Hok.
  injection Hok as <- <- _.
  split; [|split].
  - intros id Hin. unfold keepSelected in Hin. apply filter_In in Hin as [Hprev Hkeep].
    split; [exact Hprev|].
    destruct (List.find _ _) as [seat|] eqn:Hf; [|discriminate].
    apply find_some in Hf as [Hseat Hid]. apply Z.eqb_eq in Hid.
    apply in_map_iff in Hseat as (v & <- & Hv). simpl in Hid, Hkeep.
    destruct (projection_view_cases clk d st v Hv)
      as [(b & _ & Hs & _)|[(Hb & l & _ & Hinl & Hd & Hsl & Hp & He & Hs & Hlb & _)
                            |(_ & _ & Hs & _)]];
      rewrite Hs in Hkeep; try discriminate.
    rewrite Hlb in Hkeep. simpl in Hkeep. apply String.eqb_eq in Hkeep.
    rewrite <- Hid. split; [now apply findBooking_none_iff|].
    exists l. auto 10.
  - unfold keepSelected. apply sublist_List_filter.
  - unfold keepSelected. rewrite filter_filter_and. apply filter_ext.
    intros id. apply andb_diag.
Qed.

Lemma selection_refresh_witness :
  let seats := listedSeats (snd (api_seats officeHeld morning "alice1" (Some wednesday))) in
  let kept := keepSelected seats "alice1" [41; 42] in
  (forall id, In id kept ->
     In id [41; 42] /\ ~ bookedOn officeHeld wednesday id /\
     exists l, In l (locks officeHeld) /\ l_date l = wednesday /\ l_seatId l = id /\
               l_userId l = "alice1" /\
               tsPurge morning < lockExpiry l /\ tsCheck morning < lockExpiry l) /\
  sublist kept [41; 42] /\
  keepSelected seats "alice1" kept = kept.
Proof.
  cbv zeta.
  destruct (api_seats officeHeld morning "alice1" (Some wednesday)) as [st1 resp] eqn:Hcall.
  assert (Hresp : exists seats policy, resp = RespSeats seats policy).
  { vm_compute in Hcall. injection Hcall as _ <-. eauto. }
  destruct Hresp as (seats & policy & ->). cbn [snd listedSeats].
  assert (Hu : users officeHeld !! "alice1" = Some alice) by (vm_compute; reflexivity).
  exact (selection_refresh officeHeld st1 morning "alice1" alice wednesday seats policy
           [41; 42] Hu Hcall).
Defined.

(** ** The flags that go with the seats *)

Lemma getSeatDefinition_unique (st : State) (def : SeatDef) :
  NoDup (seatIdsOf st) -> In def (seatDefinitions st) ->
  getSeatDefinition st (seatId def) = Some def.
Proof.
  unfold seatIdsOf, getSeatDefinition.
  induction (seatDefinitions st) as [|a l IH]; simpl; intros Hnd Hin; [contradiction|].
  apply NoDup_cons in Hnd as [Hnotin Hnd].
  destruct Hin as [->|Hin]; [now rewrite Z.eqb_refl|].
  destruct (Z.eqb_spec (seatId a) (seatId def)) as [He|He]; [|auto].
  exfalso. apply Hnotin. rewrite He. apply list_elem_of_In, in_map. exact Hin.
Qed.

(** The flags that [/api/seats] adds to a seat, the seat ids of the
    catalogue being distinct: the seat is flagged as the viewer's own
    exactly when it is a designated seat assigned to the viewer; its
    effective type is "floater" exactly when it is a floater or a
    designated seat whose owner is on leave that day; and a seat shown
    with effective type "floater", or a seat without an owner, passes the
    ownership loop of the policy check for every user. *)
Theorem seat_flags_foretell_ownership (st st1 : State) (clk : Clock) (caller : UserId)
    (user : User) (d : Date) (seats : list SeatWithUserFlags) (policy : PolicySummary)
    (seat : SeatWithUserFlags) :
  users st !! caller = Some user -> NoDup (seatIdsOf st) ->
  api_seats st clk caller (Some d) = (st1, RespSeats seats policy) ->
  In seat seats ->
  let v := f_seat seat in
  f_userId seat = userId user /\
  (isUserDesignatedSeat seat = true <->
     v_type v = designated /\ truthyStr (v_assignedTo v) = Some (userId user)) /\
  (effectiveType seat = floater <->
     v_type v = floater \/
     exists owner, truthyStr (v_assignedTo v) = Some owner /\
                   isUserOnLeave st owner d = true) /\
  (effectiveType seat = floater \/ truthyStr (v_assignedTo v) = None ->
     forall other b, checkSeatOwnership st other d b [v_seatId v] = None) /\
  policy = buildPolicySummary st user d.
Proof.
  intros Hu Hnd Hok Hin. cbv zeta.
  unfold api_seats, withUser in Hok. rewrite Hu in Hok. simpl in Hok.
  injection Hok as <- <- <-.
  apply in_map_iff in Hin as (v & <- & Hv).
  unfold getSeatStateForDate in Hv. cbn [snd] in Hv.
  apply list_elem_of_In, elem_of_lookup_imap in Hv as (i & def & -> & Hdef).
  assert (Hget : getSeatDefinition st (seatId def) = Some def).
  { apply getSeatDefinition_unique; [exact Hnd|].
    apply list_elem_of_In, list_elem_of_lookup. eauto. }
  assert (Hty : v_type (projectSeat (clearExpiredLocksForDate (tsPurge clk) d st)
                          (tsCheck clk) d i def) = type def /\
                v_assignedTo (projectSeat (clearExpiredLocksForDate (tsPurge clk) d st)
                                (tsCheck clk) d i def) = assignedTo def).
  { unfold projectSeat. destruct (findBooking _ d (seatId def)); [auto|].
    destruct (List.find _ _); auto. }
  destruct Hty as [Hty Has].
  unfold seatWithUserFlags. cbn [f_seat f_userId isUserDesignatedSeat effectiveType].
  rewrite projectSeat_seatId, Hty, Has.
  change (isUserOnLeave (clearExpiredLocksForDate (tsPurge clk) d st))
    with (isUserOnLeave st).
  split; [reflexivity|]. split; [|split; [|split; [|reflexivity]]].
  - destruct (type def); simpl.
    + destruct (truthyStr (assignedTo def)) as [owner|].
      * rewrite String.eqb_eq. split; [intros ->; auto|intros [_ H]; congruence].
      * split; [discriminate|intros [_ H]; discriminate].
    + split; [discriminate|intros [H _]; discriminate].
  - destruct (type def); simpl.
    + destruct (truthyStr (assignedTo def)) as [owner|].
      * destruct (isUserOnLeave st owner d) eqn:Hl.
        -- split; [eauto|reflexivity].
        -- split; [discriminate|]. intros [H|(o & Ho & Hol)]; [discriminate|].
           injection Ho as <-. congruence.
      * split; [discriminate|]. intros [H|(o & Ho & _)]; discriminate.
    + split; [auto|reflexivity].
  - intros Hfree other b. simpl. rewrite Hget.
    destruct (type def); [|reflexivity].
    destruct (truthyStr (assignedTo def)) as [owner|]; [|reflexivity].
    destruct (isUserOnLeave st owner d); [reflexivity|].
    simpl in Hfree. destruct Hfree; discriminate.
Qed.

Lemma seat_flags_foretell_ownership_witness :
  checkSeatOwnership officeOwnerAway alice wednesday true [1] = None.
Proof.
  destruct (api_seats officeOwnerAway morning "alice1" (Some wednesday))
    as [st1 resp] eqn:Hcall.
  assert (Hresp : exists seat rest policy,
             resp = RespSeats (seat :: rest) policy /\
             v_seatId (f_seat seat) = 1 /\ effectiveType seat = floater).
  { vm_compute in Hcall. injection Hcall as _ <-.
    eexists _, _, _. split; [reflexivity|]. split; reflexivity. }
  destruct Hresp as (seat & rest & policy & -> & Hid & Heff).
  assert (Hu : users officeOwnerAway !! "alice1" = Some alice) by (vm_compute; reflexivity).
  assert (Hnd : NoDup (seatIdsOf officeOwnerAway)).
  { apply NoDup_ListNoDup. vm_compute. repeat constructor; simpl; intuition discriminate. }
  pose proof (seat_flags_foretell_ownership officeOwnerAway st1 morning "alice1" alice
                wednesday (seat :: rest) policy seat Hu Hnd Hcall (or_introl eq_refl))
    as (_ & _ & _ & Hfree & _).
  rewrite <- Hid. apply Hfree. left. exact Heff.
Defined.

(** ** Accounts *)

Lemma allAlnum_app (s1 s2 : string) :
  allAlnum (s1 +:+ s2) = allAlnum s1 && allAlnum s2.
Proof.
  induction s1 as [|c s1 IH]; simpl; [reflexivity|].
  rewrite IH. now rewrite andb_assoc.
Qed.

Lemma allAlnum_keepAlnum (s : string) : allAlnum (keepAlnum s) = true.
Proof.
  induction s as [|c s IH]; simpl; [reflexivity|].
  destruct (isAlnum c) eqn:Hc; simpl; [now rewrite Hc|exact IH].
Qed.

Lemma allAlnum_substring (n m : nat) (s : string) :
  allAlnum s = true -> allAlnum (String.substring n m s) = true.
Proof.
  revert n m. induction s as [|c s IH]; intros n m Hs.
  - destruct n, m; reflexivity.
  - simpl in Hs. apply andb_true_iff in Hs as [Hc Hs].
    destruct n as [|n]; simpl.
    + destruct m as [|m]; [reflexivity|]. simpl. rewrite Hc. now apply IH.
    + now apply IH.
Qed.

Lemma length_substring (m : nat) (s : string) :
  (String.length (String.substring 0 m s) <= m)%nat.
Proof.
  revert s. induction m as [|m IH]; intros [|c s]; simpl; try lia.
  specialize (IH s). lia.
Qed.

Lemma isAlnum_digit (x : N) : isAlnum (pretty_N_char x) = true.
Proof.
  destruct x as [|p]; [reflexivity|].
  do 4 (destruct p as [p|p|]; try reflexivity).
Qed.

Lemma allAlnum_pretty_N_go (x : N) (s : string) :
  allAlnum s = true -> allAlnum (pretty_N_go x s) = true.
Proof.
  revert s. induction (N.lt_wf_0 x) as [x _ IH]. intros s Hs.
  destruct (N.eq_dec x 0%N) as [->|Hx]; [now rewrite pretty_N_go_0|].
  rewrite pretty_N_go_step by lia.
  apply IH; [apply N.div_lt; lia|].
  simpl. now rewrite isAlnum_digit.
Qed.

Lemma allAlnum_pretty (n : nat) : allAlnum (pretty n) = true.
Proof.
  unfold pretty, pretty_nat, pretty, pretty_N.
  destruct (decide (N.of_nat n = 0%N)); [reflexivity|].
  now apply allAlnum_pretty_N_go.
Qed.

Lemma idPrefix_shape (email : string) :
  idPrefix email <> EmptyString /\ allAlnum (idPrefix email) = true /\
  (String.length (idPrefix email) <= 8)%nat.
Proof.
  unfold idPrefix.
  destruct (String.eqb_spec (String.substring 0 8 (keepAlnum (beforeAt email))) EmptyString)
    as [He|Hne].
  - repeat split; [discriminate|simpl; lia].
  - split; [exact Hne|]. split; [|apply length_substring].
    apply allAlnum_substring, allAlnum_keepAlnum.
Qed.

Lemma createUserId_named (st : State) (email : string) :
  createUserId st email <> EmptyString /\ allAlnum (createUserId st email) = true.
Proof.
  unfold createUserId. destruct (idPrefix_shape email) as (Hne & Hal & _). split.
  - destruct (idPrefix email); [contradiction|discriminate].
  - now rewrite allAlnum_app, Hal, allAlnum_pretty.
Qed.

(** The state that a sign-up leaves when it assigns the seat [seat]. *)
Lemma api_signup_success (st st' : State) (acc acc' : Accounts) (token t : string)
    (name email password batch : option string) (seat : option SeatId) (user : User) :
  api_signup st acc token name email password batch seat = (st', acc', AuthOk t user) ->
  exists e b,
    let uid := createUserId st e in
    let st1 := match seat with
               | None => st
               | Some id => updateSeatDefinition st id (fun def =>
                              mkSeatDef (seatId def) designated (Some uid))
               end in
    truthyStr email = Some e /\ truthyStr batch = Some b /\ isBatchName b = true /\
    usersByEmail acc !! e = None /\ t = token /\
    user = mkUser uid b seat 0 false /\
    (forall id, seat = Some id -> getSeatDefinition st id <> None) /\
    st' = set_users st1 (<[uid := user]> (users st)) /\
    acc' = mkAccounts (<[e := uid]> (usersByEmail acc)) (<[token := uid]> (sessions acc)).
Proof.
  unfold api_signup. intros H.
  destruct (truthyStr name); [|discriminate].
  destruct (truthyStr email) as [e|]; [|discriminate].
  destruct (truthyStr password); [|discriminate].
  destruct (truthyStr batch) as [b|]; [|discriminate].
  destruct (isBatchName b) eqn:Hb; [|discriminate]. cbn [negb] in H.
  destruct (usersByEmail acc !! e) eqn:He; [discriminate|].
  exists e, b. cbv zeta.
  destruct seat as [id|].
  - destruct (getSeatDefinition st id) as [def|] eqn:Hdef; [|discriminate].
    destruct (getSeatDefinition_seatId st id def Hdef) as [Hid _].
    injection H as <- <- <- <-. rewrite Hid.
    repeat split; try reflexivity; try assumption.
    + intros id' Hid'. injection Hid' as <-. congruence.
    + f_equal. unfold updateSeatDefinition.
      destruct (findIndex _ (seatDefinitions st)); reflexivity.
  - injection H as <- <- <- <-. repeat split; try reflexivity; try assumption.
    discriminate.
Qed.

(** A successful sign-up: the new user is stored under an id that is
    non-empty and made of letters and digits, is no administrator, has no
    floater leave and one of the two batches; the token that is returned
    resolves to the new user, and so does the email.  A seat named in the
    request becomes the designated seat of the new user, whoever owned it,
    and every other seat definition, the bookings, the locks, the leaves,
    the rotation and the holidays are untouched. *)
Theorem signup_effect (st st' : State) (acc acc' : Accounts) (token t : string)
    (name email password batchName : option string) (seat : option SeatId) (user : User) :
  api_signup st acc token name email password batchName seat = (st', acc', AuthOk t user) ->
  t = token /\
  userId user <> EmptyString /\ allAlnum (userId user) = true /\
  isAdmin user = false /\ floaterLeaveCount user = 0 /\ isBatchName (batch user) = true /\
  designatedSeatId user = seat /\
  users st' !! userId user = Some user /\
  (forall k, k <> userId user -> users st' !! k = users st !! k) /\
  (token <> EmptyString -> getUserByToken st' acc' (Some token) = Some user) /\
  (exists e, truthyStr email = Some e /\ usersByEmail acc !! e = None /\
             usersByEmail acc' !! e = Some (userId user)) /\
  (forall id, seat = Some id ->
     getSeatDefinition st id <> None /\
     getSeatDefinition st' id = Some (mkSeatDef id designated (Some (userId user)))) /\
  (forall s, seat <> Some s -> getSeatDefinition st' s = getSeatDefinition st s) /\
  seatIdsOf st' = seatIdsOf st /\
  bookings st' = bookings st /\ locks st' = locks st /\ leaves st' = leaves st /\
  batchSchedule st' = batchSchedule st /\ holidays st' = holidays st.
Proof.
  intros H. apply api_signup_success in H as (e & b & H). cbv zeta in H.
  destruct H as (He & Hb & Hbn & Hfree & -> & -> & Hseat & -> & ->).
  destruct (createUserId_named st e) as [Hne Hal].
  cbn [userId isAdmin floaterLeaveCount batch designatedSeatId].
  assert (Hkeep : forall x, seatId (mkSeatDef (seatId x) designated (Some (createUserId st e)))
                            = seatId x) by reflexivity.
  repeat split; try assumption; try reflexivity.
  - simpl. apply lookup_insert_eq.
  - intros k Hk. simpl. now rewrite lookup_insert_ne by congruence.
  - intros Ht. unfold getUserByToken. simpl.
    destruct (String.eqb_spec token EmptyString) as [|_]; [contradiction|].
    rewrite lookup_insert_eq. simpl.
    destruct (String.eqb_spec (createUserId st e) EmptyString) as [|_]; [contradiction|].
    apply lookup_insert_eq.
  - exists e. repeat split; [exact He|exact Hfree|]. simpl. apply lookup_insert_eq.
  - now apply Hseat.
  - subst seat. change (getSeatDefinition (set_users ?s ?u)) with (getSeatDefinition s).
    rewrite (find_after_update st id id _ Hkeep), Z.eqb_refl.
    destruct (getSeatDefinition st id) as [def|] eqn:Hdef.
    + destruct (getSeatDefinition_seatId st id def Hdef) as [Hid _].
      simpl. now rewrite Hid.
    + now destruct (Hseat id eq_refl).
  - intros s Hs. destruct seat as [id|]; [|reflexivity].
    change (getSeatDefinition (set_users ?s ?u)) with (getSeatDefinition s).
    rewrite (find_after_update st id s _ Hkeep).
    destruct (Z.eqb_spec s id) as [->|_]; [now destruct Hs|reflexivity].
  - destruct seat as [id|]; [|reflexivity].
    change (seatIdsOf (set_users ?s ?u)) with (seatIdsOf s).
    now apply update_keeps_ids.
  - destruct seat as [id|]; [|reflexivity]. unfold updateSeatDefinition.
    destruct (findIndex _ (seatDefinitions st)); reflexivity.
  - destruct seat as [id|]; [|reflexivity]. unfold updateSeatDefinition.
    destruct (findIndex _ (seatDefinitions st)); reflexivity.
  - destruct seat as [id|]; [|reflexivity]. unfold updateSeatDefinition.
    destruct (findIndex _ (seatDefinitions st)); reflexivity.
  - destruct seat as [id|]; [|reflexivity]. unfold updateSeatDefinition.
    destruct (findIndex _ (seatDefinitions st)); reflexivity.
  - destruct seat as [id|]; [|reflexivity]. unfold updateSeatDefinition.
    destruct (findIndex _ (seatDefinitions st)); reflexivity.
Qed.

Lemma signup_effect_witness :
  getUserByToken (fst (fst firstSignup)) (snd (fst firstSignup)) (Some "t1")
  = Some (mkUser "annlee1" "batch1" (Some 7) 0 false) /\
  getSeatDefinition (fst (fst firstSignup)) 7
  = Some (mkSeatDef 7 designated (Some "annlee1")).
Proof.
  assert (H := signup_effect initialState (fst (fst firstSignup)) noAccounts
                 (snd (fst firstSignup)) "t1" "t1" (Some "Ann") (Some "ann.lee@wissen.com")
                 (Some "secret") (Some "batch1") (Some 7)
                 (mkUser "annlee1" "batch1" (Some 7) 0 false)
                 ltac:(vm_compute; reflexivity)).
  destruct H as (_ & _ & _ & _ & _ & _ & _ & _ & _ & Htok & _ & Hseat & _).
  split; [apply Htok; discriminate|apply (Hseat 7 eq_refl)].
Defined.

Lemma api_signup_failure (st st' : State) (acc acc' : Accounts) (token : string)
    (name email password batchName : option string) (seat : option SeatId)
    (status : Z) (message : AuthMessage) :
  api_signup st acc token name email password batchName seat
  = (st', acc', AuthErr status message) ->
  st' = st /\ acc' = acc.
Proof.
  unfold api_signup. intros H.
  destruct (truthyStr name); [|now injection H as <- <-].
  destruct (truthyStr email) as [e|]; [|now injection H as <- <-].
  destruct (truthyStr password); [|now injection H as <- <-].
  destruct (truthyStr batchName) as [b|]; [|now injection H as <- <-].
  destruct (negb (isBatchName b)); [now injection H as <- <-|].
  destruct (usersByEmail acc !! e); [now injection H as <- <-|].
  destruct seat as [id|]; [|discriminate].
  destruct (getSeatDefinition st id); [discriminate|now injection H as <- <-].
Qed.

Lemma api_login_sessions (st : State) (acc : Accounts) (token : string) (ok : bool)
    (email password : option string) :
  fst (api_login st acc token ok email password) = acc \/
  exists uid user, users st !! uid = Some user /\
    fst (api_login st acc token ok email password) = createSession acc token (userId user).
Proof.
  unfold api_login.
  destruct (truthyStr email) as [e|]; [|now left].
  destruct (truthyStr password); [|now left].
  destruct (truthyStr (usersByEmail acc !! e)) as [uid|]; [|now left].
  destruct (users st !! uid) as [user|] eqn:Hu; [|now left].
  destruct ok; [|now left]. right. eauto.
Qed.

Lemma is_Some_insert_keep {A} (m : gmap string A) (k k' : string) (x : A) :
  is_Some (m !! k') -> is_Some (<[k := x]> m !! k').
Proof.
  intros H. destruct (decide (k = k')) as [->|Hne].
  - rewrite lookup_insert_eq. eauto.
  - now rewrite lookup_insert_ne.
Qed.

Lemma step_wellFormed (sys : State * Accounts) (e : Event) :
  wellFormed sys -> wellFormed (step sys e).
Proof.
  destruct sys as [st acc]. intros (Hkeys & Hno & Hses & Hmail). simpl in *.
  destruct e as [token nm em pw bt seat|token ok em pw|clk token r]; simpl.
  - destruct (api_signup st acc token nm em pw bt seat) as [[st' acc'] resp] eqn:Hcall.
    destruct resp as [t user|status message].
    + apply api_signup_success in Hcall as (e & b & H). cbv zeta in H.
      destruct H as (_ & _ & _ & _ & _ & Huser & _ & -> & ->).
      destruct (createUserId_named st e) as [Hne _].
      set (uid := createUserId st e) in *.
      assert (Hid : userId user = uid) by now subst user.
      assert (Had : isAdmin user = false) by now subst user.
      clearbody uid. clear Huser.
      unfold wellFormed, keysNamed, noAdministrator, accountsKnown.
      cbn [fst snd users set_users sessions usersByEmail].
      split; [|split; [|split]].
      * intros k u. destruct (decide (uid = k)) as [<-|Hk].
        -- rewrite lookup_insert_eq. intros H. injection H as <-. auto.
        -- rewrite lookup_insert_ne by exact Hk. apply Hkeys.
      * intros k u. destruct (decide (uid = k)) as [<-|Hk].
        -- rewrite lookup_insert_eq. intros H. now injection H as <-.
        -- rewrite lookup_insert_ne by exact Hk. apply Hno.
      * intros t0 u0. destruct (decide (token = t0)) as [<-|Ht].
        -- rewrite lookup_insert_eq. intros H. injection H as <-.
           rewrite lookup_insert_eq. eauto.
        -- rewrite lookup_insert_ne by exact Ht. intros H.
           apply is_Some_insert_keep. eapply Hses, H.
      * intros e0 u0. destruct (decide (e = e0)) as [<-|He].
        -- rewrite lookup_insert_eq. intros H. injection H as <-.
           rewrite lookup_insert_eq. eauto.
        -- rewrite lookup_insert_ne by exact He. intros H.
           apply is_Some_insert_keep. eapply Hmail, H.
    + apply api_signup_failure in Hcall as [-> ->].
      exact (conj Hkeys (conj Hno (conj Hses Hmail))).
  - unfold wellFormed. simpl. split; [exact Hkeys|]. split; [exact Hno|].
    destruct (api_login_sessions st acc token ok em pw) as [->|(uid & user & Hu & ->)];
      [now split|].
    split; [|exact Hmail]. simpl.
    intros t0 u0. destruct (decide (token = t0)) as [<-|Ht].
    + rewrite lookup_insert_eq. intros H. injection H as <-.
      destruct (Hkeys uid user Hu) as [-> _]. eauto.
    + rewrite lookup_insert_ne by exact Ht. apply Hses.
  - unfold serve, authMiddleware.
    destruct (getUserByToken st acc token) as [user|];
      [|exact (conj Hkeys (conj Hno (conj Hses Hmail)))].
    unfold wellFormed. cbn [fst snd].
    pose proof (handle_users_stable st clk (userId user) r) as Hst.
    split; [|split; [|split]].
    + intros k u Hk. specialize (Hst k). rewrite Hk in Hst.
      destruct (users st !! k) as [u0|] eqn:Hk0; [|contradiction].
      destruct Hst as [Hid _]. destruct (Hkeys k u0 Hk0) as [Hid0 Hne].
      split; [congruence|exact Hne].
    + intros k u Hk. specialize (Hst k). rewrite Hk in Hst.
      destruct (users st !! k) as [u0|] eqn:Hk0; [|contradiction].
      destruct Hst as [_ Had]. rewrite Had. eapply Hno, Hk0.
    + intros t0 u0 H. destruct (Hses t0 u0 H) as [u Hu]. specialize (Hst u0).
      rewrite Hu in Hst. destruct (users _ !! u0); [eauto|contradiction].
    + intros e0 u0 H. destruct (Hmail e0 u0 H) as [u Hu]. specialize (Hst u0).
      rewrite Hu in Hst. destruct (users _ !! u0); [eauto|contradiction].
Qed.

Lemma run_wellFormed (events : list Event) : wellFormed (run events).
Proof.
  unfold run.
  assert (H0 : wellFormed (initialState, noAccounts)).
  { split; [|split; [|split]]; intros ? ? Hl; vm_compute in Hl; discriminate. }
  revert H0. generalize (initialState, noAccounts).
  induction events as [|e events IH]; intros sys Hsys; simpl; [exact Hsys|].
  apply IH, step_wellFormed, Hsys.
Qed.

(* Under [keysNamed], the user that the middleware hands to the handler
   is the one the handler finds under the user's id. *)
Lemma getUserByToken_named (st : State) (acc : Accounts) (token : option string)
    (user : User) :
  keysNamed st -> getUserByToken st acc token = Some user ->
  users st !! userId user = Some user.
Proof.
  intros Hkeys. unfold getUserByToken.
  destruct (truthyStr token) as [t|]; [|discriminate].
  destruct (truthyStr (sessions acc !! t)) as [uid|]; [|discriminate].
  intros Hu. destruct (Hkeys uid user Hu) as [-> _]. exact Hu.
Qed.

(** A server that starts without users never has an administrator:
    after any sequence of sign-ups, logins and requests, every stored
    user is stored under the user's own id and has the administrator flag
    off, and every administrative request is answered 401 or 403 and
    changes nothing. *)
Theorem no_administrator_ever (events : list Event) (clk : Clock)
    (token : option string) (r : Request) :
  isAdminRequest r = true ->
  let st := fst (run events) in
  let acc := snd (run events) in
  (forall k u, users st !! k = Some u -> userId u = k /\ isAdmin u = false) /\
  (serve st acc clk token r = (st, RespErr 401 MsgUnauthorized) \/
   serve st acc clk token r = (st, RespErr 403 MsgAdminRequired)).
Proof.
  intros Hr. cbv zeta.
  destruct (run_wellFormed events) as (Hkeys & Hno & _).
  split.
  - intros k u Hk. split; [apply (Hkeys k u Hk)|apply (Hno k u Hk)].
  - unfold serve, authMiddleware.
    destruct (getUserByToken _ _ token) as [user|] eqn:Htok; [right|now left].
    pose proof (getUserByToken_named _ _ _ _ Hkeys Htok) as Hu.
    pose proof (Hno _ _ Hu) as Ha.
    destruct r; try discriminate; simpl;
      unfold api_admin_reset, api_admin_force_cancel, api_admin_batch_schedule,
        api_admin_seat_type, api_admin_assign_seat, api_admin_holidays,
        withAdmin, withUser; now rewrite Hu, Ha.
Qed.

Lemma no_administrator_ever_witness :
  serve (fst (run tenSignups)) (snd (run tenSignups)) morning (Some "t1") AdminReset
  = (fst (run tenSignups), RespErr 403 MsgAdminRequired).
Proof.
  destruct (no_administrator_ever tenSignups morning (Some "t1") AdminReset eq_refl)
    as [_ [H|H]]; [|exact H].
  vm_compute in H. discriminate.
Defined.

(** A sign-up never checks whether the id it generates is taken.  When
    it is, no user is added: the record of the earlier user is replaced
    by the newcomer's, the email and the live sessions of the earlier
    user now open the newcomer's account, and the bookings made under the
    id count as the newcomer's. *)
Theorem signup_replaces_colliding_user (st st' : State) (acc acc' : Accounts)
    (token t : string) (name email password batchName : option string)
    (seat : option SeatId) (user old : User) :
  keysNamed st ->
  api_signup st acc token name email password batchName seat = (st', acc', AuthOk t user) ->
  users st !! userId user = Some old ->
  userId old = userId user /\
  users st' !! userId old = Some user /\
  size (users st') = size (users st) /\
  (forall e, usersByEmail acc !! e = Some (userId old) ->
             usersByEmail acc' !! e = Some (userId user)) /\
  (forall tk, tk <> EmptyString -> sessions acc !! tk = Some (userId old) ->
              getUserByToken st' acc' (Some tk) = Some user) /\
  (forall d s, holdsBooking st (userId old) d s -> ownsBooking st' user d s = true).
Proof.
  intros Hkeys Hcall Hold.
  destruct (Hkeys _ _ Hold) as [Hid Hne].
  apply api_signup_success in Hcall as (e & b & H). cbv zeta in H.
  destruct H as (_ & _ & _ & Hfree & _ & Huser & _ & -> & ->).
  assert (Hu : userId user = createUserId st e) by now subst user.
  rewrite <- Hu in *. clear Huser. rewrite Hid.
  split; [reflexivity|]. split; [simpl; apply lookup_insert_eq|].
  split; [simpl; apply map_size_insert_Some; eauto|].
  split; [|split].
  - intros e0 He0. simpl. destruct (decide (e = e0)) as [<-|Hne0].
    + apply lookup_insert_eq.
    + now rewrite lookup_insert_ne.
  - intros tk Htk Hs. unfold getUserByToken. simpl.
    destruct (String.eqb_spec tk EmptyString) as [|_]; [contradiction|].
    assert (Hlook : <[token := userId user]> (sessions acc) !! tk = Some (userId user)).
    { destruct (decide (token = tk)) as [<-|Hne0];
        [apply lookup_insert_eq|now rewrite lookup_insert_ne]. }
    rewrite Hlook. simpl.
    destruct (String.eqb_spec (userId user) EmptyString) as [|_]; [contradiction|].
    apply lookup_insert_eq.
  - intros d s (bk & Hin & Hd & Hs & Hb). unfold ownsBooking.
    assert (Hbk : bookings (set_users
                    match seat with
                    | Some id => updateSeatDefinition st id (fun def =>
                                   mkSeatDef (seatId def) designated (Some (userId user)))
                    | None => st
                    end (<[userId user := user]> (users st))) = bookings st).
    { destruct seat; [|reflexivity]. unfold updateSeatDefinition.
      destruct (findIndex _ (seatDefinitions st)); reflexivity. }
    rewrite Hbk.
    destruct (List.find _ (bookings st)) eqn:Hf; [reflexivity|].
    apply (List.find_none _ _ Hf) in Hin.
    rewrite Hd, Hs, Hb, !Z.eqb_refl, String.eqb_refl in Hin. discriminate.
Qed.

Lemma signup_replaces_colliding_user_witness :
  users (fst (fst eleventhSignup)) !! "a11" = Some (mkUser "a11" "batch2" None 0 false) /\
  ownsBooking (fst (fst eleventhSignup)) (mkUser "a11" "batch2" None 0 false) wednesday 41
  = true.
Proof.
  assert (Hkeys : keysNamed (fst (run tenSignups))) by apply (run_wellFormed tenSignups).
  assert (H := signup_replaces_colliding_user
                 (fst (run tenSignups)) (fst (fst eleventhSignup))
                 (snd (run tenSignups)) (snd (fst eleventhSignup))
                 "t11" "t11" (Some "name") (Some "a@y.io") (Some "secret") (Some "batch2")
                 None (mkUser "a11" "batch2" None 0 false)
                 (mkUser "a11" "batch1" None 0 false)
                 Hkeys ltac:(vm_compute; reflexivity) ltac:(vm_compute; reflexivity)).
  destruct H as (_ & Hrec & _ & _ & _ & Hown).
  split; [exact Hrec|]. apply Hown.
  exists (mkBooking wednesday 41 "a11" 1000). vm_compute. tauto.
Defined.

(** ** The lock store of the states that a run reaches *)

(** A request either filters the lock store or is a lock request that
    has passed its availability loop and places its locks on the purged
    store. *)
Lemma handle_locks_shape (st : State) (clk : Clock) (caller : UserId) (r : Request) :
  (exists keep, locks (fst (handle st clk caller r)) = List.filter keep (locks st)) \/
  (exists user date seatIds,
     users st !! caller = Some user /\
     lockCheck (clearExpiredLocksForDate (tsPurge clk) date st) user date (tsCheck clk) seatIds
       = None /\
     locks (fst (handle st clk caller r)) =
       fold_left (placeLock user date (tsCheck clk + LOCK_DURATION_MS)) seatIds
         (locks (clearExpiredLocksForDate (tsPurge clk) date st))).
Proof.
  assert (Hsame : exists keep : Lock -> bool, locks st = List.filter keep (locks st)).
  { exists (fun _ => true). symmetry. apply filter_all. reflexivity. }
  destruct r; simpl.
  - left. unfold api_seats, withUser. destruct (users st !! caller); [|exact Hsame].
    destruct date; [|exact Hsame]. eexists. reflexivity.
  - left. unfold api_leave, withUser. destruct (users st !! caller) as [user|]; [|exact Hsame].
    destruct date as [date|]; [|exact Hsame].
    destruct (List.find _ (leaves st)); [exact Hsame|].
    destruct (truthySeat (designatedSeatId user)); exact Hsame.
  - unfold api_lock, withUser. destruct (users st !! caller) as [user|] eqn:Hu; [|left; exact Hsame].
    destruct date as [date|]; [|left; exact Hsame].
    destruct (validateSeatIds st seatIds); [left; exact Hsame|].
    destruct (isWeekend date || isHoliday st date); [left; exact Hsame|].
    destruct (validateBookingPolicy st clk user date seatIds); [left; exact Hsame|].
    destruct (lockCheck _ user date (tsCheck clk) seatIds) eqn:Hc.
    + left. eexists. reflexivity.
    + right. exists user, date, seatIds. auto.
  - left. unfold api_unlock, withUser. destruct (users st !! caller); [|exact Hsame].
    destruct date; [|exact Hsame]. destruct (validateSeatIds st seatIds); [exact Hsame|].
    eexists. reflexivity.
  - left. unfold api_book, withUser. destruct (users st !! caller) as [user|]; [|exact Hsame].
    destruct date as [date|]; [|exact Hsame].
    destruct (validateSeatIds st seatIds); [exact Hsame|].
    destruct (MAX_SEATS_PER_BOOKING <? Z.of_nat (length seatIds)); [exact Hsame|].
    destruct (validateBookingPolicy st clk user date seatIds); [exact Hsame|].
    destruct (bookCheck _ user date (tsCheck clk) seatIds).
    + eexists. reflexivity.
    + cbn [fst]. rewrite commit_locks. simpl. rewrite filter_filter_and.
      eexists. reflexivity.
  - left. unfold api_cancel, withUser. destruct (users st !! caller) as [user|]; [|exact Hsame].
    destruct date as [date|]; [|exact Hsame].
    destruct (validateSeatIds st seatIds); [exact Hsame|].
    destruct (truthyFound _); [exact Hsame|]. eexists. reflexivity.
  - left. unfold api_user_batch, withUser.
    destruct (users st !! caller) as [user|]; [|exact Hsame].
    destruct (truthyStr newBatch) as [nb|]; [|exact Hsame].
    destruct (negb (isBatchName nb)); [exact Hsame|].
    destruct (existsb _ (bookings st)); exact Hsame.
  - left. unfold api_admin_reset, withAdmin, withUser.
    destruct (users st !! caller) as [user|]; [|exact Hsame].
    destruct (negb (isAdmin user)); [exact Hsame|].
    exists (fun _ => false). symmetry. apply filter_none. reflexivity.
  - left. unfold api_admin_force_cancel, withAdmin, withUser.
    destruct (users st !! caller) as [user|]; [|exact Hsame].
    destruct (negb (isAdmin user)); [exact Hsame|].
    destruct date as [date|]; [|exact Hsame]. destruct seat as [seat|]; [|exact Hsame].
    destruct (negb (truthyNum seat)); [exact Hsame|]. eexists. reflexivity.
  - left. unfold api_admin_batch_schedule, withAdmin, withUser.
    destruct (users st !! caller) as [user|]; [|exact Hsame].
    destruct (negb (isAdmin user)); [exact Hsame|]. destruct schedule; exact Hsame.
  - left. unfold api_admin_seat_type, withAdmin, withUser, updateSeatDefinition.
    destruct (users st !! caller) as [user|]; [|exact Hsame].
    destruct (negb (isAdmin user)); [exact Hsame|].
    destruct seat as [seat|]; [|exact Hsame]. destruct newType as [ty|]; [|exact Hsame].
    destruct (negb (truthyNum seat)); [exact Hsame|].
    destruct (getSeatDefinition st seat); [|exact Hsame].
    destruct (findIndex _ (seatDefinitions st)); exact Hsame.
  - left. unfold api_admin_assign_seat, withAdmin, withUser, updateSeatDefinition.
    destruct (users st !! caller) as [user|]; [|exact Hsame].
    destruct (negb (isAdmin user)); [exact Hsame|].
    destruct (truthyStr uid) as [u|]; [|exact Hsame]. destruct seat as [seat|]; [|exact Hsame].
    destruct (negb (truthyNum seat)); [exact Hsame|].
    destruct (getSeatDefinition st seat); [|exact Hsame].
    destruct (users st !! u); [|exact Hsame].
    destruct (findIndex _ (seatDefinitions st)); exact Hsame.
  - left. unfold api_admin_holidays, withAdmin, withUser.
    destruct (users st !! caller) as [user|]; [|exact Hsame].
    destruct (negb (isAdmin user)); [exact Hsame|].
    destruct date; [|exact Hsame]. destruct markHoliday as [[|]|]; exact Hsame.
Qed.

(** A request of a user whose id is not empty keeps every lock named. *)
Lemma handle_keeps_holdersNamed (st : State) (clk : Clock) (caller : UserId) (r : Request) :
  (forall u, users st !! caller = Some u -> userId u <> EmptyString) ->
  holdersNamed st -> holdersNamed (fst (handle st clk caller r)).
Proof.
  intros Hcaller Hst l Hin.
  destruct (handle_locks_shape st clk caller r)
    as [(keep & Hk)|(user & date & seatIds & Hu & _ & Hk)]; rewrite Hk in Hin.
  - apply filter_In in Hin as [Hin _]. now apply Hst.
  - apply placeLocks_In in Hin as [Hin|(s & _ & ->)].
    + simpl in Hin. apply filter_In in Hin as [Hin _]. now apply Hst.
    + simpl. now apply Hcaller.
Qed.

Lemma liveLocksUnique_later (T T' : Z) (st : State) :
  T <= T' -> liveLocksUnique T st -> liveLocksUnique T' st.
Proof.
  intros Hle Hst date seat. etransitivity; [|apply (Hst date seat)].
  apply filter_length_impl. intros a _ Ha. apply andb_true_iff in Ha as [Hq Hl].
  rewrite Hq. simpl. apply Z.ltb_lt in Hl. apply Z.ltb_lt. lia.
Qed.

Lemma filter_filter_length {A} (f keep : A -> bool) (l : list A) :
  (length (List.filter f (List.filter keep l)) <= length (List.filter f l))%nat.
Proof.
  rewrite filter_filter_and. apply filter_length_impl.
  intros a _ Ha. now apply andb_true_iff in Ha as [_ Ha].
Qed.

Lemma placeLocks_filter_other (user : User) (date d : Date) (e : Z) (s : Z)
    (seatIds : list Z) :
  d <> date \/ ~ In s seatIds ->
  forall ls,
    List.filter (lockOf d s) (fold_left (placeLock user date e) seatIds ls)
    = List.filter (lockOf d s) ls.
Proof.
  intros Hother. induction seatIds as [|t rest IH]; intros ls; simpl; [reflexivity|].
  assert (Hkey : (date =? d) && (t =? s) = false).
  { destruct (Z.eqb_spec date d) as [Hd|Hd]; [|reflexivity].
    destruct (Z.eqb_spec t s) as [Ht|Ht]; [|reflexivity].
    exfalso. destruct Hother as [Hne|Hnot]; [congruence|]. apply Hnot. now left. }
  rewrite IH by (destruct Hother as [Hne|Hnot]; [now left|right; intros Hin; apply Hnot; now right]).
  rewrite placeLock_upsert. apply filter_upsert_other.
  - rewrite lockOf_fresh. exact Hkey.
  - intros a Ha. unfold ownLockOf in Ha. apply andb_true_iff in Ha as [Ha _].
    apply andb_true_iff in Ha as [Hd Hs]. apply Z.eqb_eq in Hd, Hs.
    unfold lockOf. now rewrite Hd, Hs, (Z.eqb_sym date d) in *.
Qed.

(** A lock request whose reads are not before [T] keeps at most one live
    lock per seat and date, from its check on. *)
Lemma placeLocks_keep_live_unique (T : Z) (st : State) (clk : Clock) (user : User)
    (date : Date) (seatIds : list Z) :
  T <= tsPurge clk -> T <= tsCheck clk ->
  liveLocksUnique T st ->
  lockCheck (clearExpiredLocksForDate (tsPurge clk) date st) user date (tsCheck clk) seatIds
    = None ->
  forall d s,
    (length (List.filter (fun l => lockOf d s l && Z.ltb (tsCheck clk) (lockExpiry l))
               (fold_left (placeLock user date (tsCheck clk + LOCK_DURATION_MS)) seatIds
                  (locks (clearExpiredLocksForDate (tsPurge clk) date st)))) <= 1)%nat.
Proof.
  intros HP HC Hst Hcheck d s.
  set (st1 := clearExpiredLocksForDate (tsPurge clk) date st) in *.
  destruct (Z.eq_dec d date) as [->|Hd];
    [destruct (in_dec Z.eq_dec s seatIds) as [Hs|Hs]|].
  - assert (Hown : ownWhenLive user date (tsCheck clk) s
                     (fold_left (placeLock user date (tsCheck clk + LOCK_DURATION_MS)) seatIds
                        (locks st1))).
    { apply placeLocks_ownWhenLive.
      apply purged_ownWhenLive with (seatIds := seatIds); [|exact Hcheck|exact Hs].
      now apply (liveLocksUnique_later T). }
    destruct Hown as [Hcnt Hmine].
    etransitivity; [|exact Hcnt]. apply filter_length_impl.
    intros a Ha Hq. apply andb_true_iff in Hq as [Hq Hl]. apply Z.ltb_lt in Hl.
    rewrite ownLockOf_lockOf, Hq. simpl. now apply Hmine.
  - rewrite <- filter_filter_and, placeLocks_filter_other by (now right).
    rewrite filter_filter_and. simpl. etransitivity; [apply filter_filter_length|].
    apply (liveLocksUnique_later T (tsCheck clk) st HC Hst date s).
  - rewrite <- filter_filter_and, placeLocks_filter_other by (now left).
    rewrite filter_filter_and. simpl. etransitivity; [apply filter_filter_length|].
    apply (liveLocksUnique_later T (tsCheck clk) st HC Hst d s).
Qed.

(** Under a clock that does not go back, every request keeps at most one
    live lock per seat and date. *)
Lemma handle_keeps_live_locks_unique (T : Z) (st : State) (clk : Clock) (caller : UserId)
    (r : Request) :
  T <= tsPurge clk -> T <= tsCheck clk ->
  liveLocksUnique T st -> liveLocksUnique (tsCheck clk) (fst (handle st clk caller r)).
Proof.
  intros HP HC Hst.
  destruct (handle_locks_shape st clk caller r)
    as [(keep & Hk)|(user & date & seatIds & _ & Hcheck & Hk)];
    intros d s; rewrite Hk.
  - etransitivity; [apply filter_filter_length|].
    apply (liveLocksUnique_later T (tsCheck clk) st HC Hst d s).
  - now apply (placeLocks_keep_live_unique T).
Qed.

Lemma api_signup_locks (st : State) (acc : Accounts) (token : string)
    (name email password batchName : option string) (seat : option SeatId) :
  locks (fst (fst (api_signup st acc token name email password batchName seat))) = locks st.
Proof.
  destruct (api_signup st acc token name email password batchName seat)
    as [[st' acc'] [t user|status message]] eqn:Hcall.
  - apply api_signup_success in Hcall as (e & b & H). cbv zeta in H.
    destruct H as (_ & _ & _ & _ & _ & _ & _ & -> & _). simpl.
    destruct seat as [id|]; [|reflexivity]. unfold updateSeatDefinition.
    destruct (findIndex _ (seatDefinitions st)); reflexivity.
  - now apply api_signup_failure in Hcall as [-> _].
Qed.

(** Every state that a run reaches has its locks named, whatever the
    clock does. *)
Lemma run_holdersNamed (events : list Event) : holdersNamed (fst (run events)).
Proof.
  unfold run.
  assert (H0 : wellFormed (initialState, noAccounts) /\
               holdersNamed (fst (initialState, noAccounts))).
  { split; [apply (run_wellFormed [])|]. intros l []. }
  revert H0. generalize (initialState, noAccounts).
  induction events as [|e events IH]; intros sys [Hwf Hnamed]; simpl; [exact Hnamed|].
  apply IH. split; [now apply step_wellFormed|].
  destruct sys as [st acc]. destruct Hwf as (Hkeys & _). simpl in *.
  destruct e as [token nm em pw bt seat|token ok em pw|clk token r]; simpl.
  - unfold holdersNamed. rewrite api_signup_locks. exact Hnamed.
  - exact Hnamed.
  - unfold serve, authMiddleware.
    destruct (getUserByToken st acc token) as [user|] eqn:Htok; [|exact Hnamed].
    apply handle_keeps_holdersNamed; [|exact Hnamed].
    pose proof (getUserByToken_named _ _ _ _ Hkeys Htok) as Hu.
    intros u Hu'. rewrite Hu in Hu'. injection Hu' as <-.
    now destruct (Hkeys _ _ Hu).
Qed.

(** Every state that a run reaches under a clock that does not go back
    holds at most one live lock per seat and date. *)
Lemma run_live_locks_unique (events : list Event) (T : Z) :
  clockInOrder T events -> liveLocksUnique (lastRead T events) (fst (run events)).
Proof.
  unfold run.
  assert (H0 : liveLocksUnique T (fst (initialState, noAccounts))).
  { intros d s. simpl. lia. }
  revert H0. generalize (initialState, noAccounts). revert T.
  induction events as [|e events IH]; intros T sys Hst Hclk; simpl; [exact Hst|].
  destruct sys as [st acc]. simpl in Hst.
  destruct e as [token nm em pw bt seat|token ok em pw|clk token r]; simpl in *.
  - apply IH; [|exact Hclk]. intros d s. rewrite api_signup_locks. apply Hst.
  - apply IH; [exact Hst|exact Hclk].
  - destruct Hclk as (HP & HPC & Hrest). apply IH; [|exact Hrest].
    unfold serve, authMiddleware.
    destruct (getUserByToken st acc token) as [user|].
    + apply (handle_keeps_live_locks_unique T); [exact HP|lia|exact Hst].
    + apply (liveLocksUnique_later T); [lia|exact Hst].
Qed.
